(** * Verification of the Bitbucket transport layer

    Shallow embedding of [src/utils/transport.util.ts]:
    [getAtlassianCredentials] and [fetchAtlassian], together with the part of
    the JavaScript runtime they rely on (strings, [parseInt], [JSON.parse],
    [JSON.stringify], [Buffer] base64, timers).

    Conventions.
    - A JavaScript string is the list of its UTF-16 code units ([jstring]).
    - Logging calls ([methodLogger.debug] and the like) have no effect on the
      result; their arguments are evaluated all the same, and a template
      literal among them that converts a value of the response to a string can
      throw: those conversions are part of the model.
    - [error.util.ts], [config.util.ts] and [constants.util.ts] are not part
      of the sources at hand: the three error factories are the constructors
      of [McpError]; the configuration read by [config.get] is a finite map
      from keys to strings; the default timeout and the size limit are fields
      of the environment [Env]. *)

From Stdlib Require Import ZArith NArith List Ascii String Bool Lia DecimalString
  DecimalN.
From stdpp Require Import base option list gmap strings.

Set Warnings "-register-all".

Open Scope N_scope.

(** ** JavaScript strings *)

Abbreviation jstring := (list N).

(** The code units of an ASCII literal. *)
Definition lit (s : string) : jstring :=
  map N_of_ascii (list_ascii_of_string s).

(** The same, with every apostrophe standing for a quotation mark: the
    notation used here for JSON texts. *)
Definition quoted (s : string) : jstring :=
  map (fun c => if N.eqb c 39 then 34 else c) (lit s).

Arguments lit : simpl never.
Arguments quoted : simpl never.

Fixpoint jstr_eqb (a b : jstring) : bool :=
  match a, b with
  | [], [] => true
  | x :: a', y :: b' => N.eqb x y && jstr_eqb a' b'
  | _, _ => false
  end.

(** [s.startsWith(p)] *)
Fixpoint startsWith (p s : jstring) : bool :=
  match p, s with
  | [], _ => true
  | x :: p', y :: s' => N.eqb x y && startsWith p' s'
  | _ :: _, [] => false
  end.

(** [s.includes(p)] *)
Fixpoint includes (p s : jstring) : bool :=
  startsWith p s ||
  match s with
  | [] => false
  | _ :: s' => includes p s'
  end.

(** ECMAScript WhiteSpace and LineTerminator code points, the characters
    removed by [String.prototype.trim] and skipped by [parseInt]. *)
Definition whiteSpaceCodes : list N :=
  [ 9; 10; 11; 12; 13; 32; 160; 5760;
    8192; 8193; 8194; 8195; 8196; 8197; 8198; 8199; 8200; 8201; 8202;
    8232; 8233; 8239; 8287; 12288; 65279 ].

Definition isWhiteSpace (c : N) : bool :=
  existsb (N.eqb c) whiteSpaceCodes.

Fixpoint trimStart (s : jstring) : jstring :=
  match s with
  | c :: s' => if isWhiteSpace c then trimStart s' else s
  | [] => []
  end.

(** [s.trim()] *)
Definition trim (s : jstring) : jstring :=
  rev (trimStart (rev (trimStart s))).

(** Truthiness of a string: non-empty. *)
Definition nonEmpty (s : jstring) : bool :=
  match s with [] => false | _ => true end.

(** Truthiness of [string | undefined]. *)
Definition truthyStr (o : option jstring) : bool :=
  match o with Some s => nonEmpty s | None => false end.

(** [a || b] on [string | undefined] values. *)
Definition orElse (a b : option jstring) : option jstring :=
  if truthyStr a then a else b.

(** The decimal numeral of an integer: the text of an integer-valued Number
    of magnitude at most 2^53, the status of a response for one. *)
Definition decimalN (n : N) : jstring :=
  lit (NilZero.string_of_uint (N.to_uint n)).

Definition decimalZ (z : Z) : jstring :=
  match z with
  | Zneg p => lit "-" ++ decimalN (Npos p)
  | _ => decimalN (Z.to_N z)
  end.

(** ** Numbers the code computes with

    The Numbers that the code itself compares, divides and prints (the
    declared length of a response, the size limit, the timeout, the page
    numbers) are IEEE-754 doubles.  A finite double is the dyadic rational
    [n / 2^k] in lowest terms ([k] is 0, or [n] is odd). *)

Inductive double :=
| Dyadic (n : Z) (k : Z)
| NegativeZero
| Infinite (negative : bool)
| NaN.

Section Doubles.

Local Open Scope Z_scope.

(** The exponent of the largest power of two that divides [m], for [m]
    other than 0. *)
Definition twos (m : Z) : Z := Z.log2 (Z.land m (- m)).

(** [m * 2^e] in lowest terms. *)
Definition dyadic (m e : Z) : double :=
  if 0 <=? e then Dyadic (m * 2 ^ e) 0
  else
    let t := Z.min (twos m) (- e) in
    Dyadic (m / 2 ^ t) (- e - t).

(** The double nearest to [p / q], for [q > 0]: 53 significant bits, fewer
    below 2^-1022; a tie goes to the even mantissa; the result is infinite
    from 2^1024 - 2^970 on. *)
Definition nearest (p q : Z) : double :=
  if p =? 0 then Dyadic 0 0
  else
    let a := Z.abs p in
    let num e := if 0 <=? e then a else a * 2 ^ (- e) in
    let den e := if 0 <=? e then q * 2 ^ e else q in
    let e0 := Z.log2 a - Z.log2 q - 52 in
    let e1 := if num e0 / den e0 <? 2 ^ 52 then e0 - 1 else e0 in
    let e := Z.max e1 (-1074) in
    let m := num e / den e in
    let r := num e mod den e in
    let up :=
      if 2 * r <? den e then false
      else if den e <? 2 * r then true
      else Z.odd m in
    let m' := if up then m + 1 else m in
    if 2 ^ 1024 <=? m' * 2 ^ e then Infinite (p <? 0)
    else if m' =? 0 then (if p <? 0 then NegativeZero else Dyadic 0 0)
    else dyadic (if p <? 0 then - m' else m') e.

(** The Number value of an integer: the integer itself up to 2^53. *)
Definition ofZ (z : Z) : double :=
  if Z.abs z <=? 2 ^ 53 then Dyadic z 0 else nearest z 1.

(** [x / d] for an integer [d > 0] that is a double. *)
Definition divide (x : double) (d : Z) : double :=
  match x with
  | Dyadic n k => nearest n (2 ^ k * d)
  | _ => x
  end.

(** [Math.round(x)]: the integer nearest to [x], the greater of two that
    are as near. *)
Definition mathRound (x : double) : double :=
  match x with
  | Dyadic n k =>
      if k =? 0 then x
      else
        let r := (2 * n + 2 ^ k) / 2 ^ (k + 1) in
        if (r =? 0) && (n <? 0) then NegativeZero else Dyadic r 0
  | _ => x
  end.

(** [x > y] *)
Definition gt (x y : double) : bool :=
  match x, y with
  | NaN, _ | _, NaN => false
  | Infinite false, Infinite false => false
  | Infinite false, _ => true
  | Infinite true, _ => false
  | _, Infinite false => false
  | _, Infinite true => true
  | Dyadic n k, Dyadic n' k' => n' * 2 ^ k <? n * 2 ^ k'
  | Dyadic n _, NegativeZero => 0 <? n
  | NegativeZero, Dyadic n' _ => n' <? 0
  | NegativeZero, NegativeZero => false
  end.

(** ToBoolean: false on +0, -0 and NaN *)
Definition nonZero (x : double) : bool :=
  match x with
  | Dyadic n _ => negb (n =? 0)
  | NegativeZero | NaN => false
  | Infinite _ => true
  end.

(** *** Number::toString

    For the positive double [a / 2^j]: the decimal digits [s], their number
    [kd] and the position [point] of the decimal point, such that
    [s * 10^(point - kd)] is the decimal of the fewest digits that rounds to
    the double, the nearest to it of those.  Every quantity is an integer
    number of units [2^-D]. *)

Section Shortest.

Variables (a j : Z).

(** The exponent of the unit in the last place, and the doubles that
    round to [a / 2^j]: the interval from [LO] to [HI], with its ends when the
    mantissa is even. *)
Let lg := Z.log2 a - j.
Let e := Z.max (lg - 52) (-1074).
Let D := Z.max j (Z.max 0 (2 - e)).
Let V := a * 2 ^ (D - j).
Let half := 2 ^ (D + e - 1).
Let quarter := 2 ^ (D + e - 2).
Let boundary := (a =? 2 ^ Z.log2 a) && (-1074 <? lg - 52).
Let HI := V + half.
Let LO := V - (if boundary then quarter else half).
Let inclusive := Z.even (V / 2 ^ (D + e)).

(** [a / 2^j < 10^n] *)
Definition below (n : Z) : bool :=
  if 0 <=? n then V <? 10 ^ n * 2 ^ D else V * 10 ^ (- n) <? 2 ^ D.

Fixpoint pointFrom (fuel : nat) (n : Z) : Z :=
  match fuel with
  | O => n
  | S fuel' => if below n then n else pointFrom fuel' (n + 1)
  end.

(** The least [n] with [a / 2^j < 10^n], sought from an estimate that is
    not above it. *)
Definition point : Z := pointFrom 8 (lg * 30103 / 100000).

(** The candidate [s * 10^t] of [kd] digits (or the power of ten just
    above them): its distance to the double and [s], when it rounds to the
    double. *)
Definition candidate (kd t s : Z) : option (Z * Z) :=
  let scale := if 0 <=? t then 1 else 10 ^ (- t) in
  let X := if 0 <=? t then s * 10 ^ t * 2 ^ D else s * 2 ^ D in
  let inside :=
    if inclusive then (LO * scale <=? X) && (X <=? HI * scale)
    else (LO * scale <? X) && (X <? HI * scale) in
  if (10 ^ (kd - 1) <=? s) && (s <=? 10 ^ kd) && inside
  then Some (Z.abs (X - V * scale), s)
  else None.

(** The integer part of [a / 2^j / 10^t] *)
Definition floorAt (t : Z) : Z :=
  if 0 <=? t then V / (10 ^ t * 2 ^ D) else V * 10 ^ (- t) / 2 ^ D.

(** The nearer of two candidates, the even one of two that are as near. *)
Definition better (x y : option (Z * Z)) : option (Z * Z) :=
  match x, y with
  | Some (dx, sx), Some (dy, sy) =>
      if dx <? dy then x
      else if dy <? dx then y
      else if Z.even sx then x else y
  | Some _, None => x
  | None, _ => y
  end.

Definition digitsAt (kd : Z) : option (Z * Z) :=
  let t := point - kd in
  better (candidate kd t (floorAt t)) (candidate kd t (floorAt t + 1)).

Fixpoint shortestFrom (fuel : nat) (kd : Z) : Z * Z * Z :=
  match fuel with
  | O => (floorAt (point - kd), kd, point)
  | S fuel' =>
      match digitsAt kd with
      | Some (_, s) =>
          if s =? 10 ^ kd then (10 ^ (kd - 1), kd, point + 1) else (s, kd, point)
      | None => shortestFrom fuel' (kd + 1)
      end
  end.

(** Seventeen digits tell any two doubles apart. *)
Definition shortest : Z * Z * Z := shortestFrom 17 1.

End Shortest.

Definition zeros (n : Z) : jstring := repeat 48%N (Z.to_nat n).

Definition printPositive (a j : Z) : jstring :=
  let '(s, kd, n) := shortest a j in
  let digits := decimalZ s in
  if (kd <=? n) && (n <=? 21) then digits ++ zeros (n - kd)
  else if (0 <? n) && (n <=? 21) then
    take (Z.to_nat n) digits ++ lit "." ++ drop (Z.to_nat n) digits
  else if (-6 <? n) && (n <=? 0) then lit "0." ++ zeros (- n) ++ digits
  else
    let exponent :=
      (if n - 1 <? 0 then lit "e-" else lit "e+") ++ decimalZ (Z.abs (n - 1)) in
    if kd =? 1 then digits ++ exponent
    else take 1 digits ++ lit "." ++ drop 1 digits ++ exponent.

(** ToString of a Number, as in a template literal and in
    [Number.prototype.toString()]. *)
Definition toString (x : double) : jstring :=
  match x with
  | Dyadic n k =>
      if n =? 0 then lit "0"
      else if n <? 0 then lit "-" ++ printPositive (- n) k
      else printPositive n k
  | NegativeZero => lit "0"
  | Infinite false => lit "Infinity"
  | Infinite true => lit "-Infinity"
  | NaN => lit "NaN"
  end.

End Doubles.

Definition isDigit (c : N) : bool := (48 <=? c) && (c <=? 57).

Fixpoint digitsValue (acc : Z) (s : jstring) : Z * jstring :=
  match s with
  | c :: s' =>
      if isDigit c then digitsValue (10 * acc + Z.of_N (c - 48))%Z s'
      else (acc, s)
  | [] => (acc, [])
  end.

(** [parseInt(s, 10)]: leading white space is skipped, an optional sign is
    read, then the longest run of decimal digits; the result is the Number
    value of the integer they denote, [-0] for a negated zero, and NaN when
    there is no digit. *)
Definition parseInt10 (s : jstring) : double :=
  let t := trimStart s in
  let '(neg, u) :=
    match t with
    | 45 :: u => (true, u)
    | 43 :: u => (false, u)
    | _ => (false, t)
    end in
  match u with
  | c :: _ =>
      if isDigit c then
        let v := fst (digitsValue 0%Z u) in
        if neg then (if (v =? 0)%Z then NegativeZero else ofZ (- v)) else ofZ v
      else NaN
  | [] => NaN
  end.

(** [Math.round(n / (1024 * 1024))] in a template literal. *)
Definition megabytes (n : double) : jstring :=
  toString (mathRound (divide n 1048576)).

(** ** Credentials ([getAtlassianCredentials]) *)

(** [interface AtlassianCredentials]: every field is optional. *)
Record AtlassianCredentials := {
  oauthToken : option jstring;
  useOAuth : option bool;
  siteName : option jstring;
  userEmail : option jstring;
  apiToken : option jstring;
  bitbucketUsername : option jstring;
  bitbucketAppPassword : option jstring;
  useBitbucketAuth : option bool
}.

(** [getAtlassianCredentials()], lines 49-101.  The process-wide
    configuration read through [config.get(key)] is the map [config];
    [None] is the result [null]. *)
Definition getAtlassianCredentials (config : gmap string jstring)
  : option AtlassianCredentials :=
  let oauth :=
    orElse (config !! "BITBUCKET_ACCESS_TOKEN"%string)
           (config !! "BITBUCKET_OAUTH_TOKEN"%string) in
  if truthyStr oauth then
    Some {| oauthToken := oauth; useOAuth := Some true;
            siteName := None; userEmail := None; apiToken := None;
            bitbucketUsername := None; bitbucketAppPassword := None;
            useBitbucketAuth := None |}
  else
    let site := config !! "ATLASSIAN_SITE_NAME"%string in
    let email := config !! "ATLASSIAN_USER_EMAIL"%string in
    let token := config !! "ATLASSIAN_API_TOKEN"%string in
    if truthyStr email && truthyStr token then
      Some {| oauthToken := None; useOAuth := None;
              siteName := site; userEmail := email; apiToken := token;
              bitbucketUsername := None; bitbucketAppPassword := None;
              useBitbucketAuth := Some false |}
    else
      let username := config !! "ATLASSIAN_BITBUCKET_USERNAME"%string in
      let password := config !! "ATLASSIAN_BITBUCKET_APP_PASSWORD"%string in
      if truthyStr username && truthyStr password then
        Some {| oauthToken := None; useOAuth := None;
                siteName := None; userEmail := None; apiToken := None;
                bitbucketUsername := username; bitbucketAppPassword := password;
                useBitbucketAuth := Some true |}
      else None.

(** The three authentication schemes. *)
Inductive variant := OAuthToken | BasicEmailToken | BasicUsernamePassword.

(** The scheme that the flags of a credentials object select; this is the
    test [fetchAtlassian] makes (lines 125, 131, 144). *)
Definition variantOf (c : AtlassianCredentials) : variant :=
  if default false (useOAuth c) then OAuthToken
  else if default false (useBitbucketAuth c) then BasicUsernamePassword
  else BasicEmailToken.

(** Some field that belongs to scheme [v] is set in [c]. *)
Definition populates (c : AtlassianCredentials) (v : variant) : bool :=
  match v with
  | OAuthToken => bool_decide (is_Some (oauthToken c))
  | BasicEmailToken =>
      bool_decide (is_Some (siteName c)) || bool_decide (is_Some (userEmail c))
      || bool_decide (is_Some (apiToken c))
  | BasicUsernamePassword =>
      bool_decide (is_Some (bitbucketUsername c))
      || bool_decide (is_Some (bitbucketAppPassword c))
  end.

(** Every field that scheme [v] requires is set and not empty. *)
Definition complete (c : AtlassianCredentials) (v : variant) : bool :=
  match v with
  | OAuthToken => truthyStr (oauthToken c)
  | BasicEmailToken => truthyStr (userEmail c) && truthyStr (apiToken c)
  | BasicUsernamePassword =>
      truthyStr (bitbucketUsername c) && truthyStr (bitbucketAppPassword c)
  end.

(** ** Numbers

    The Numbers of JSON documents are IEEE-754 doubles.  Their arithmetic is
    not modelled: the development is parametric in a type of numbers and in
    the conversions the transport layer applies to them. *)

Class JsNumbers := {
  number : Type;
  (** the Number denoted by a JSON number literal *)
  number_of_literal : jstring -> number;
  (** ToBoolean: false on +0, -0 and NaN *)
  number_truthy : number -> bool;
  (** ToString *)
  number_to_string : number -> jstring;
  (** [JSON.stringify]: ToString for finite numbers, ["null"] otherwise *)
  number_to_json : number -> jstring
}.

Section Transport.

Context `{JsNumbers}.

(** ** JSON values *)

(** A value of the JSON data model.  An object is the list of its members:
    in source order for a parsed document (a later member of the same name
    shadows an earlier one, see [getOwn]), in enumeration order for an object
    handed to [JSON.stringify]. *)
Inductive json :=
| JNull
| JBool (b : bool)
| JNum (n : number)
| JStr (s : jstring)
| JArr (items : list json)
| JObj (members : list (jstring * json)).

(** *** [JSON.parse]: lexical analysis

    One pass over the code units with a finite control, so that the function
    is structurally recursive on the text. *)

Inductive token :=
| TLBrace | TRBrace | TLBracket | TRBracket | TComma | TColon
| TString (s : jstring)
| TNumber (l : jstring)
| TWord (w : jstring).

Inductive lexMode :=
| LIdle
| LStr (acc : jstring)
| LEsc (acc : jstring)
| LHex (acc : jstring) (k : nat) (v : N)
| LNum (acc : jstring)
| LWord (acc : jstring).

Definition isJsonSpace (c : N) : bool :=
  N.eqb c 32 || N.eqb c 9 || N.eqb c 10 || N.eqb c 13.

Definition isNumberChar (c : N) : bool :=
  isDigit c || N.eqb c 45 || N.eqb c 43 || N.eqb c 46 || N.eqb c 101 || N.eqb c 69.

Definition isLower (c : N) : bool := (97 <=? c) && (c <=? 122).

Definition hexValue (c : N) : option N :=
  if isDigit c then Some (c - 48)
  else if (97 <=? c) && (c <=? 102) then Some (c - 87)
  else if (65 <=? c) && (c <=? 70) then Some (c - 55)
  else None.

(** The character denoted by a one-letter escape: quotation mark,
    reverse solidus, solidus, then b, f, n, r and t. *)
Definition escapeChar (c : N) : option N :=
  if N.eqb c 34 then Some 34
  else if N.eqb c 92 then Some 92
  else if N.eqb c 47 then Some 47
  else if N.eqb c 98 then Some 8
  else if N.eqb c 102 then Some 12
  else if N.eqb c 110 then Some 10
  else if N.eqb c 114 then Some 13
  else if N.eqb c 116 then Some 9
  else None.

(** A code unit read outside of any token. *)
Definition lexIdle (c : N) : option (lexMode * list token) :=
  if isJsonSpace c then Some (LIdle, [])
  else if N.eqb c 123 then Some (LIdle, [TLBrace])
  else if N.eqb c 125 then Some (LIdle, [TRBrace])
  else if N.eqb c 91 then Some (LIdle, [TLBracket])
  else if N.eqb c 93 then Some (LIdle, [TRBracket])
  else if N.eqb c 44 then Some (LIdle, [TComma])
  else if N.eqb c 58 then Some (LIdle, [TColon])
  else if N.eqb c 34 then Some (LStr [], [])
  else if isDigit c || N.eqb c 45 then Some (LNum [c], [])
  else if isLower c then Some (LWord [c], [])
  else None.

Definition emitThen (t : token) (c : N) : option (lexMode * list token) :=
  match lexIdle c with
  | Some (m, ts) => Some (m, t :: ts)
  | None => None
  end.

Definition lexStep (m : lexMode) (c : N) : option (lexMode * list token) :=
  match m with
  | LIdle => lexIdle c
  | LStr acc =>
      if N.eqb c 34 then Some (LIdle, [TString (rev acc)])
      else if N.eqb c 92 then Some (LEsc acc, [])
      else if c <? 32 then None
      else Some (LStr (c :: acc), [])
  | LEsc acc =>
      if N.eqb c 117 then Some (LHex acc 0 0, [])
      else match escapeChar c with
           | Some d => Some (LStr (d :: acc), [])
           | None => None
           end
  | LHex acc k v =>
      match hexValue c with
      | Some d =>
          if Nat.eqb k 3 then Some (LStr ((16 * v + d) :: acc), [])
          else Some (LHex acc (S k) (16 * v + d), [])
      | None => None
      end
  | LNum acc =>
      if isNumberChar c then Some (LNum (c :: acc), [])
      else emitThen (TNumber (rev acc)) c
  | LWord acc =>
      if isLower c then Some (LWord (c :: acc), [])
      else emitThen (TWord (rev acc)) c
  end.

Fixpoint lex (m : lexMode) (s : jstring) : option (list token) :=
  match s with
  | c :: s' =>
      match lexStep m c with
      | Some (m', ts) =>
          match lex m' s' with
          | Some rest => Some (ts ++ rest)
          | None => None
          end
      | None => None
      end
  | [] =>
      match m with
      | LIdle => Some []
      | LNum acc => Some [TNumber (rev acc)]
      | LWord acc => Some [TWord (rev acc)]
      | _ => None
      end
  end.

(** The JSON number grammar: an optional minus sign; an integer part, either
    a single 0 or a digit other than 0 followed by any digits; an optional
    fraction, a dot and at least one digit; an optional exponent, e or E, an
    optional sign and at least one digit. *)
Fixpoint skipDigits (s : jstring) : jstring :=
  match s with
  | c :: s' => if isDigit c then skipDigits s' else s
  | [] => []
  end.

Definition digits1 (s : jstring) : option jstring :=
  match s with
  | c :: s' => if isDigit c then Some (skipDigits s') else None
  | [] => None
  end.

Definition numberInt (s : jstring) : option jstring :=
  match s with
  | c :: s' =>
      if N.eqb c 48 then Some s'
      else if isDigit c then Some (skipDigits s')
      else None
  | [] => None
  end.

Definition numberFrac (s : jstring) : option jstring :=
  match s with
  | 46 :: s' => digits1 s'
  | _ => Some s
  end.

Definition numberExp (s : jstring) : option jstring :=
  match s with
  | c :: s' =>
      if N.eqb c 101 || N.eqb c 69 then
        match s' with
        | d :: s'' => if N.eqb d 43 || N.eqb d 45 then digits1 s'' else digits1 s'
        | [] => None
        end
      else Some s
  | [] => Some []
  end.

Definition validNumber (s : jstring) : bool :=
  let s1 := match s with 45 :: s' => s' | _ => s end in
  match numberInt s1 with
  | Some s2 =>
      match numberFrac s2 with
      | Some s3 =>
          match numberExp s3 with
          | Some [] => true
          | _ => false
          end
      | None => false
      end
  | None => false
  end.

(** *** [JSON.parse]: syntax analysis, with an explicit stack of the
    containers that are open. *)

Inductive frame :=
| FArr (acc : list json)
| FObj (acc : list (jstring * json)) (key : option jstring).

Inductive phase :=
| PValue        (* a value is expected *)
| PArrFirst     (* just after [ : a value or ] *)
| PObjFirst     (* just after { : a member name or } *)
| PObjKey       (* after a comma in an object: a member name *)
| PColon        (* after a member name *)
| PAfter        (* after a value inside a container *)
| PDone (v : json).

(** A value is complete: it goes to the innermost open container. *)
Definition pushValue (v : json) (stack : list frame) : option (phase * list frame) :=
  match stack with
  | [] => Some (PDone v, [])
  | FArr acc :: rest => Some (PAfter, FArr (v :: acc) :: rest)
  | FObj acc (Some k) :: rest => Some (PAfter, FObj ((k, v) :: acc) None :: rest)
  | FObj _ None :: _ => None
  end.

Definition scalarOf (t : token) : option json :=
  match t with
  | TString s => Some (JStr s)
  | TNumber l => if validNumber l then Some (JNum (number_of_literal l)) else None
  | TWord w =>
      if jstr_eqb w (lit "true") then Some (JBool true)
      else if jstr_eqb w (lit "false") then Some (JBool false)
      else if jstr_eqb w (lit "null") then Some JNull
      else None
  | _ => None
  end.

Definition startValue (t : token) (stack : list frame) : option (phase * list frame) :=
  match t with
  | TLBracket => Some (PArrFirst, FArr [] :: stack)
  | TLBrace => Some (PObjFirst, FObj [] None :: stack)
  | _ =>
      match scalarOf t with
      | Some v => pushValue v stack
      | None => None
      end
  end.

Definition memberName (t : token) (stack : list frame) : option (phase * list frame) :=
  match t, stack with
  | TString k, FObj acc None :: rest => Some (PColon, FObj acc (Some k) :: rest)
  | _, _ => None
  end.

Definition parseStep (p : phase) (stack : list frame) (t : token)
  : option (phase * list frame) :=
  match p with
  | PValue => startValue t stack
  | PArrFirst =>
      match t, stack with
      | TRBracket, FArr _ :: rest => pushValue (JArr []) rest
      | _, _ => startValue t stack
      end
  | PObjFirst =>
      match t, stack with
      | TRBrace, FObj _ _ :: rest => pushValue (JObj []) rest
      | _, _ => memberName t stack
      end
  | PObjKey => memberName t stack
  | PColon =>
      match t with
      | TColon => Some (PValue, stack)
      | _ => None
      end
  | PAfter =>
      match t, stack with
      | TComma, FArr _ :: _ => Some (PValue, stack)
      | TRBracket, FArr acc :: rest => pushValue (JArr (rev acc)) rest
      | TComma, FObj _ None :: _ => Some (PObjKey, stack)
      | TRBrace, FObj acc None :: rest => pushValue (JObj (rev acc)) rest
      | _, _ => None
      end
  | PDone _ => None
  end.

Fixpoint parseTokens (p : phase) (stack : list frame) (ts : list token) : option json :=
  match ts with
  | t :: ts' =>
      match parseStep p stack t with
      | Some (p', stack') => parseTokens p' stack' ts'
      | None => None
      end
  | [] =>
      match p with
      | PDone v => Some v
      | _ => None
      end
  end.

(** [JSON.parse(text)]; [None] when it throws a SyntaxError. *)
Definition JSON_parse (text : jstring) : option json :=
  match lex LIdle text with
  | Some ts => parseTokens PValue [] ts
  | None => None
  end.

(** *** Values at run time *)

(** ToBoolean *)
Definition truthy (v : json) : bool :=
  match v with
  | JNull => false
  | JBool b => b
  | JNum n => number_truthy n
  | JStr s => nonEmpty s
  | JArr _ | JObj _ => true
  end.

(** ToBoolean of a value that may be [undefined]. *)
Definition truthyOpt (o : option json) : bool :=
  match o with Some v => truthy v | None => false end.

(** The member of that name that [JSON.parse] keeps: the last one. *)
Fixpoint getOwn (k : jstring) (members : list (jstring * json)) : option json :=
  match members with
  | [] => None
  | (k', v) :: rest =>
      match getOwn k rest with
      | Some w => Some w
      | None => if jstr_eqb k' k then Some v else None
      end
  end.

(** [v.k] for a value [v] other than [null] and one of the names read by the
    transport layer ([type], [error], [message], [detail], [errors],
    [title]), none of which is defined on a prototype: the own member of an
    object, [undefined] ([None]) on arrays and primitive values. *)
Definition member (k : string) (v : json) : option json :=
  match v with
  | JObj members => getOwn (lit k) members
  | _ => None
  end.

Fixpoint joinWith (sep : jstring) (parts : list jstring) : jstring :=
  match parts with
  | [] => []
  | [x] => x
  | x :: rest => x ++ sep ++ joinWith sep rest
  end.

(** ToString, as applied by template literals, by [+=] on a string and by
    [Array.prototype.join]; [None] when it throws a TypeError.  An object is
    converted by the [toString] it has: the inherited one gives
    [[object Object]]; an own member named [toString], which in parsed JSON is
    never a function, leaves the object without a primitive value, and the
    conversion throws.  An array is joined with commas, its [null] elements
    rendered empty; it throws when the conversion of an element does. *)
Fixpoint toStr (v : json) : option jstring :=
  match v with
  | JNull => Some (lit "null")
  | JBool true => Some (lit "true")
  | JBool false => Some (lit "false")
  | JNum n => Some (number_to_string n)
  | JStr s => Some s
  | JArr items =>
      option_map (joinWith (lit ","))
        ((fix each (l : list json) : option (list jstring) :=
            match l with
            | [] => Some []
            | x :: l' =>
                match match x with JNull => Some [] | _ => toStr x end with
                | Some s => option_map (cons s) (each l')
                | None => None
                end
            end) items)
  | JObj members =>
      match getOwn (lit "toString") members with
      | Some _ => None
      | None => Some (lit "[object Object]")
      end
  end.

(** ToString of a value that may be [undefined]. *)
Definition toStrOpt (o : option json) : option jstring :=
  match o with Some v => toStr v | None => Some (lit "undefined") end.

(** *** [JSON.stringify] *)

Definition hexDigit (d : N) : N := if d <? 10 then 48 + d else 87 + d.

Definition unicodeEscape (c : N) : jstring :=
  [92; 117; hexDigit (c / 4096 mod 16); hexDigit (c / 256 mod 16);
   hexDigit (c / 16 mod 16); hexDigit (c mod 16)].

Definition isHighSurrogate (c : N) : bool := (55296 <=? c) && (c <=? 56319).
Definition isLowSurrogate (c : N) : bool := (56320 <=? c) && (c <=? 57343).

Definition quoteUnit (c : N) : jstring :=
  if N.eqb c 8 then [92; 98]
  else if N.eqb c 9 then [92; 116]
  else if N.eqb c 10 then [92; 110]
  else if N.eqb c 12 then [92; 102]
  else if N.eqb c 13 then [92; 114]
  else if N.eqb c 34 then [92; 34]
  else if N.eqb c 92 then [92; 92]
  else if c <? 32 then unicodeEscape c
  else [c].

Fixpoint quoteUnits (s : jstring) : jstring :=
  match s with
  | [] => []
  | c :: s' =>
      if isHighSurrogate c then
        match s' with
        | d :: s'' =>
            if isLowSurrogate d then c :: d :: quoteUnits s''
            else unicodeEscape c ++ quoteUnits s'
        | [] => unicodeEscape c
        end
      else if isLowSurrogate c then unicodeEscape c ++ quoteUnits s'
      else quoteUnit c ++ quoteUnits s'
  end.

(** QuoteJSONString *)
Definition quoteJSON (s : jstring) : jstring := [34] ++ quoteUnits s ++ [34].

(** [JSON.stringify(v)] without indentation. *)
Fixpoint JSON_stringify (v : json) : jstring :=
  match v with
  | JNull => lit "null"
  | JBool true => lit "true"
  | JBool false => lit "false"
  | JNum n => number_to_json n
  | JStr s => quoteJSON s
  | JArr items => lit "[" ++ joinWith (lit ",") (map JSON_stringify items) ++ lit "]"
  | JObj members =>
      lit "{" ++
      joinWith (lit ",")
        (map (fun m => quoteJSON (fst m) ++ lit ":" ++ JSON_stringify (snd m)) members)
      ++ lit "}"
  end.

(** *** [Buffer.from(s).toString('base64')] *)

(** UTF-8 encoding of a string; a surrogate that is not part of a pair is
    encoded as U+FFFD (so is a number that is not a code unit). *)
Fixpoint utf8 (s : jstring) : list N :=
  match s with
  | [] => []
  | c :: s' =>
      if c <? 128 then c :: utf8 s'
      else if c <? 2048 then (192 + c / 64) :: (128 + c mod 64) :: utf8 s'
      else if isHighSurrogate c then
        match s' with
        | d :: s'' =>
            if isLowSurrogate d then
              let p := 65536 + (c - 55296) * 1024 + (d - 56320) in
              (240 + p / 262144) :: (128 + p / 4096 mod 64)
                :: (128 + p / 64 mod 64) :: (128 + p mod 64) :: utf8 s''
            else 239 :: 191 :: 189 :: utf8 s'
        | [] => [239; 191; 189]
        end
      else if isLowSurrogate c || (65535 <? c) then 239 :: 191 :: 189 :: utf8 s'
      else (224 + c / 4096) :: (128 + c / 64 mod 64) :: (128 + c mod 64) :: utf8 s'
  end.

Definition base64Char (d : N) : N :=
  if d <? 26 then 65 + d
  else if d <? 52 then 71 + d
  else if d <? 62 then d - 4
  else if N.eqb d 62 then 43
  else 47.

Fixpoint base64 (bytes : list N) : jstring :=
  match bytes with
  | [] => []
  | [a] =>
      [base64Char (a / 4); base64Char (a mod 4 * 16); 61; 61]
  | [a; b] =>
      [base64Char (a / 4); base64Char (a mod 4 * 16 + b / 16);
       base64Char (b mod 16 * 4); 61]
  | a :: b :: c :: rest =>
      base64Char (a / 4) :: base64Char (a mod 4 * 16 + b / 16)
        :: base64Char (b mod 16 * 4 + c / 64) :: base64Char (c mod 64)
        :: base64 rest
  end.

(** ** Errors *)

Inductive errorClass := TypeErrorClass | SyntaxErrorClass | OtherErrorClass.

(** An [Error] object raised by the platform: its class (what [instanceof]
    tests), its [name] and its [message]. *)
Record JsError := {
  errClass : errorClass;
  errName : jstring;
  errMessage : jstring
}.

(** What a rejected promise of the platform carries: an [Error], or some
    other value, known by its [String(error)]. *)
Inductive rejection :=
| RejectError (e : JsError)
| RejectValue (text : jstring).

(** The [originalError] argument of the error factories. *)
Inductive cause :=
| CauseValue (v : json)
| CauseText (s : jstring)
| CauseSize (responseSize limit : double)
| CauseRejection (x : rejection).

(** [McpError], built by [createAuthInvalidError(message, originalError)],
    [createApiError(message, statusCode, originalError)] and
    [createUnexpectedError(message, originalError)]. *)
Inductive McpError :=
| AuthInvalidError (message : jstring) (originalError : option cause)
| ApiError (message : jstring) (statusCode : Z) (originalError : option cause)
| UnexpectedError (message : jstring) (originalError : option cause).

Inductive errorKind := AuthInvalid | ApiErrorKind | Unexpected.

Definition kindOf (e : McpError) : errorKind :=
  match e with
  | AuthInvalidError _ _ => AuthInvalid
  | ApiError _ _ _ => ApiErrorKind
  | UnexpectedError _ _ => Unexpected
  end.

Definition messageOf (e : McpError) : jstring :=
  match e with
  | AuthInvalidError m _ | ApiError m _ _ | UnexpectedError m _ => m
  end.

(** The status code handed to the factory, for the one factory that takes
    a status code. *)
Definition statusOf (e : McpError) : option Z :=
  match e with
  | ApiError _ st _ => Some st
  | _ => None
  end.

(** ** Requests and responses *)

Inductive httpMethod := GET | POST | PUT | DELETE.

(** The outcome of [JSON.stringify(value)]: a text, [undefined], or an
    exception. *)
Inductive stringified :=
| StringifyText (text : jstring)
| StringifyUndefined
| StringifyThrows (x : rejection).

(** A value of type [unknown]: plain data (what JSON can express: a
    string, a number, a boolean, [null], an array or an object of such), or
    any other value ([undefined], a function, a BigInt, a Date, an object
    that refers to itself or has a [toJSON] method...), of which the code
    asks two things only: ToBoolean, and [JSON.stringify]. *)
Inductive bodyValue :=
| Data (v : json)
| Opaque (isTruthy : bool) (outcome : stringified).

(** [interface RequestOptions].  [headers] is [None] when the options have
    no headers; [timeout] is a Number. *)
Record RequestOptions := {
  method : option httpMethod;
  headers : option (gmap jstring jstring);
  body : option bodyValue;
  timeout : option double
}.

(** The body handed to [fetch]: a text, or, on the two paths that cast a
    value that is not a string ([options.body as string]), that value. *)
Inductive wireBody :=
| WireText (s : jstring)
| WireRaw (v : bodyValue).

(** [RequestInit]; the abort signal is accounted for by [TimerFires]. *)
Record RequestInit := {
  init_method : httpMethod;
  init_headers : gmap jstring jstring;
  init_body : option wireBody
}.

(** The outcome of [response.text()]. *)
Inductive bodyRead :=
| BodyText (text : jstring)
| BodyFails (x : rejection).

(** A [Response]; header names are in lower case, as [Headers] keeps them;
    [status] is an integer (an [unsigned short]). *)
Record Response := {
  status : Z;
  statusText : jstring;
  resp_headers : gmap jstring jstring;
  resp_text : bodyRead
}.

(** [response.ok] *)
Definition ok (r : Response) : bool :=
  ((200 <=? status r) && (status r <=? 299))%Z.

(** The outcome of [await fetch(url, requestOptions)]: a response, the
    firing of the timeout timer before any response (its callback aborts the
    request, which rejects with an [AbortError]), or another rejection. *)
Inductive FetchResult :=
| Resolves (r : Response)
| TimerFires
| Rejects (x : rejection).

(** What [fetchAtlassian] takes from its surroundings: the network, the
    result of [config.getNumber('ATLASSIAN_REQUEST_TIMEOUT',
    NETWORK_TIMEOUTS.DEFAULT_REQUEST_TIMEOUT)], the constant
    [DATA_LIMITS.MAX_RESPONSE_SIZE], and the message of the TypeError that
    the engine throws when it converts to a string an object that has no
    primitive value. *)
Record Env := {
  fetch : jstring -> RequestInit -> FetchResult;
  defaultTimeout : double;
  MAX_RESPONSE_SIZE : double;
  conversionMessage : jstring
}.

(** *** Timers *)

(** The timers of the event loop: the next identifier [setTimeout] hands
    out, and the timers that are armed. *)
Record Timers := {
  nextTimer : nat;
  armed : list nat
}.

Definition setTimeout (t : Timers) : nat * Timers :=
  (nextTimer t, {| nextTimer := S (nextTimer t); armed := nextTimer t :: armed t |}).

Definition clearTimeout (id : nat) (t : Timers) : Timers :=
  {| nextTimer := nextTimer t;
     armed := List.filter (fun x => negb (Nat.eqb x id)) (armed t) |}.

(** A timer that fires is no longer armed. *)
Definition fire (id : nat) (t : Timers) : Timers := clearTimeout id t.

(** Identifiers are handed out in increasing order. *)
Definition timersOk (t : Timers) : Prop :=
  Forall (fun x => (x < nextTimer t)%nat) (armed t).

(** ** [fetchAtlassian] *)

(** How the promise of a call settles: fulfilled with a value, rejected
    with an McpError, or rejected with something else, that the call did not
    wrap. *)
Inductive completion :=
| Returns (v : json)
| Throws (e : McpError)
| Raises (x : rejection).

(** What is raised inside the [try] block. *)
Inductive raised :=
| RaisedMcp (e : McpError)
| RaisedOther (x : rejection).

Inductive attempt :=
| Normal (v : json)
| Raised (r : raised).

Definition baseUrl : jstring := lit "https://api.bitbucket.org".

(** Lines 122-152: the [Authorization] header, or the error thrown. *)
Definition authorization (credentials : AtlassianCredentials) : McpError + jstring :=
  if default false (useOAuth credentials) then
    if negb (truthyStr (oauthToken credentials)) then
      inl (AuthInvalidError (lit "Missing OAuth token") None)
    else
      inr (lit "Bearer " ++ default [] (oauthToken credentials))
  else if default false (useBitbucketAuth credentials) then
    if negb (truthyStr (bitbucketUsername credentials))
       || negb (truthyStr (bitbucketAppPassword credentials)) then
      inl (AuthInvalidError (lit "Missing Bitbucket username or app password") None)
    else
      inr (lit "Basic " ++
           base64 (utf8 (default [] (bitbucketUsername credentials) ++ lit ":" ++
                         default [] (bitbucketAppPassword credentials))))
  else
    if negb (truthyStr (userEmail credentials))
       || negb (truthyStr (apiToken credentials)) then
      inl (AuthInvalidError (lit "Missing Atlassian credentials") None)
    else
      inr (lit "Basic " ++
           base64 (utf8 (default [] (userEmail credentials) ++ lit ":" ++
                         default [] (apiToken credentials)))).

(** Line 155 *)
Definition normalizedPath (path : jstring) : jstring :=
  if startsWith (lit "/") path then path else lit "/" ++ path.

(** Lines 162-169: the object spread lets every entry of [options.headers]
    replace the entry of the same name. *)
Definition buildHeaders (authHeader : jstring) (options : RequestOptions)
  : gmap jstring jstring :=
  let supplied := default ∅ (headers options) in
  let defaultContentType :=
    default (lit "application/json")
      (orElse (supplied !! lit "Content-Type") (Some (lit "application/json"))) in
  supplied ∪
  <[lit "Authorization" := authHeader]>
    (<[lit "Content-Type" := defaultContentType]>
      (<[lit "Accept" := lit "application/json"]> ∅)).

(** ToBoolean of a body *)
Definition truthyBody (b : bodyValue) : bool :=
  match b with
  | Data v => truthy v
  | Opaque isTruthy _ => isTruthy
  end.

(** Lines 173-187: [requestBody] ([None] is [undefined]), or the exception
    that [JSON.stringify] throws at line 185. *)
Definition encodeBody (options : RequestOptions) (hdrs : gmap jstring jstring)
  : rejection + option wireBody :=
  match body options with
  | Some b =>
      if truthyBody b then
        match b with
        | Data (JStr s) => inr (Some (WireText s))
        | _ =>
            if from_option (includes (lit "multipart/form-data")) false
                 (hdrs !! lit "Content-Type")
            then inr (Some (WireRaw b))
            else if from_option (jstr_eqb (lit "application/x-www-form-urlencoded")) false
                      (hdrs !! lit "Content-Type")
            then inr (Some (WireRaw b))
            else
              match b with
              | Data v => inr (Some (WireText (JSON_stringify v)))
              | Opaque _ (StringifyText text) => inr (Some (WireText text))
              | Opaque _ StringifyUndefined => inr None
              | Opaque _ (StringifyThrows x) => inl x
              end
        end
      else inr None
  | None => inr None
  end.

(** The exception thrown while the body is encoded, if any. *)
Definition bodyThrows (authHeader : jstring) (options : RequestOptions)
  : option rejection :=
  match encodeBody options (buildHeaders authHeader options) with
  | inl x => Some x
  | inr _ => None
  end.

(** Lines 190-194, which are reached when line 185 did not throw (the
    request has no body otherwise). *)
Definition buildRequest (authHeader : jstring) (options : RequestOptions) : RequestInit :=
  let hdrs := buildHeaders authHeader options in
  {| init_method := default GET (method options);
     init_headers := hdrs;
     init_body := match encodeBody options hdrs with
                  | inr requestBody => requestBody
                  | inl _ => None
                  end |}.

(** Lines 229-242: the error thrown when the declared length of the
    response exceeds the limit.  [parseInt] yields NaN on a header that does
    not start with a number, and NaN exceeds nothing. *)
Definition sizeError (responseSize limit : double) : McpError :=
  ApiError
    (lit "Response size (" ++ megabytes responseSize ++
     lit "MB) exceeds maximum limit of " ++ megabytes limit ++ lit "MB")
    413
    (Some (CauseSize responseSize limit)).

Definition sizeGuard (limit : double) (r : Response) : option McpError :=
  match resp_headers r !! lit "content-length" with
  | Some contentLength =>
      if nonEmpty contentLength then
        let responseSize := parseInt10 contentLength in
        if gt responseSize limit then Some (sizeError responseSize limit)
        else None
      else None
  | None => None
  end.

(** [parsedError.type === 'error'] *)
Definition isErrorTag (o : option json) : bool :=
  match o with
  | Some (JStr s) => jstr_eqb s (lit "error")
  | _ => false
  end.

(** Lines 263-293: the new values of [errorMessage] and
    [parsedBitbucketError] ([None] is [null]), from their current values
    [errorMessage] and [null]; the result is [None] when a property of
    [null] is read, which throws a TypeError before anything is assigned.
    Line 272 throws a TypeError when the detail, or the message it is added
    to, has no string: the assignments of lines 269 and 270 have been made by
    then, and stay. *)
Definition readVendorError (parsedError : json) (errorMessage : option json)
  : option (option json * option json) :=
  match parsedError with
  | JNull => None
  | _ =>
      let error_ := member "error" parsedError in
      let errorHasMessage :=
        truthyOpt error_ && truthyOpt (error_ ≫= member "message") in
      if isErrorTag (member "type" parsedError) && errorHasMessage then
        let message := error_ ≫= member "message" in
        let detail := error_ ≫= member "detail" in
        if truthyOpt detail then
          match toStrOpt detail, toStrOpt message with
          | Some detailText, Some messageText =>
              Some (Some (JStr (messageText ++ lit " Detail: " ++ detailText)),
                    error_)
          | _, _ => Some (message, error_)
          end
        else Some (message, error_)
      else if errorHasMessage then
        Some (error_ ≫= member "message", error_)
      else
        match member "errors" parsedError with
        | Some (JArr (atlassianError :: _)) =>
            match atlassianError with
            | JNull => None
            | _ =>
                if truthyOpt (member "title" atlassianError) then
                  Some (member "title" atlassianError, Some atlassianError)
                else Some (errorMessage, None)
            end
        | _ =>
            if truthyOpt (member "message" parsedError) then
              Some (member "message" parsedError, Some parsedError)
            else Some (errorMessage, None)
        end
  end.

(** Lines 252-298: [errorMessage] and [parsedBitbucketError] after the
    inner [try]; whatever is thrown there leaves both unchanged. *)
Definition describeError (r : Response) (errorText : jstring)
  : option json * option json :=
  let errorMessage := Some (JStr (decimalZ (status r) ++ lit " " ++ statusText r)) in
  if nonEmpty errorText
     && (startsWith (lit "{") errorText || startsWith (lit "[") errorText) then
    match JSON_parse errorText with
    | Some parsedError =>
        match readVendorError parsedError errorMessage with
        | Some result => result
        | None => (errorMessage, None)
        end
    | None => (errorMessage, None)
    end
  else (errorMessage, None).

(** The TypeError of a conversion to a string that fails. *)
Definition conversionError (env : Env) : rejection :=
  RejectError {| errClass := TypeErrorClass;
                 errName := lit "TypeError";
                 errMessage := conversionMessage env |}.

(** Lines 307-354: what the [throw] statement of the status raises.  Its
    argument is built first: the template literal converts [errorMessage] to
    a string, and throws a TypeError when there is none. *)
Definition classify (env : Env) (r : Response) (errorText : jstring) : raised :=
  let '(errorMessage, parsedBitbucketError) := describeError r errorText in
  let originalErrorForMcp :=
    match parsedBitbucketError with
    | Some v => if truthy v then CauseValue v else CauseText errorText
    | None => CauseText errorText
    end in
  match toStrOpt errorMessage with
  | None => RaisedOther (conversionError env)
  | Some text =>
      RaisedMcp
        (if (status r =? 401)%Z then
           AuthInvalidError (lit "Bitbucket API: Authentication failed - " ++ text)
             (Some originalErrorForMcp)
         else if (status r =? 403)%Z then
           ApiError (lit "Bitbucket API: Permission denied - " ++ text) 403
             (Some originalErrorForMcp)
         else if (status r =? 404)%Z then
           ApiError (lit "Bitbucket API: Resource not found - " ++ text) 404
             (Some originalErrorForMcp)
         else if (status r =? 429)%Z then
           ApiError (lit "Bitbucket API: Rate limit exceeded - " ++ text) 429
             (Some originalErrorForMcp)
         else if (500 <=? status r)%Z then
           ApiError (lit "Bitbucket API: Service error - " ++ text) (status r)
             (Some originalErrorForMcp)
         else
           ApiError (lit "Bitbucket API Error: " ++ text) (status r)
             (Some originalErrorForMcp))
  end.

(** Lines 244-355: a response that is not [ok]. *)
Definition rejectResponse (env : Env) (r : Response) : attempt :=
  match resp_text r with
  | BodyText errorText => Raised (classify env r errorText)
  | BodyFails x => Raised (RaisedOther x)
  end.

(** Line 358: [response.headers.get('content-type') || ''] *)
Definition contentTypeOf (r : Response) : jstring :=
  default [] (orElse (resp_headers r !! lit "content-type") (Some [])).

(** Lines 357-395: the body of a response that is [ok]. *)
Definition decodeBody (r : Response) : attempt :=
  let contentType := contentTypeOf r in
  if includes (lit "text/plain") contentType then
    match resp_text r with
    | BodyText textResponse => Normal (JStr textResponse)
    | BodyFails x => Raised (RaisedOther x)
    end
  else
    match resp_text r with
    | BodyText responseText =>
        if negb (nonEmpty responseText) || jstr_eqb (trim responseText) [] then
          Normal (JObj [])
        else
          match JSON_parse responseText with
          | Some responseJson => Normal responseJson
          | None => Normal (JStr responseText)
          end
    | BodyFails x => Raised (RaisedOther x)
    end.

(** Lines 228-395: everything after [clearTimeout] in the [try] block. *)
Definition handleResponse (env : Env) (r : Response) : attempt :=
  match sizeGuard (MAX_RESPONSE_SIZE env) r with
  | Some e => Raised (RaisedMcp e)
  | None => if negb (ok r) then rejectResponse env r else decodeBody r
  end.

(** [timeoutMs / 1000] in a template literal. *)
Definition secondsText (timeoutMs : double) : jstring :=
  toString (divide timeoutMs 1000).

(** The [Error] with which an aborted [fetch] rejects. *)
Definition abortError : rejection :=
  RejectError {| errClass := OtherErrorClass;
                 errName := lit "AbortError";
                 errMessage := lit "This operation was aborted" |}.

(** Lines 396-453, after [clearTimeout]: the [catch] block. *)
Definition handleFailure (timeoutMs : double) (r : raised) : completion :=
  match r with
  | RaisedMcp e => Throws e
  | RaisedOther x =>
      match x with
      | RejectError e =>
          if jstr_eqb (errName e) (lit "AbortError") then
            Throws (ApiError
                      (lit "Request timeout: Bitbucket API did not respond within "
                       ++ secondsText timeoutMs ++ lit " seconds")
                      408 (Some (CauseRejection x)))
          else
            match errClass e with
            | TypeErrorClass =>
                let errorMessage :=
                  if nonEmpty (errMessage e) then errMessage e
                  else lit "Network error occurred" in
                Throws (ApiError
                          (lit "Network error while calling Bitbucket API: " ++ errorMessage)
                          500 (Some (CauseRejection x)))
            | SyntaxErrorClass =>
                if includes (lit "Unexpected end of JSON input") (errMessage e) then
                  Returns (JObj [])
                else
                  Throws (ApiError
                            (lit "Invalid response format from Bitbucket API: "
                             ++ errMessage e)
                            500 (Some (CauseRejection x)))
            | OtherErrorClass =>
                Throws (UnexpectedError
                          (lit "Unexpected error while calling Bitbucket API: "
                           ++ errMessage e)
                          (Some (CauseRejection x)))
            end
      | RejectValue text =>
          Throws (UnexpectedError
                    (lit "Unexpected error while calling Bitbucket API: " ++ text)
                    (Some (CauseRejection x)))
      end
  end.

(** Lines 213-215 and 228-395: the [try] block, with the timer [timeoutId]
    armed. *)
Definition attemptRequest (env : Env) (url : jstring) (requestOptions : RequestInit)
    (timeoutId : nat) (timers : Timers) : attempt * Timers :=
  match fetch env url requestOptions with
  | Resolves response =>
      (handleResponse env response, clearTimeout timeoutId timers)
  | TimerFires => (Raised (RaisedOther abortError), fire timeoutId timers)
  | Rejects x => (Raised (RaisedOther x), timers)
  end.

(** [fetchAtlassian(credentials, path, options)], lines 110-454, as a
    function of the environment and of the timers of the event loop.  What
    [JSON.stringify] throws at line 185 is thrown before the [try] block and
    before the timer is armed: the promise rejects with it. *)
Definition fetchAtlassian (env : Env) (credentials : AtlassianCredentials)
    (path : jstring) (options : RequestOptions) (timers : Timers)
  : completion * Timers :=
  match authorization credentials with
  | inl e => (Throws e, timers)
  | inr authHeader =>
      match bodyThrows authHeader options with
      | Some x => (Raises x, timers)
      | None =>
          let url := baseUrl ++ normalizedPath path in
          let requestOptions := buildRequest authHeader options in
          let timeoutMs := default (defaultTimeout env) (timeout options) in
          let '(timeoutId, timers1) := setTimeout timers in
          match attemptRequest env url requestOptions timeoutId timers1 with
          | (Normal v, timers2) => (Returns v, timers2)
          | (Raised r, timers2) =>
              (handleFailure timeoutMs r, clearTimeout timeoutId timers2)
          end
      end
  end.

(** *** Vocabulary of the properties *)

(** The outcome table for the statuses outside 200-299: the kind of the
    error and, for an [ApiError], the status it carries. *)
Definition statusTable (st : Z) : errorKind * option Z :=
  if (st =? 401)%Z then (AuthInvalid, None) else (ApiErrorKind, Some st).

Definition outcomeOf (e : McpError) : errorKind * option Z :=
  (kindOf e, statusOf e).

(** The same response with another body. *)
Definition withBody (r : Response) (b : bodyRead) : Response :=
  {| status := status r; statusText := statusText r;
     resp_headers := resp_headers r; resp_text := b |}.

(** How the [try] and [catch] blocks combine. *)
Definition settle (timeoutMs : double) (a : attempt) : completion :=
  match a with
  | Normal v => Returns v
  | Raised r => handleFailure timeoutMs r
  end.

End Transport.

Arguments json {_}.
Arguments McpError {_}.
Arguments cause {_}.
Arguments completion {_}.
Arguments RequestOptions {_}.
Arguments RequestInit {_}.
Arguments Env {_}.
Arguments wireBody {_}.
Arguments bodyValue {_}.

(** [config.get(key)] is a non-empty string. *)
Definition configured (config : gmap string jstring) (key : string) : bool :=
  truthyStr (config !! key).

(** ** Sample data *)

(** A model of numbers that keeps a number as the text of its literal (a
    number is truthy when a digit other than 0 comes before the exponent); it
    serves to run the transport layer on the sample data below, none of which
    contains a number. *)
Fixpoint literalTruthy (l : jstring) : bool :=
  match l with
  | [] => false
  | c :: l' =>
      if N.eqb c 101 || N.eqb c 69 then false
      else ((49 <=? c) && (c <=? 57)) || literalTruthy l'
  end.

#[export] Instance LiteralNumbers : JsNumbers := {|
  number := jstring;
  number_of_literal := fun l => l;
  number_truthy := literalTruthy;
  number_to_string := fun l => l;
  number_to_json := fun l => l
|}.

Module Sample.

Definition oauth : AtlassianCredentials :=
  {| oauthToken := Some (lit "token"); useOAuth := Some true;
     siteName := None; userEmail := None; apiToken := None;
     bitbucketUsername := None; bitbucketAppPassword := None;
     useBitbucketAuth := None |}.

Definition bearer : jstring := lit "Bearer token".

Definition plain : @RequestOptions LiteralNumbers :=
  {| method := None; headers := None; body := None; timeout := None |}.

Definition timers : Timers := {| nextTimer := 4; armed := [3; 1]%nat |}.

Definition response (st : Z) (hdrs : list (jstring * jstring)) (text : jstring)
  : Response :=
  {| status := st; statusText := lit "Status";
     resp_headers := list_to_map hdrs; resp_text := BodyText text |}.

(** A network that answers every request with [result]; a default timeout
    of 30 seconds, a limit of 10 MB, and the message of V8 for a failed
    conversion. *)
Definition network (result : FetchResult) : @Env LiteralNumbers :=
  {| fetch := fun _ _ => result;
     defaultTimeout := ofZ 30000;
     MAX_RESPONSE_SIZE := ofZ 10485760;
     conversionMessage := lit "Cannot convert object to primitive value" |}.

Definition path : jstring := lit "/2.0/repositories".

Definition notFoundBody : jstring :=
  quoted "{'type':'error','error':{'message':'Repository not found','detail':'x'}}".

(** Status 401 with a declared length one byte over the limit. *)
Definition oversized401 : Response :=
  response 401 [(lit "content-length", lit "10485761")] [].

Definition emptyTextPlain : Response :=
  response 200 [(lit "content-type", lit "text/plain")] [].

Definition blankJson : Response :=
  response 200 [(lit "content-type", lit "application/json")] (lit "  ").

Definition acceptText : @RequestOptions LiteralNumbers :=
  {| method := None;
     headers := Some {[ lit "Accept" := lit "text/plain" ]};
     body := None; timeout := None |}.

Definition xmlObject : @RequestOptions LiteralNumbers :=
  {| method := Some POST;
     headers := Some {[ lit "Content-Type" := lit "text/xml" ]};
     body := Some (Data (JObj [(lit "name", JStr (lit "main"))]));
     timeout := None |}.

Definition jsonObject : @RequestOptions LiteralNumbers :=
  {| method := Some POST; headers := None;
     body := Some (Data (JObj [(lit "name", JStr (lit "main"))]));
     timeout := None |}.

(** A body that [JSON.stringify] refuses, a BigInt for one. *)
Definition bigIntError : rejection :=
  RejectError {| errClass := TypeErrorClass; errName := lit "TypeError";
                 errMessage := lit "Do not know how to serialize a BigInt" |}.

Definition bigIntBody : @RequestOptions LiteralNumbers :=
  {| method := Some POST; headers := None;
     body := Some (Opaque true (StringifyThrows bigIntError));
     timeout := None |}.

(** A 404 whose message is an object with a member named [toString]. *)
Definition unprintableBody : jstring :=
  quoted "{'message':{'toString':1}}".

Definition bothConfigured : gmap string jstring :=
  {[ "BITBUCKET_OAUTH_TOKEN"%string := lit "token";
     "ATLASSIAN_USER_EMAIL"%string := lit "me@example.com";
     "ATLASSIAN_API_TOKEN"%string := lit "secret" ]}.

Definition appPasswordOnly : gmap string jstring :=
  {[ "ATLASSIAN_BITBUCKET_USERNAME"%string := lit "me";
     "ATLASSIAN_BITBUCKET_APP_PASSWORD"%string := lit "secret" ]}.

End Sample.


(** * Further vocabulary *)

(** The [Authorization] header of lines 130, 141-143 and 149-151, for the
    scheme that the flags of the credentials select. *)
Definition authHeaderOf (c : AtlassianCredentials) : jstring :=
  match variantOf c with
  | OAuthToken => lit "Bearer " ++ default [] (oauthToken c)
  | BasicEmailToken =>
      lit "Basic " ++
      base64 (utf8 (default [] (userEmail c) ++ lit ":" ++ default [] (apiToken c)))
  | BasicUsernamePassword =>
      lit "Basic " ++
      base64 (utf8 (default [] (bitbucketUsername c) ++ lit ":" ++
                    default [] (bitbucketAppPassword c)))
  end.

(** The text put before the vendor message, by status (lines 310-354). *)
Definition statusPrefix (st : Z) : jstring :=
  if (st =? 401)%Z then lit "Bitbucket API: Authentication failed - "
  else if (st =? 403)%Z then lit "Bitbucket API: Permission denied - "
  else if (st =? 404)%Z then lit "Bitbucket API: Resource not found - "
  else if (st =? 429)%Z then lit "Bitbucket API: Rate limit exceeded - "
  else if (500 <=? st)%Z then lit "Bitbucket API: Service error - "
  else lit "Bitbucket API Error: ".

(** All the code units of a text are white space. *)
Definition blank (s : jstring) : bool := forallb isWhiteSpace s.

Section Sequences.

Context `{JsNumbers}.

(** The text of an element in [Array.prototype.join]. *)
Definition elementText (x : json) : option jstring :=
  match x with JNull => Some [] | _ => toStr x end.

Fixpoint elementTexts (l : list json) : option (list jstring) :=
  match l with
  | [] => Some []
  | x :: l' =>
      match elementText x with
      | Some s => option_map (cons s) (elementTexts l')
      | None => None
      end
  end.

(** No object in the value has a member named [toString]. *)
Fixpoint plain (v : json) : bool :=
  match v with
  | JArr items =>
      (fix all (l : list json) : bool :=
         match l with
         | [] => true
         | x :: l' => plain x && all l'
         end) items
  | JObj members =>
      match getOwn (lit "toString") members with
      | Some _ => false
      | None =>
          (fix all (l : list (jstring * json)) : bool :=
             match l with
             | [] => true
             | m :: l' => plain (snd m) && all l'
             end) members
      end
  | _ => true
  end.

(** What the [catch] block makes of the TypeError of a conversion that
    fails (lines 418-427). *)
Definition conversionFailure (env : Env) : McpError :=
  ApiError
    (lit "Network error while calling Bitbucket API: "
     ++ (if nonEmpty (conversionMessage env) then conversionMessage env
         else lit "Network error occurred"))
    500 (Some (CauseRejection (conversionError env))).

(** The [originalError] of an error. *)
Definition causeOf (e : McpError) : option cause :=
  match e with
  | AuthInvalidError _ c | ApiError _ _ c | UnexpectedError _ c => c
  end.

(** One call of [fetchAtlassian]. *)
Record Call := {
  call_credentials : AtlassianCredentials;
  call_path : jstring;
  call_options : RequestOptions
}.

(** Calls awaited one after the other: their completions, and the timers
    at the end. *)
Fixpoint runCalls (env : Env) (calls : list Call) (timers : Timers)
  : list completion * Timers :=
  match calls with
  | [] => ([], timers)
  | c :: rest =>
      let '(done, timers1) :=
        fetchAtlassian env (call_credentials c) (call_path c) (call_options c) timers in
      let '(others, timers2) := runCalls env rest timers1 in
      (done :: others, timers2)
  end.

End Sequences.

Arguments Call {_}.


Section Printing.

Context `{JsNumbers}.

(** The first member or element, then each of the others after a comma. *)
Definition commaSeparated {A : Type} (comma : list A) (parts : list (list A))
  : list A :=
  match parts with
  | [] => []
  | x :: rest => x ++ concat (map (fun y => comma ++ y) rest)
  end.

(** The tokens of the text that [JSON.stringify] writes for a value. *)
Fixpoint tokensOf (v : json) : list token :=
  match v with
  | JNull => [TWord (lit "null")]
  | JBool true => [TWord (lit "true")]
  | JBool false => [TWord (lit "false")]
  | JNum n => [TNumber (number_to_json n)]
  | JStr s => [TString s]
  | JArr items =>
      TLBracket :: commaSeparated [TComma] (map tokensOf items) ++ [TRBracket]
  | JObj members =>
      TLBrace ::
      commaSeparated [TComma]
        (map (fun m => TString (fst m) :: TColon :: tokensOf (snd m)) members)
      ++ [TRBrace]
  end.

(** A value whose numbers are written by [JSON.stringify] as number
    literals that denote them again: this leaves out NaN and the infinities,
    which are written [null]. *)
Fixpoint printable (v : json) : Prop :=
  match v with
  | JNum n =>
      validNumber (number_to_json n) = true
      /\ number_of_literal (number_to_json n) = n
  | JArr items =>
      (fix all (l : list json) : Prop :=
         match l with
         | [] => True
         | x :: l' => printable x /\ all l'
         end) items
  | JObj members =>
      (fix all (l : list (jstring * json)) : Prop :=
         match l with
         | [] => True
         | m :: l' => printable (snd m) /\ all l'
         end) members
  | _ => True
  end.

(** What may follow a value in a text: nothing, or a code unit that ends a
    word and a number. *)
Definition delimited (rest : jstring) : bool :=
  match rest with
  | [] => true
  | c :: _ => negb (isLower c) && negb (isNumberChar c)
  end.

(** The text of a value, followed by [rest], is read as the tokens of the
    value followed by the tokens of [rest]. *)
Definition lexesTo (v : json) : Prop :=
  forall rest, delimited rest = true ->
    lex LIdle (JSON_stringify v ++ rest)
      = option_map (app (tokensOf v)) (lex LIdle rest).

(** Parsing goes on from the state reached, if any. *)
Definition continueWith (next : option (phase * list frame)) (rest : list token)
  : option json :=
  match next with
  | Some (p, stack) => parseTokens p stack rest
  | None => None
  end.

(** The tokens of a value, read where a value may start, give that value
    to the innermost open container. *)
Definition parsesTo (v : json) : Prop :=
  forall p stack rest, p = PValue \/ p = PArrFirst ->
    parseTokens p stack (tokensOf v ++ rest) = continueWith (pushValue v stack) rest.

End Printing.


(** * The repositories service

    [services/vendor.atlassian.repositories.service.ts].  The Zod schemas of
    [vendor.atlassian.repositories.types.ts], [pagination.util.ts] and the
    clock are not part of the sources at hand: a parameter schema is the
    function that gives the messages of the issues it finds (none when the
    parameters are valid), a response schema the function that gives the
    validated data, or nothing when it throws a ZodError; they are fields of
    [Service], with the values of [Date.now()], [Math.random()] and
    [new Date().toISOString()]. *)

Module GetRepositoryParams.
Record t := { workspace : jstring; repo_slug : jstring }.
End GetRepositoryParams.

Module GetFileContentParams.
Record t := {
  workspace : jstring; repo_slug : jstring; commit : jstring; path : jstring
}.
End GetFileContentParams.

(** [target] is the object [{ hash }]. *)
Module CreateBranchParams.
Record t := {
  workspace : jstring; repo_slug : jstring; name : jstring; target_hash : jstring
}.
End CreateBranchParams.

Module CreateOrUpdateFileParams.
Record t := {
  workspace : jstring; repo_slug : jstring; file_path : jstring;
  content : jstring; message : jstring;
  branch : option jstring; author : option jstring
}.
End CreateOrUpdateFileParams.

(** [pagelen] and [page] are Numbers. *)
Module ListBranchesParams.
Record t := {
  workspace : jstring; repo_slug : jstring;
  q : option jstring; sort : option jstring;
  pagelen : option double; page : option double
}.
End ListBranchesParams.

Module ListCommitsParams.
Record t := {
  workspace : jstring; repo_slug : jstring;
  include : option jstring; exclude : option jstring; path : option jstring;
  pagelen : option double; page : option double
}.
End ListCommitsParams.

Module ListRepositoriesParams.
Record t := {
  workspace : jstring;
  q : option jstring; sort : option jstring; role : option jstring;
  pagelen : option double; page : option double
}.
End ListRepositoriesParams.

(** ** [URLSearchParams] *)

Definition isAlphaNumeric (b : N) : bool :=
  isDigit b || ((65 <=? b) && (b <=? 90)) || ((97 <=? b) && (b <=? 122)).

Definition upperHexDigit (d : N) : N := if d <? 10 then 48 + d else 55 + d.

(** One byte in the [application/x-www-form-urlencoded] serialization:
    letters, digits and [*-._] stay, a space becomes [+], any other byte is
    a percent sign and two hexadecimal digits. *)
Definition formEncodeByte (b : N) : jstring :=
  if isAlphaNumeric b || N.eqb b 42 || N.eqb b 45 || N.eqb b 46 || N.eqb b 95
  then [b]
  else if N.eqb b 32 then [43]
  else [37; upperHexDigit (b / 16 mod 16); upperHexDigit (b mod 16)].

Definition formEncode (s : jstring) : jstring :=
  concat (map formEncodeByte (utf8 s)).

(** [queryParams.toString()] for the pairs set, in the order they were set
    (the names set by the service are distinct). *)
Definition searchParamsToString (pairs : list (jstring * jstring)) : jstring :=
  joinWith (lit "&")
    (map (fun kv => formEncode (fst kv) ++ lit "=" ++ formEncode (snd kv)) pairs).

(** [if (value) queryParams.set(name, value)] for a string *)
Definition setIfText (name : string) (value : option jstring)
  : list (jstring * jstring) :=
  match value with
  | Some v => if nonEmpty v then [(lit name, v)] else []
  | None => []
  end.

(** [if (value) queryParams.set(name, value.toString())] for a Number:
    zero and NaN are falsy. *)
Definition setIfNumber (name : string) (value : option double)
  : list (jstring * jstring) :=
  match value with
  | Some n => if nonZero n then [(lit name, toString n)] else []
  | None => []
  end.

(** [queryParams.toString() ? `?${queryParams.toString()}` : ''] *)
Definition queryStringOf (pairs : list (jstring * jstring)) : jstring :=
  if nonEmpty (searchParamsToString pairs)
  then lit "?" ++ searchParamsToString pairs
  else [].

Section Service.

Context `{JsNumbers}.

Record Schemas := {
  ListRepositoriesParamsSchema : ListRepositoriesParams.t -> list jstring;
  GetRepositoryParamsSchema : GetRepositoryParams.t -> list jstring;
  ListCommitsParamsSchema : ListCommitsParams.t -> list jstring;
  CreateBranchParamsSchema : CreateBranchParams.t -> list jstring;
  GetFileContentParamsSchema : GetFileContentParams.t -> list jstring;
  ListBranchesParamsSchema : ListBranchesParams.t -> list jstring;
  CreateOrUpdateFileParamsSchema : CreateOrUpdateFileParams.t -> list jstring;
  RepositoriesResponseSchema : json -> option json;
  RepositorySchema : json -> option json;
  PaginatedCommitsSchema : json -> option json;
  BranchRefSchema : json -> option json;
  BranchesResponseSchema : json -> option json;
  FileOperationResponseSchema : json -> option json
}.

(** What the service takes from its surroundings. [nullLengthMessage] is
    the message of the TypeError that reading [length] of [null] throws;
    [dateNow] is the integer [Date.now()]. *)
Record Service := {
  transport : Env;
  settings : gmap string jstring;
  schemas : Schemas;
  validatePageSize : option double -> double;
  dateNow : Z;
  randomText : jstring;
  isoNow : jstring;
  nullLengthMessage : jstring
}.

(** The [originalError] of the errors that the service creates: a
    ZodError, or what was thrown and is not an McpError. *)
Inductive serviceCause :=
| ZodIssues (issues : list jstring)
| ZodResponse
| Thrown (x : rejection).

(** The errors of the service: [createAuthMissingError(message)],
    [createApiError(message, statusCode, originalError)] called by the
    service, and the McpError of [fetchAtlassian], thrown again as it is. *)
Inductive ServiceError :=
| AuthMissingError (message : jstring)
| ServiceApiError (message : jstring) (statusCode : Z) (originalError : serviceCause)
| TransportError (e : McpError).

Inductive settled :=
| Fulfilled (value : json)
| Rejected (error : ServiceError).

Definition API_PATH : jstring := lit "/2.0".

(** The default [options = {}] of [fetchAtlassian]. *)
Definition noOptions : RequestOptions :=
  {| method := None; headers := None; body := None; timeout := None |}.

(** The error thrown on a ZodError of a parameter schema (for instance
    lines 221-231). *)
Definition invalidParameters (issues : list jstring) : ServiceError :=
  ServiceApiError (lit "Invalid parameters: " ++ joinWith (lit ", ") issues) 400
    (ZodIssues issues).

(** Lines 112-116, and the same test in the other functions. *)
Definition credentialsRequired : ServiceError :=
  AuthMissingError (lit "Atlassian credentials are required for this operation").

(** [error instanceof Error ? error.message : String(error)] *)
Definition thrownText (x : rejection) : jstring :=
  match x with
  | RejectError e => errMessage e
  | RejectValue text => text
  end.

(** [error instanceof Error && error.message.includes(text)] *)
Definition mentions (text : jstring) (x : rejection) : bool :=
  match x with
  | RejectError e => includes text (errMessage e)
  | RejectValue _ => false
  end.

(** The two nested handlers around a call (for instance lines 245-281):
    the data is validated, a ZodError becomes an ApiError of status 500 with
    [invalidMessage], an McpError is thrown again, and any other error is
    wrapped in an ApiError of status 500 whose message starts with
    [failedMessage]. *)
Definition validated (schema : json -> option json)
    (invalidMessage failedMessage : jstring)
    (outcome : completion * Timers) : settled * Timers :=
  match outcome with
  | (Returns rawData, timers) =>
      match schema rawData with
      | Some validatedData => (Fulfilled validatedData, timers)
      | None => (Rejected (ServiceApiError invalidMessage 500 ZodResponse), timers)
      end
  | (Throws e, timers) => (Rejected (TransportError e), timers)
  | (Raises x, timers) =>
      (Rejected (ServiceApiError (failedMessage ++ thrownText x) 500 (Thrown x)),
       timers)
  end.

Definition invalidResponse : jstring :=
  lit "Received invalid response format from Bitbucket API".

(** Lines 119-141: the parameters of the query, in the order they are
    set. *)
Definition repositoriesQuery (s : Service) (params : ListRepositoriesParams.t)
  : list (jstring * jstring) :=
  setIfText "q" (ListRepositoriesParams.q params)
  ++ setIfText "sort" (ListRepositoriesParams.sort params)
  ++ setIfText "role" (ListRepositoriesParams.role params)
  ++ [(lit "pagelen",
       toString (validatePageSize s (ListRepositoriesParams.pagelen params)))]
  ++ setIfNumber "page" (ListRepositoriesParams.page params).

(** Lines 143-146 *)
Definition repositoriesPath (s : Service) (params : ListRepositoriesParams.t)
  : jstring :=
  API_PATH ++ lit "/repositories/"
  ++ ListRepositoriesParams.workspace params
  ++ queryStringOf (repositoriesQuery s params).

(** [list(params)], lines 84-187 *)
Definition list_ (s : Service) (params : ListRepositoriesParams.t) (timers : Timers)
  : settled * Timers :=
  match ListRepositoriesParamsSchema (schemas s) params with
  | _ :: _ as issues => (Rejected (invalidParameters issues), timers)
  | [] =>
      match getAtlassianCredentials (settings s) with
      | None => (Rejected credentialsRequired, timers)
      | Some credentials =>
          validated (RepositoriesResponseSchema (schemas s)) invalidResponse
            (lit "Failed to list repositories: ")
            (fetchAtlassian (transport s) credentials (repositoriesPath s params)
               noOptions timers)
      end
  end.

(** [get(params)], lines 208-282 *)
Definition get (s : Service) (params : GetRepositoryParams.t) (timers : Timers)
  : settled * Timers :=
  match GetRepositoryParamsSchema (schemas s) params with
  | _ :: _ as issues => (Rejected (invalidParameters issues), timers)
  | [] =>
      match getAtlassianCredentials (settings s) with
      | None => (Rejected credentialsRequired, timers)
      | Some credentials =>
          let path :=
            API_PATH ++ lit "/repositories/" ++ GetRepositoryParams.workspace params
            ++ lit "/" ++ GetRepositoryParams.repo_slug params in
          validated (RepositorySchema (schemas s))
            (lit "Invalid response format from Bitbucket API for repository "
             ++ GetRepositoryParams.workspace params ++ lit "/"
             ++ GetRepositoryParams.repo_slug params)
            (lit "Failed to get repository details for "
             ++ GetRepositoryParams.workspace params ++ lit "/"
             ++ GetRepositoryParams.repo_slug params ++ lit ": ")
            (fetchAtlassian (transport s) credentials path noOptions timers)
      end
  end.

(** Lines 328-343 *)
Definition commitsQuery (params : ListCommitsParams.t) : list (jstring * jstring) :=
  setIfText "include" (ListCommitsParams.include params)
  ++ setIfText "exclude" (ListCommitsParams.exclude params)
  ++ setIfText "path" (ListCommitsParams.path params)
  ++ setIfNumber "pagelen" (ListCommitsParams.pagelen params)
  ++ setIfNumber "page" (ListCommitsParams.page params).

(** Lines 345-348 *)
Definition commitsPath (params : ListCommitsParams.t) : jstring :=
  API_PATH ++ lit "/repositories/" ++ ListCommitsParams.workspace params
  ++ lit "/" ++ ListCommitsParams.repo_slug params ++ lit "/commits"
  ++ queryStringOf (commitsQuery params).

(** [listCommits(params)], lines 291-381 *)
Definition listCommits (s : Service) (params : ListCommitsParams.t) (timers : Timers)
  : settled * Timers :=
  match ListCommitsParamsSchema (schemas s) params with
  | _ :: _ as issues => (Rejected (invalidParameters issues), timers)
  | [] =>
      match getAtlassianCredentials (settings s) with
      | None => (Rejected credentialsRequired, timers)
      | Some credentials =>
          validated (PaginatedCommitsSchema (schemas s)) invalidResponse
            (lit "Failed to list commits: ")
            (fetchAtlassian (transport s) credentials (commitsPath params)
               noOptions timers)
      end
  end.

(** Line 421 *)
Definition newBranchPath (params : CreateBranchParams.t) : jstring :=
  API_PATH ++ lit "/repositories/" ++ CreateBranchParams.workspace params
  ++ lit "/" ++ CreateBranchParams.repo_slug params ++ lit "/refs/branches".

(** Lines 423-428: [{ name, target: { hash } }] *)
Definition newBranch (params : CreateBranchParams.t) : json :=
  JObj [(lit "name", JStr (CreateBranchParams.name params));
        (lit "target",
         JObj [(lit "hash", JStr (CreateBranchParams.target_hash params))])].

(** The options of lines 432-435 *)
Definition createBranchOptions (params : CreateBranchParams.t) : RequestOptions :=
  {| method := Some POST; headers := None;
     body := Some (Data (newBranch params));
     timeout := None |}.

(** [createBranch(params)], lines 390-466 *)
Definition createBranch (s : Service) (params : CreateBranchParams.t) (timers : Timers)
  : settled * Timers :=
  match CreateBranchParamsSchema (schemas s) params with
  | _ :: _ as issues => (Rejected (invalidParameters issues), timers)
  | [] =>
      match getAtlassianCredentials (settings s) with
      | None => (Rejected credentialsRequired, timers)
      | Some credentials =>
          validated (BranchRefSchema (schemas s)) invalidResponse
            (lit "Failed to create branch: ")
            (fetchAtlassian (transport s) credentials (newBranchPath params)
               (createBranchOptions params) timers)
      end
  end.

(** Line 523 *)
Definition fileContentPath (params : GetFileContentParams.t) : jstring :=
  API_PATH ++ lit "/repositories/" ++ GetFileContentParams.workspace params
  ++ lit "/" ++ GetFileContentParams.repo_slug params ++ lit "/src/"
  ++ GetFileContentParams.commit params ++ lit "/"
  ++ GetFileContentParams.path params.

(** The TypeError that the template of line 532 throws, if any: it reads
    [fileContent.length], which throws on [null], and converts it to a
    string, which throws when it is an object without a primitive value.
    ([length] is a Number on a string and on an array, [undefined] on a
    number and on a boolean, the member of that name on an object.) *)
Definition lengthThrows (s : Service) (fileContent : json) : option rejection :=
  match fileContent with
  | JNull =>
      Some (RejectError {| errClass := TypeErrorClass;
                           errName := lit "TypeError";
                           errMessage := nullLengthMessage s |})
  | JObj members =>
      match toStrOpt (getOwn (lit "length") members) with
      | Some _ => None
      | None => Some (conversionError (transport s))
      end
  | _ => None
  end.

(** Lines 535-553: the handler of [getFileContent] on an error that is
    not an McpError. *)
Definition fileContentFailure (params : GetFileContentParams.t) (x : rejection)
  : ServiceError :=
  if mentions (lit "404") x then
    ServiceApiError
      (lit "File not found: " ++ GetFileContentParams.path params
       ++ lit " at " ++ GetFileContentParams.commit params)
      404 (Thrown x)
  else
    ServiceApiError (lit "Failed to get file content: " ++ thrownText x)
      500 (Thrown x).

(** [getFileContent(params)], lines 489-555.  The data is not validated. *)
Definition getFileContent (s : Service) (params : GetFileContentParams.t)
    (timers : Timers) : settled * Timers :=
  match GetFileContentParamsSchema (schemas s) params with
  | _ :: _ as issues => (Rejected (invalidParameters issues), timers)
  | [] =>
      match getAtlassianCredentials (settings s) with
      | None => (Rejected credentialsRequired, timers)
      | Some credentials =>
          match fetchAtlassian (transport s) credentials (fileContentPath params)
                  noOptions timers with
          | (Returns fileContent, timers1) =>
              match lengthThrows s fileContent with
              | Some x => (Rejected (fileContentFailure params x), timers1)
              | None => (Fulfilled fileContent, timers1)
              end
          | (Throws e, timers1) => (Rejected (TransportError e), timers1)
          | (Raises x, timers1) => (Rejected (fileContentFailure params x), timers1)
          end
      end
  end.

(** Lines 601-613 *)
Definition branchesQuery (params : ListBranchesParams.t) : list (jstring * jstring) :=
  setIfText "q" (ListBranchesParams.q params)
  ++ setIfText "sort" (ListBranchesParams.sort params)
  ++ setIfNumber "pagelen" (ListBranchesParams.pagelen params)
  ++ setIfNumber "page" (ListBranchesParams.page params).

(** Lines 615-618 *)
Definition branchesPath (params : ListBranchesParams.t) : jstring :=
  API_PATH ++ lit "/repositories/" ++ ListBranchesParams.workspace params
  ++ lit "/" ++ ListBranchesParams.repo_slug params
  ++ lit "/refs/branches" ++ queryStringOf (branchesQuery params).

(** [listBranches(params)], lines 564-651 *)
Definition listBranches (s : Service) (params : ListBranchesParams.t)
    (timers : Timers) : settled * Timers :=
  match ListBranchesParamsSchema (schemas s) params with
  | _ :: _ as issues => (Rejected (invalidParameters issues), timers)
  | [] =>
      match getAtlassianCredentials (settings s) with
      | None => (Rejected credentialsRequired, timers)
      | Some credentials =>
          validated (BranchesResponseSchema (schemas s)) invalidResponse
            (lit "Failed to list branches: ")
            (fetchAtlassian (transport s) credentials (branchesPath params)
               noOptions timers)
      end
  end.

(** Lines 717-743: the branch to commit to, and the timers after the
    reading of the repository, when there is one.  Whatever is thrown in the
    [try] block is caught and gives [main]: what [get] throws, and the
    TypeError of the template of line 729 when the name of the main branch
    has no string. *)
Definition resolveBranch (s : Service) (params : CreateOrUpdateFileParams.t)
    (timers : Timers) : jstring * Timers :=
  if truthyStr (CreateOrUpdateFileParams.branch params) then
    (default [] (CreateOrUpdateFileParams.branch params), timers)
  else
    match get s {| GetRepositoryParams.workspace :=
                     CreateOrUpdateFileParams.workspace params;
                   GetRepositoryParams.repo_slug :=
                     CreateOrUpdateFileParams.repo_slug params |} timers with
    | (Fulfilled repoDetails, timers1) =>
        let name := member "mainbranch" repoDetails ≫= member "name" in
        if truthyOpt name then
          match toStrOpt name with
          | Some branch => (branch, timers1)
          | None => (lit "main", timers1)
          end
        else (lit "main", timers1)
    | (Rejected _, timers1) => (lit "main", timers1)
    end.

(** Line 756 *)
Definition boundaryOf (s : Service) : jstring :=
  lit "----WebKitFormBoundary" ++ toString (ofZ (dateNow s)) ++ randomText s.

(** One field of the form: the boundary line, the disposition, an empty
    line and the value. *)
Definition formField (boundary name value : jstring) : list jstring :=
  [ lit "--" ++ boundary;
    lit "Content-Disposition: form-data; name=" ++ [34] ++ name ++ [34];
    [];
    value ].

(** Lines 751-789; [branch] is the text that [join] gives for the branch. *)
Definition multipartBody (boundary : jstring) (params : CreateOrUpdateFileParams.t)
    (branch : jstring) : jstring :=
  let filePath := normalizedPath (CreateOrUpdateFileParams.file_path params) in
  let parts :=
    formField boundary filePath (CreateOrUpdateFileParams.content params)
    ++ formField boundary (lit "message") (CreateOrUpdateFileParams.message params)
    ++ formField boundary (lit "branch") branch
    ++ (if truthyStr (CreateOrUpdateFileParams.author params)
        then formField boundary (lit "author")
               (default [] (CreateOrUpdateFileParams.author params))
        else [])
    ++ [lit "--" ++ boundary ++ lit "--"] in
  joinWith [13; 10] parts.

(** The options of lines 800-806 *)
Definition fileOptions (boundary body : jstring) : RequestOptions :=
  {| method := Some POST;
     headers := Some {[ lit "Content-Type" :=
                          lit "multipart/form-data; boundary=" ++ boundary ]};
     body := Some (Data (JStr body));
     timeout := None |}.

(** [params.author || 'Unknown'] *)
Definition authorOrUnknown (params : CreateOrUpdateFileParams.t) : jstring :=
  if truthyStr (CreateOrUpdateFileParams.author params)
  then default [] (CreateOrUpdateFileParams.author params)
  else lit "Unknown".

(** The minimal response of lines 818-828, 872-882 and 914-924 *)
Definition minimalCommit (s : Service) (params : CreateOrUpdateFileParams.t) : json :=
  JObj [ (lit "type", JStr (lit "commit"));
         (lit "hash", JStr (lit "unknown"));
         (lit "date", JStr (isoNow s));
         (lit "author", JObj [ (lit "type", JStr (lit "author"));
                               (lit "raw", JStr (authorOrUnknown params)) ]);
         (lit "message", JStr (CreateOrUpdateFileParams.message params));
         (lit "parents", JArr []) ].

(** [value || fallback] *)
Definition orValue (value : option json) (fallback : json) : json :=
  match value with
  | Some v => if truthy v then v else fallback
  | None => fallback
  end.

(** The response of lines 850-869, from data that is an object but not of
    the expected format. *)
Definition salvagedCommit (s : Service) (params : CreateOrUpdateFileParams.t)
    (rawData : json) : json :=
  JObj [ (lit "type", JStr (lit "commit"));
         (lit "hash", orValue (member "hash" rawData) (JStr (lit "unknown")));
         (lit "date", orValue (member "date" rawData) (JStr (isoNow s)));
         (lit "author",
          orValue (member "author" rawData)
            (JObj [ (lit "type", JStr (lit "author"));
                    (lit "raw", JStr (authorOrUnknown params)) ]));
         (lit "message",
          orValue (member "message" rawData)
            (JStr (CreateOrUpdateFileParams.message params)));
         (lit "parents", orValue (member "parents" rawData) (JArr [])) ].

(** [typeof rawData === 'object'] for a truthy value *)
Definition isObject (v : json) : bool :=
  match v with JObj _ | JArr _ => true | _ => false end.

(** Lines 809-812: no data, or an object without keys. *)
Definition noData (rawData : json) : bool :=
  negb (truthy rawData)
  || match rawData with
     | JObj [] | JArr [] => true
     | _ => false
     end.

(** Lines 808-885: the commit returned for the data received. *)
Definition commitOf (s : Service) (params : CreateOrUpdateFileParams.t)
    (rawData : json) : json :=
  if noData rawData then minimalCommit s params
  else
    match FileOperationResponseSchema (schemas s) rawData with
    | Some validatedData => validatedData
    | None =>
        if truthy rawData && isObject rawData then salvagedCommit s params rawData
        else minimalCommit s params
    end.

(** Lines 886-931: the handler of [createOrUpdateFile] on an error that is
    not an McpError. *)
Definition fileFailure (s : Service) (params : CreateOrUpdateFileParams.t)
    (x : rejection) : settled :=
  let repository :=
    CreateOrUpdateFileParams.workspace params ++ lit "/"
    ++ CreateOrUpdateFileParams.repo_slug params in
  if mentions (lit "404") x then
    Rejected (ServiceApiError (lit "Repository not found: " ++ repository)
                404 (Thrown x))
  else if mentions (lit "403") x then
    Rejected (ServiceApiError
                (lit "Permission denied: You don't have write access to "
                 ++ repository)
                403 (Thrown x))
  else if mentions (lit "Unexpected end of JSON input") x then
    Fulfilled (minimalCommit s params)
  else
    Rejected (ServiceApiError
                (lit "Failed to create/update file: " ++ thrownText x)
                500 (Thrown x)).

(** [createOrUpdateFile(params)], lines 680-932. *)
Definition createOrUpdateFile (s : Service) (params : CreateOrUpdateFileParams.t)
    (timers : Timers) : settled * Timers :=
  match CreateOrUpdateFileParamsSchema (schemas s) params with
  | _ :: _ as issues => (Rejected (invalidParameters issues), timers)
  | [] =>
      match getAtlassianCredentials (settings s) with
      | None => (Rejected credentialsRequired, timers)
      | Some credentials =>
          let '(branch, timers1) := resolveBranch s params timers in
          let path :=
            API_PATH ++ lit "/repositories/"
            ++ CreateOrUpdateFileParams.workspace params ++ lit "/"
            ++ CreateOrUpdateFileParams.repo_slug params ++ lit "/src" in
          let boundary := boundaryOf s in
          match fetchAtlassian (transport s) credentials path
                  (fileOptions boundary (multipartBody boundary params branch))
                  timers1 with
          | (Returns rawData, timers2) => (Fulfilled (commitOf s params rawData), timers2)
          | (Throws e, timers2) => (Rejected (TransportError e), timers2)
          | (Raises x, timers2) => (fileFailure s params x, timers2)
          end
      end
  end.

(** The same service on another network. *)
Definition onNetwork (s : Service)
    (network : jstring -> RequestInit -> FetchResult) : Service :=
  {| transport := {| fetch := network;
                     defaultTimeout := defaultTimeout (transport s);
                     MAX_RESPONSE_SIZE := MAX_RESPONSE_SIZE (transport s);
                     conversionMessage := conversionMessage (transport s) |};
     settings := settings s;
     schemas := schemas s;
     validatePageSize := validatePageSize s;
     dateNow := dateNow s;
     randomText := randomText s;
     isoNow := isoNow s;
     nullLengthMessage := nullLengthMessage s |}.

End Service.

Arguments Schemas {_}.
Arguments Service {_}.
Arguments ServiceError {_}.
Arguments settled {_}.


(** The code units that a query string is made of: letters, digits,
    [*-._], and [+ % = & ?]. *)
Definition urlSafe (c : N) : bool :=
  isAlphaNumeric c
  || existsb (N.eqb c) [42; 45; 46; 95; 43; 37; 61; 38; 63].


(** ** More sample data *)

Module ServiceSample.

(** Credentials whose flag selects OAuth but that hold no token. *)
Definition flagOnly : AtlassianCredentials :=
  {| oauthToken := None; useOAuth := Some true;
     siteName := None; userEmail := None; apiToken := None;
     bitbucketUsername := None; bitbucketAppPassword := None;
     useBitbucketAuth := None |}.

Definition plainCall : @Call LiteralNumbers :=
  {| call_credentials := Sample.oauth; call_path := Sample.path;
     call_options := Sample.plain |}.

(** A sentence served as JSON. *)
Definition sentence : Response :=
  Sample.response 200 [(lit "content-type", lit "application/json")]
    (lit "not json").

Definition gatewayPage : Response :=
  Sample.response 502 [(lit "content-type", lit "text/html")]
    (lit "<html>Bad Gateway</html>").

Definition nullTitle : Response :=
  Sample.response 400 [] (quoted "{'errors':[null],'message':'ignored'}").

Definition terminated : rejection :=
  RejectError {| errClass := TypeErrorClass; errName := lit "TypeError";
                 errMessage := lit "terminated" |}.

Definition brokenBody : Response :=
  {| status := 200; statusText := lit "OK"; resp_headers := ∅;
     resp_text := BodyFails terminated |}.

(** Schemas that accept everything and return the data as it is. *)
Definition lenient : @Schemas LiteralNumbers :=
  {| ListRepositoriesParamsSchema := fun _ => [];
     GetRepositoryParamsSchema := fun _ => [];
     ListCommitsParamsSchema := fun _ => [];
     CreateBranchParamsSchema := fun _ => [];
     GetFileContentParamsSchema := fun _ => [];
     ListBranchesParamsSchema := fun _ => [];
     CreateOrUpdateFileParamsSchema := fun _ => [];
     RepositoriesResponseSchema := Some;
     RepositorySchema := Some;
     PaginatedCommitsSchema := Some;
     BranchRefSchema := Some;
     BranchesResponseSchema := Some;
     FileOperationResponseSchema := Some |}.

(** A service over a network that answers every request with [result]. *)
Definition service (config : gmap string jstring) (result : FetchResult)
  : @Service LiteralNumbers :=
  {| transport := Sample.network result;
     settings := config;
     schemas := lenient;
     validatePageSize := fun n => default (ofZ 25) n;
     dateNow := 1700000000000;
     randomText := lit "k3j9x2";
     isoNow := lit "2023-11-14T22:13:20.000Z";
     nullLengthMessage := lit "Cannot read properties of null (reading 'length')" |}.

Definition repository : GetRepositoryParams.t :=
  {| GetRepositoryParams.workspace := lit "team";
     GetRepositoryParams.repo_slug := lit "app" |}.

Definition readme : GetFileContentParams.t :=
  {| GetFileContentParams.workspace := lit "team";
     GetFileContentParams.repo_slug := lit "app";
     GetFileContentParams.commit := lit "main";
     GetFileContentParams.path := lit "README.md" |}.

Definition readmeText : Response :=
  Sample.response 200 [(lit "content-type", lit "text/plain; charset=utf-8")]
    (quoted "{'not':'parsed'}").

Definition newFile : CreateOrUpdateFileParams.t :=
  {| CreateOrUpdateFileParams.workspace := lit "team";
     CreateOrUpdateFileParams.repo_slug := lit "app";
     CreateOrUpdateFileParams.file_path := lit "docs/a.md";
     CreateOrUpdateFileParams.content := lit "hello";
     CreateOrUpdateFileParams.message := lit "add a";
     CreateOrUpdateFileParams.branch := None;
     CreateOrUpdateFileParams.author := None |}.

Definition created : Response := Sample.response 201 [] [].

(** A file whose content is a JSON object with a [length] member that has
    no text. *)
Definition measured : Response :=
  Sample.response 200 [] (quoted "{'length':{'toString':1}}").

Definition commits : ListCommitsParams.t :=
  {| ListCommitsParams.workspace := lit "team";
     ListCommitsParams.repo_slug := lit "app";
     ListCommitsParams.include := Some (lit "fix/a b&c");
     ListCommitsParams.exclude := None;
     ListCommitsParams.path := None;
     ListCommitsParams.pagelen := Some (ofZ 10);
     ListCommitsParams.page := None |}.

Definition noCommits : Response :=
  Sample.response 200 [] (quoted "{'values':[]}").

(** An error whose detail has no text, and one whose message has none. *)
Definition unprintableDetail : jstring :=
  quoted "{'type':'error','error':{'message':'Denied','detail':{'toString':1}}}".

Definition unprintableTitle : jstring :=
  quoted "{'errors':[{'title':{'toString':1}}]}".

Definition branch : CreateBranchParams.t :=
  {| CreateBranchParams.workspace := lit "team";
     CreateBranchParams.repo_slug := lit "app";
     CreateBranchParams.name := quoted "fix/'quoted'";
     CreateBranchParams.target_hash := lit "abc123" |}.

End ServiceSample.

(** * Properties *)

(** ** Strings *)

Lemma jstr_eqb_eq (a b : jstring) : jstr_eqb a b = true <-> a = b.
Proof.
  revert b; induction a as [|x a IH]; intros [|y b]; simpl; split;
    try congruence; try discriminate.
  - intros [Hx Hab]%andb_true_iff. apply N.eqb_eq in Hx. apply IH in Hab.
    congruence.
  - intros [= -> ->]. rewrite N.eqb_refl. simpl. by apply IH.
Qed.

Lemma truthyStr_Some (o : option jstring) :
  truthyStr o = true -> exists c s, o = Some (c :: s).
Proof. destruct o as [[|c s]|]; simpl; try discriminate. eauto. Qed.

Lemma trimStart_blank (s : jstring) :
  Forall (fun c => isWhiteSpace c = true) s -> trimStart s = [].
Proof.
  induction 1 as [|c s Hc _ IH]; simpl; [reflexivity|].
  by rewrite Hc.
Qed.

Lemma trim_blank (s : jstring) :
  Forall (fun c => isWhiteSpace c = true) s -> trim s = [].
Proof. intros Hs. unfold trim. by rewrite (trimStart_blank s Hs). Qed.

Lemma gt_NaN (x : double) : gt NaN x = false.
Proof. reflexivity. Qed.

(** ** Credentials *)

(** C6. Credential resolution follows a fixed precedence.  As soon as one
    of the two OAuth keys holds a non-empty value, the OAuth variant is
    returned, with the first non-empty of the two values, whatever the other
    keys hold; with no OAuth token and no complete email and API token pair,
    a complete user name and app password pair gives the Bitbucket variant;
    when no variant is complete the result is [None]. The function is total:
    it does not throw. *)
Theorem C6_credential_precedence (config : gmap string jstring) :
  (configured config "BITBUCKET_ACCESS_TOKEN"
   || configured config "BITBUCKET_OAUTH_TOKEN" = true ->
   getAtlassianCredentials config =
     Some {| oauthToken :=
               if configured config "BITBUCKET_ACCESS_TOKEN"
               then config !! "BITBUCKET_ACCESS_TOKEN"%string
               else config !! "BITBUCKET_OAUTH_TOKEN"%string;
             useOAuth := Some true;
             siteName := None; userEmail := None; apiToken := None;
             bitbucketUsername := None; bitbucketAppPassword := None;
             useBitbucketAuth := None |})
  /\ (configured config "BITBUCKET_ACCESS_TOKEN" = false ->
      configured config "BITBUCKET_OAUTH_TOKEN" = false ->
      configured config "ATLASSIAN_USER_EMAIL"
      && configured config "ATLASSIAN_API_TOKEN" = false ->
      configured config "ATLASSIAN_BITBUCKET_USERNAME"
      && configured config "ATLASSIAN_BITBUCKET_APP_PASSWORD" = true ->
      getAtlassianCredentials config =
        Some {| oauthToken := None; useOAuth := None;
                siteName := None; userEmail := None; apiToken := None;
                bitbucketUsername := config !! "ATLASSIAN_BITBUCKET_USERNAME"%string;
                bitbucketAppPassword :=
                  config !! "ATLASSIAN_BITBUCKET_APP_PASSWORD"%string;
                useBitbucketAuth := Some true |})
  /\ (configured config "BITBUCKET_ACCESS_TOKEN" = false ->
      configured config "BITBUCKET_OAUTH_TOKEN" = false ->
      configured config "ATLASSIAN_USER_EMAIL"
      && configured config "ATLASSIAN_API_TOKEN" = false ->
      configured config "ATLASSIAN_BITBUCKET_USERNAME"
      && configured config "ATLASSIAN_BITBUCKET_APP_PASSWORD" = false ->
      getAtlassianCredentials config = None).
Proof.
  unfold configured, getAtlassianCredentials, orElse.
  repeat split.
  - destruct (truthyStr (config !! "BITBUCKET_ACCESS_TOKEN"%string)) eqn:Ha;
      simpl; intros Hb.
    + by rewrite Ha.
    + by rewrite Hb.
  - intros Ha Hb He Hu. by rewrite Ha, Hb, He, Hu.
  - intros Ha Hb He Hu. by rewrite Ha, Hb, He, Hu.
Qed.

(** C9. A credentials object that the resolver returns has the fields of
    one variant only: the variant that its flags select has all its required
    fields set and not empty, no field of another variant is set, and one of
    the flags [useOAuth], [useBitbucketAuth] is set explicitly, so that the
    variant is read from the flags and not from the fields present. *)
Theorem C9_single_variant (config : gmap string jstring) (c : AtlassianCredentials) :
  getAtlassianCredentials config = Some c ->
  complete c (variantOf c) = true
  /\ (forall v, populates c v = true <-> v = variantOf c)
  /\ (useOAuth c = Some true
      \/ (useOAuth c = None /\ useBitbucketAuth c = Some false)
      \/ (useOAuth c = None /\ useBitbucketAuth c = Some true)).
Proof.
  unfold getAtlassianCredentials.
  destruct (truthyStr (orElse _ _)) eqn:Ho.
  { intros [= <-]. destruct (truthyStr_Some _ Ho) as (ch & s & Hs).
    rewrite Hs. repeat split; auto.
    - by destruct v.
    - by intros ->. }
  destruct (truthyStr (config !! "ATLASSIAN_USER_EMAIL"%string)
            && truthyStr (config !! "ATLASSIAN_API_TOKEN"%string)) eqn:He.
  { intros [= <-]. apply andb_true_iff in He as [He Ht].
    destruct (truthyStr_Some _ He) as (c1 & s1 & Hs1).
    destruct (truthyStr_Some _ Ht) as (c2 & s2 & Hs2).
    rewrite Hs1, Hs2. repeat split; auto.
    - destruct v; simpl; try discriminate; reflexivity.
    - intros ->. simpl. by rewrite orb_true_r. }
  destruct (truthyStr (config !! "ATLASSIAN_BITBUCKET_USERNAME"%string)
            && truthyStr (config !! "ATLASSIAN_BITBUCKET_APP_PASSWORD"%string)) eqn:Hu;
    [|discriminate].
  intros [= <-]. apply andb_true_iff in Hu as [Hu Hp].
  destruct (truthyStr_Some _ Hu) as (c1 & s1 & Hs1).
  destruct (truthyStr_Some _ Hp) as (c2 & s2 & Hs2).
  rewrite Hs1, Hs2. repeat split; auto.
  - by destruct v.
  - by intros ->.
Qed.

Section TransportProperties.

Context `{JsNumbers}.

(** ** The request builder *)

Lemma buildHeaders_lookup (authHeader : jstring) (options : RequestOptions)
    (name : jstring) :
  buildHeaders authHeader options !! name =
    match default ∅ (headers options) !! name with
    | Some v => Some v
    | None =>
        (<[lit "Authorization" := authHeader]>
          (<[lit "Content-Type" :=
               default (lit "application/json")
                 (orElse (default ∅ (headers options) !! lit "Content-Type")
                         (Some (lit "application/json")))]>
            (<[lit "Accept" := lit "application/json"]> ∅))
          : gmap jstring jstring) !! name
    end.
Proof.
  unfold buildHeaders. cbv zeta. rewrite lookup_union.
  destruct (default ∅ (headers options) !! name) as [v|].
  - apply union_Some_l.
  - apply (left_id_L None union).
Qed.

(** C8 (amended). The built request carries [Accept: application/json]
    unless the headers of the options have an entry named [Accept]; the
    value of that entry is then sent in its place, because the headers of the
    options are spread over the defaults. *)
Theorem C8_accept_header (authHeader : jstring) (options : RequestOptions) :
  init_headers (buildRequest authHeader options) !! lit "Accept" =
    Some (default (lit "application/json")
            (default ∅ (headers options) !! lit "Accept")).
Proof.
  unfold buildRequest. simpl. rewrite buildHeaders_lookup.
  destruct (default ∅ (headers options) !! lit "Accept") as [v|]; simpl;
    [reflexivity|].
  rewrite lookup_insert_ne by (by vm_compute).
  rewrite lookup_insert_ne by (by vm_compute).
  by rewrite lookup_insert_eq.
Qed.

Lemma encodeBody_text (options : RequestOptions) (hdrs : gmap jstring jstring)
    (s : jstring) :
  body options = Some (Data (JStr s)) -> s <> [] ->
  encodeBody options hdrs = inr (Some (WireText s)).
Proof.
  intros Hb Hs. unfold encodeBody. rewrite Hb. simpl.
  destruct s; [done | reflexivity].
Qed.

Lemma encodeBody_value (options : RequestOptions) (hdrs : gmap jstring jstring)
    (b : bodyValue) (ct : jstring) :
  body options = Some b -> truthyBody b = true ->
  (forall s, b <> Data (JStr s)) ->
  hdrs !! lit "Content-Type" = Some ct ->
  encodeBody options hdrs =
    if includes (lit "multipart/form-data") ct
       || jstr_eqb (lit "application/x-www-form-urlencoded") ct
    then inr (Some (WireRaw b))
    else match b with
         | Data v => inr (Some (WireText (JSON_stringify v)))
         | Opaque _ (StringifyText text) => inr (Some (WireText text))
         | Opaque _ StringifyUndefined => inr None
         | Opaque _ (StringifyThrows x) => inl x
         end.
Proof.
  intros Hb Ht Hs Hct. unfold encodeBody. rewrite Hb, Ht, Hct.
  cbn [from_option].
  destruct b as [[| | |s| |]|t o];
    solve [ by destruct (includes _ ct), (jstr_eqb _ ct) | by destruct (Hs s) ].
Qed.

(** Plain data is always encoded. *)
Lemma bodyThrows_data (authHeader : jstring) (options : RequestOptions) :
  (forall t x, body options <> Some (Opaque t (StringifyThrows x))) ->
  bodyThrows authHeader options = None.
Proof.
  intros Hb. unfold bodyThrows, encodeBody.
  destruct (body options) as [[v|t [text| |x]]|]; try reflexivity;
    try (destruct (truthyBody _); [|reflexivity];
         try destruct v; try reflexivity;
         by repeat match goal with
                   | |- context [if ?c then _ else _] => destruct c
                   end).
  by destruct (Hb t x).
Qed.

Lemma init_body_encoded (authHeader : jstring) (options : RequestOptions)
    (requestBody : option wireBody) :
  encodeBody options (buildHeaders authHeader options) = inr requestBody ->
  init_body (buildRequest authHeader options) = requestBody
  /\ bodyThrows authHeader options = None.
Proof.
  intros He. unfold buildRequest, bodyThrows. cbn [init_body]. by rewrite He.
Qed.

(** ** Timers *)

Lemma filter_fresh (n : nat) (l : list nat) :
  Forall (fun x => (x < n)%nat) l ->
  List.filter (fun x => negb (Nat.eqb x n)) l = l.
Proof.
  induction 1 as [|x l Hx _ IH]; simpl; [reflexivity|].
  destruct (Nat.eqb_spec x n) as [->|_]; [lia|]. simpl. by rewrite IH.
Qed.


Lemma clearTimeout_armed (id : nat) (t : Timers) :
  armed (clearTimeout id (snd (setTimeout t))) =
    List.filter (fun x => negb (Nat.eqb x id)) (nextTimer t :: armed t).
Proof. reflexivity. Qed.

Lemma clearTimeout_twice (id : nat) (t : Timers) :
  clearTimeout id (clearTimeout id t) = clearTimeout id t.
Proof.
  unfold clearTimeout. simpl. f_equal.
  induction (armed t) as [|x l IH]; simpl; [reflexivity|].
  destruct (negb (Nat.eqb x id)) eqn:Hx; simpl; [rewrite Hx|]; by rewrite ?IH.
Qed.

(** The timers after a call: when the call got as far as arming its
    timer, the timer has been cleared. *)
Lemma fetchAtlassian_timers (env : Env) (credentials : AtlassianCredentials)
    (path : jstring) (options : RequestOptions) (timers : Timers) :
  snd (fetchAtlassian env credentials path options timers) =
    match authorization credentials with
    | inl _ => timers
    | inr authHeader =>
        match bodyThrows authHeader options with
        | Some _ => timers
        | None => clearTimeout (nextTimer timers) (snd (setTimeout timers))
        end
    end.
Proof.
  unfold fetchAtlassian. destruct (authorization credentials) as [e|h];
    [reflexivity|].
  destruct (bodyThrows h options); [reflexivity|].
  cbn zeta. unfold setTimeout at 1, attemptRequest, fire.
  destruct (fetch env _ _) as [r| |x]; cbn [snd].
  - destruct (handleResponse _ r); cbn [snd]; [reflexivity|].
    apply clearTimeout_twice.
  - apply clearTimeout_twice.
  - reflexivity.
Qed.

(** ** The call as a whole *)

Lemma fetchAtlassian_rejects (env : Env) (credentials : AtlassianCredentials)
    (path : jstring) (options : RequestOptions) (timers : Timers)
    (authHeader : jstring) :
  authorization credentials = inr authHeader ->
  bodyThrows authHeader options = None ->
  fst (fetchAtlassian env credentials path options timers) =
    match fetch env (baseUrl ++ normalizedPath path)
            (buildRequest authHeader options) with
    | Resolves r =>
        settle (default (defaultTimeout env) (timeout options))
               (handleResponse env r)
    | TimerFires =>
        handleFailure (default (defaultTimeout env) (timeout options))
          (RaisedOther abortError)
    | Rejects x =>
        handleFailure (default (defaultTimeout env) (timeout options))
          (RaisedOther x)
    end.
Proof.
  intros Hauth Hbody. unfold fetchAtlassian. rewrite Hauth, Hbody. cbn zeta.
  unfold setTimeout, attemptRequest.
  destruct (fetch env _ _) as [r| |x]; [|reflexivity..].
  by destruct (handleResponse env r).
Qed.

Lemma fetchAtlassian_resolves (env : Env) (credentials : AtlassianCredentials)
    (path : jstring) (options : RequestOptions) (timers : Timers)
    (authHeader : jstring) (r : Response) :
  authorization credentials = inr authHeader ->
  bodyThrows authHeader options = None ->
  fetch env (baseUrl ++ normalizedPath path) (buildRequest authHeader options)
    = Resolves r ->
  fst (fetchAtlassian env credentials path options timers) =
    settle (default (defaultTimeout env) (timeout options))
           (handleResponse env r).
Proof.
  intros Hauth Hbody Hfetch.
  by rewrite (fetchAtlassian_rejects _ _ _ _ _ _ Hauth Hbody), Hfetch.
Qed.

(** A body that cannot be encoded: the exception is not wrapped, the
    network is not used and no timer is armed. *)
Lemma fetchAtlassian_raises (env : Env) (credentials : AtlassianCredentials)
    (path : jstring) (options : RequestOptions) (timers : Timers)
    (authHeader : jstring) (x : rejection) :
  authorization credentials = inr authHeader ->
  bodyThrows authHeader options = Some x ->
  fetchAtlassian env credentials path options timers = (Raises x, timers).
Proof. intros Hauth Hbody. unfold fetchAtlassian. by rewrite Hauth, Hbody. Qed.

Lemma authorization_error (credentials : AtlassianCredentials) (e : McpError) :
  authorization credentials = inl e -> kindOf e = AuthInvalid.
Proof.
  unfold authorization.
  repeat match goal with
         | |- context [if ?b then _ else _] => destruct b
         end; by intros [= <-].
Qed.

Lemma sizeGuard_Some (limit : double) (r : Response) (e : McpError) :
  sizeGuard limit r = Some e ->
  exists cl,
    resp_headers r !! lit "content-length" = Some cl
    /\ gt (parseInt10 cl) limit = true /\ e = sizeError (parseInt10 cl) limit.
Proof.
  unfold sizeGuard.
  destruct (resp_headers r !! lit "content-length") as [cl|]; [|discriminate].
  destruct (nonEmpty cl); [|discriminate]. cbv zeta.
  destruct (gt (parseInt10 cl) limit) eqn:Hgt; [|discriminate].
  intros [= <-]. exists cl. auto.
Qed.

Lemma sizeGuard_exceeds (limit : double) (r : Response) (cl : jstring) :
  resp_headers r !! lit "content-length" = Some cl ->
  gt (parseInt10 cl) limit = true ->
  sizeGuard limit r = Some (sizeError (parseInt10 cl) limit).
Proof.
  intros Hcl Hgt. unfold sizeGuard. rewrite Hcl.
  destruct cl as [|c cl]; [discriminate Hgt|]. cbn [nonEmpty]. cbv zeta.
  by rewrite Hgt.
Qed.

(** The two things that the statement of lines 309-354 can raise. *)
Lemma classify_cases (env : Env) (r : Response) (errorText : jstring) :
  match toStrOpt (fst (describeError r errorText)) with
  | Some text =>
      exists e, classify env r errorText = RaisedMcp e
                /\ outcomeOf e = statusTable (status r)
                /\ messageOf e = statusPrefix (status r) ++ text
                /\ causeOf e =
                     Some (match snd (describeError r errorText) with
                           | Some v =>
                               if truthy v then CauseValue v
                               else CauseText errorText
                           | None => CauseText errorText
                           end)
  | None => classify env r errorText = RaisedOther (conversionError env)
  end.
Proof.
  unfold classify, statusTable, outcomeOf, statusPrefix.
  destruct (describeError r errorText) as [msg parsed]. cbn [fst snd].
  destruct (toStrOpt msg) as [text|]; [|reflexivity].
  eexists. split; [reflexivity|].
  destruct (Z.eqb_spec (status r) 401) as [E|_]; [done|].
  destruct (Z.eqb_spec (status r) 403) as [->|_]; [done|].
  destruct (Z.eqb_spec (status r) 404) as [->|_]; [done|].
  destruct (Z.eqb_spec (status r) 429) as [->|_]; [done|].
  by destruct (500 <=? status r)%Z.
Qed.

Lemma classify_mcp (env : Env) (r : Response) (errorText : jstring) (e : McpError) :
  classify env r errorText = RaisedMcp e ->
  outcomeOf e = statusTable (status r)
  /\ exists text, toStrOpt (fst (describeError r errorText)) = Some text
                  /\ messageOf e = statusPrefix (status r) ++ text.
Proof.
  intros Hc. pose proof (classify_cases env r errorText) as Hcases.
  destruct (toStrOpt (fst (describeError r errorText))) as [text|].
  - destruct Hcases as (e' & He' & Ho & Hm & _). rewrite Hc in He'.
    injection He' as <-. eauto.
  - rewrite Hc in Hcases. discriminate.
Qed.

Lemma classify_other (env : Env) (r : Response) (errorText : jstring)
    (x : rejection) :
  classify env r errorText = RaisedOther x -> x = conversionError env.
Proof.
  intros Hc. pose proof (classify_cases env r errorText) as Hcases.
  destruct (toStrOpt (fst (describeError r errorText))) as [text|].
  - destruct Hcases as (e' & He' & _). rewrite Hc in He'. discriminate.
  - rewrite Hc in Hcases. by injection Hcases.
Qed.

Lemma classify_not_sizeError (env : Env) (r : Response) (errorText : jstring)
    (size limit : double) :
  classify env r errorText <> RaisedMcp (sizeError size limit).
Proof.
  intros Hc. pose proof (classify_cases env r errorText) as Hcases.
  destruct (toStrOpt (fst (describeError r errorText))) as [text|].
  - destruct Hcases as (e' & He' & _ & _ & Hcause). rewrite Hc in He'.
    injection He' as <-. cbn [causeOf sizeError] in Hcause.
    injection Hcause as Hcause.
    destruct (snd (describeError r errorText)) as [v|];
      [destruct (truthy v)|]; discriminate.
  - rewrite Hc in Hcases. discriminate.
Qed.

Lemma handleFailure_conversion (timeoutMs : double) (env : Env) :
  handleFailure timeoutMs (RaisedOther (conversionError env))
    = Throws (conversionFailure env).
Proof. reflexivity. Qed.

Lemma handleFailure_outcome (timeoutMs : double) (x : rejection) :
  (exists v, handleFailure timeoutMs (RaisedOther x) = Returns v)
  \/ (exists m st, handleFailure timeoutMs (RaisedOther x)
                   = Throws (ApiError m st (Some (CauseRejection x)))
                   /\ (st = 408 \/ st = 500)%Z)
  \/ (exists m, handleFailure timeoutMs (RaisedOther x)
                = Throws (UnexpectedError m (Some (CauseRejection x)))).
Proof.
  destruct x as [e|text]; simpl.
  - destruct (jstr_eqb (errName e) (lit "AbortError")).
    + right; left. eauto.
    + destruct (errClass e).
      * right; left. eauto.
      * destruct (includes _ (errMessage e)); [left|right; left]; eauto.
      * right; right. eauto.
  - right; right. eauto.
Qed.

(** What is raised for a response is an McpError of the guard or of the
    status, or a rejection of the platform (of reading the body, or the
    TypeError of a conversion); a value is returned otherwise. *)
Lemma handleResponse_cases (env : Env) (r : Response) :
  (exists v, handleResponse env r = Normal v /\ ok r = true)
  \/ (exists cl, handleResponse env r
                 = Raised (RaisedMcp (sizeError (parseInt10 cl) (MAX_RESPONSE_SIZE env)))
                 /\ resp_headers r !! lit "content-length" = Some cl)
  \/ (exists e t, handleResponse env r = Raised (RaisedMcp e)
                  /\ classify env r t = RaisedMcp e
                  /\ ok r = false /\ resp_text r = BodyText t
                  /\ sizeGuard (MAX_RESPONSE_SIZE env) r = None)
  \/ (handleResponse env r = Raised (RaisedOther (conversionError env))
      /\ ok r = false)
  \/ (exists x, handleResponse env r = Raised (RaisedOther x)
                /\ resp_text r = BodyFails x).
Proof.
  unfold handleResponse.
  destruct (sizeGuard _ r) as [e|] eqn:Hg.
  { apply sizeGuard_Some in Hg as (cl & Hcl & _ & ->). right; left. eauto. }
  destruct (ok r) eqn:Hok; cbn [negb].
  - unfold decodeBody.
    destruct (includes _ (contentTypeOf r)), (resp_text r) as [t|x]; eauto 10.
    destruct (_ || _); [eauto|]. destruct (JSON_parse t); eauto.
  - unfold rejectResponse. destruct (resp_text r) as [t|x]; [|eauto 10].
    destruct (classify env r t) as [e|x] eqn:Hc.
    + right; right; left. exists e, t. auto.
    + apply classify_other in Hc as ->. auto 10.
Qed.

Lemma settle_unexpected (timeoutMs : double) (env : Env) (r : Response)
    (m : jstring) (c : option cause) :
  settle timeoutMs (handleResponse env r) = Throws (UnexpectedError m c) ->
  exists x, c = Some (CauseRejection x) /\ resp_text r = BodyFails x.
Proof.
  destruct (handleResponse_cases env r)
    as [(v & -> & _)|[(cl & -> & _)|[(e & t & -> & Hc & _)|[[-> _]|(x & -> & Hx)]]]];
    cbn [settle]; try discriminate.
  - cbn [handleFailure]. intros [= ->]. apply classify_mcp in Hc as [Ho _].
    unfold outcomeOf, statusTable in Ho. cbn [kindOf] in Ho.
    by destruct (status r =? 401)%Z.
  - intros Hthrow.
    destruct (handleFailure_outcome timeoutMs x)
      as [[v Hv]|[(m' & st & Hv & _)|[m' Hv]]]; rewrite Hv in Hthrow;
      try discriminate.
    injection Hthrow as _ <-. eauto.
Qed.

(** ** Values that have a string *)

Lemma json_nested_ind (P : json -> Prop) :
  P JNull -> (forall b, P (JBool b)) -> (forall n, P (JNum n)) ->
  (forall s, P (JStr s)) ->
  (forall items, Forall P items -> P (JArr items)) ->
  (forall members, Forall (fun m => P (snd m)) members -> P (JObj members)) ->
  forall v, P v.
Proof.
  intros Hnull Hbool Hnum Hstr Harr Hobj.
  fix IH 1.
  intros [|b|n|s|items|members];
    [exact Hnull|apply Hbool|apply Hnum|apply Hstr|..].
  - apply Harr. induction items as [|x items IHitems]; constructor;
      [apply IH|exact IHitems].
  - apply Hobj. induction members as [|m members IHmembers]; constructor;
      [apply IH|exact IHmembers].
Qed.

Lemma toStr_JArr (items : list json) :
  toStr (JArr items) = option_map (joinWith (lit ",")) (elementTexts items).
Proof.
  reflexivity.
Qed.

Lemma plain_JArr (items : list json) : plain (JArr items) = forallb plain items.
Proof.
  cbn [plain]. induction items as [|x items IH]; [reflexivity|].
  cbn [forallb]. by rewrite <- IH.
Qed.

Lemma plain_JObj (members : list (jstring * json)) :
  plain (JObj members) =
    match getOwn (lit "toString") members with
    | Some _ => false
    | None => forallb (fun m => plain (snd m)) members
    end.
Proof.
  cbn [plain]. destruct (getOwn _ members); [reflexivity|].
  induction members as [|m members IH]; [reflexivity|].
  cbn [forallb]. by rewrite <- IH.
Qed.

(** A value without any member named [toString] has a string. *)
Lemma toStr_plain (v : json) : plain v = true -> exists s, toStr v = Some s.
Proof.
  induction v as [|b|n|s|items IH|members IH] using json_nested_ind;
    try (cbn; eauto; fail).
  - intros _. destruct b; cbn; eauto.
  - rewrite plain_JArr, toStr_JArr. intros Hp.
    cut (exists l, elementTexts items = Some l).
    { intros [l ->]. cbn. eauto. }
    induction IH as [|x items Hx _ IHitems]; [cbn; eauto|].
    cbn [forallb] in Hp. apply andb_true_iff in Hp as [Hpx Hp].
    destruct (IHitems Hp) as [l Hl]. cbn [elementTexts]. rewrite Hl.
    unfold elementText. destruct (Hx Hpx) as [s Hs].
    destruct x; rewrite ?Hs; cbn; eauto.
  - rewrite plain_JObj. cbn [toStr].
    destruct (getOwn _ members); [discriminate|eauto].
Qed.

Lemma getOwn_plain (k : jstring) (members : list (jstring * json)) (w : json) :
  forallb (fun m => plain (snd m)) members = true ->
  getOwn k members = Some w -> plain w = true.
Proof.
  induction members as [|[k' v] members IH]; [discriminate|].
  cbn [forallb getOwn snd]. intros [Hv Hp]%andb_true_iff.
  destruct (getOwn k members) as [w'|].
  - intros [= <-]. by apply IH.
  - destruct (jstr_eqb k' k); [by intros [= <-]|discriminate].
Qed.

Lemma member_plain (k : string) (v w : json) :
  plain v = true -> member k v = Some w -> plain w = true.
Proof.
  destruct v; try discriminate. rewrite plain_JObj. cbn [member].
  destruct (getOwn (lit "toString") members); [discriminate|].
  apply getOwn_plain.
Qed.

Lemma toStrOpt_plain (o : option json) :
  (forall v, o = Some v -> plain v = true) -> exists s, toStrOpt o = Some s.
Proof.
  destruct o as [v|]; cbn [toStrOpt]; [|eauto].
  intros Hp. apply toStr_plain. by apply Hp.
Qed.

Lemma readVendorError_plain (parsedError : json) (errorMessage : option json)
    (result : option json * option json) :
  plain parsedError = true ->
  (exists s, toStrOpt errorMessage = Some s) ->
  readVendorError parsedError errorMessage = Some result ->
  exists s, toStrOpt (fst result) = Some s.
Proof.
  intros Hp Hm.
  assert (Hmem : forall k w, member k parsedError = Some w -> plain w = true)
    by (intros k w; by apply member_plain).
  assert (F1 : exists s,
            toStrOpt (member "error" parsedError ≫= member "message") = Some s).
  { apply toStrOpt_plain. intros v.
    destruct (member "error" parsedError) as [error_|] eqn:He; [|discriminate].
    apply member_plain. by apply (Hmem "error"%string). }
  assert (F2 : forall a others,
            member "errors" parsedError = Some (JArr (a :: others)) ->
            exists s, toStrOpt (member "title" a) = Some s).
  { intros a others Herrs. apply toStrOpt_plain. intros v.
    apply member_plain. apply Hmem in Herrs. rewrite plain_JArr in Herrs.
    cbn [forallb] in Herrs. by apply andb_true_iff in Herrs as [? _]. }
  assert (F3 : exists s, toStrOpt (member "message" parsedError) = Some s).
  { apply toStrOpt_plain. intros v. apply Hmem. }
  clear Hp Hmem. unfold readVendorError.
  destruct parsedError; [discriminate|..].
  all: destruct (isErrorTag _ && _);
    [ destruct (truthyOpt (_ ≫= member "detail"));
      [ destruct (toStrOpt (_ ≫= member "detail"));
        [destruct (toStrOpt (_ ≫= member "message"))|]|];
      intros [= <-]; cbn [fst];
      solve [exact F1 | cbn; eauto | destruct F1; discriminate]
    | destruct (truthyOpt _ && truthyOpt _);
      [ intros [= <-]; exact F1 |] ].
  all: destruct (member "errors" _) as [[| | | |[|a others]|]|] eqn:Herrs;
    try (destruct (truthyOpt (member "message" _));
         intros [= <-]; cbn [fst]; solve [exact F3 | exact Hm]).
  all: pose proof (F2 a others eq_refl) as Ft.
  all: destruct a; try discriminate.
  all: destruct (truthyOpt _); intros [= <-]; cbn [fst];
    solve [exact Ft | exact Hm].
Qed.

(** The message of an error response has a string when the body is not a
    JSON document, or is one without any member named [toString]. *)
Lemma describeError_plain (r : Response) (errorText : jstring) :
  (forall parsedError,
     JSON_parse errorText = Some parsedError -> plain parsedError = true) ->
  exists s, toStrOpt (fst (describeError r errorText)) = Some s.
Proof.
  intros Hp. unfold describeError.
  destruct (_ && _); [|cbn; eauto].
  destruct (JSON_parse errorText) as [parsedError|]; [|cbn; eauto].
  destruct (readVendorError parsedError _) as [result|] eqn:Hr; [|cbn; eauto].
  eapply readVendorError_plain; [by apply Hp| |exact Hr]. cbn. eauto.
Qed.

(** ** The claims about [fetchAtlassian]

    A call reaches [fetch] when its credentials pass the check and the
    encoding of its body throws nothing: [bodyThrows authHeader options] is
    [None], which holds for every body of plain data ([bodyThrows_data]).
    The statements about the response to a request are about such calls. *)


(** C2 (amended). A response of status 404 with the body
    [{"type":"error","error":{"message":"Repository not found","detail":"x"}}]
    gives an ApiError of status 404 whose message is
    [Bitbucket API: Resource not found - Repository not found Detail: x]:
    the vendor message and the detail are joined by [ Detail: ] without a
    full stop, after the prefix of the status. *)
Theorem C2_vendor_error (env : Env) (credentials : AtlassianCredentials)
    (path : jstring) (options : RequestOptions) (timers : Timers)
    (authHeader : jstring) (r : Response) :
  authorization credentials = inr authHeader ->
  bodyThrows authHeader options = None ->
  fetch env (baseUrl ++ normalizedPath path) (buildRequest authHeader options)
    = Resolves r ->
  status r = 404%Z ->
  resp_text r = BodyText Sample.notFoundBody ->
  sizeGuard (MAX_RESPONSE_SIZE env) r = None ->
  fst (fetchAtlassian env credentials path options timers) =
    Throws
      (ApiError
         (lit "Bitbucket API: Resource not found - Repository not found Detail: x")
         404
         (Some (CauseValue
                  (JObj [(lit "message", JStr (lit "Repository not found"));
                         (lit "detail", JStr (lit "x"))])))).
Proof.
  intros Hauth Hbody Hfetch Hst Htext Hguard.
  rewrite (fetchAtlassian_resolves _ _ _ _ _ _ _ Hauth Hbody Hfetch).
  unfold handleResponse, rejectResponse, ok.
  rewrite Hguard, Htext, Hst. cbn [negb andb Z.leb Z.compare Pos.compare
    Pos.compare_cont settle].
  unfold classify. rewrite Hst.
  replace (describeError r Sample.notFoundBody) with
    (Some (JStr (lit "Repository not found Detail: x")),
     Some (JObj [(lit "message", JStr (lit "Repository not found"));
                 (lit "detail", JStr (lit "x"))])); [reflexivity|].
  unfold describeError. reflexivity.
Qed.

(** C3 (amended). A response of status 200-299 whose body is empty or
    made of white space only decodes to the empty object when its
    Content-Type does not contain [text/plain]; when it does, the body is
    returned as it is, as a string. *)
Theorem C3_empty_body (r : Response) (text : jstring) :
  resp_text r = BodyText text ->
  Forall (fun c => isWhiteSpace c = true) text ->
  (includes (lit "text/plain") (contentTypeOf r) = false ->
   decodeBody r = Normal (JObj [])
   /\ forall env credentials path options timers authHeader,
        authorization credentials = inr authHeader ->
        bodyThrows authHeader options = None ->
        fetch env (baseUrl ++ normalizedPath path)
          (buildRequest authHeader options) = Resolves r ->
        ok r = true ->
        sizeGuard (MAX_RESPONSE_SIZE env) r = None ->
        fst (fetchAtlassian env credentials path options timers)
          = Returns (JObj []))
  /\ (includes (lit "text/plain") (contentTypeOf r) = true ->
      decodeBody r = Normal (JStr text)).
Proof.
  intros Htext Hblank.
  assert (Hdec : includes (lit "text/plain") (contentTypeOf r) = false ->
                 decodeBody r = Normal (JObj [])).
  { intros Hct. unfold decodeBody. rewrite Hct, Htext.
    rewrite (trim_blank _ Hblank). by rewrite orb_true_r. }
  split.
  - intros Hct. split; [by apply Hdec|].
    intros env credentials path options timers authHeader Hauth Hbody Hfetch Hok Hg.
    rewrite (fetchAtlassian_resolves _ _ _ _ _ _ _ Hauth Hbody Hfetch).
    unfold handleResponse. rewrite Hg, Hok. simpl. by rewrite Hdec.
  - intros Hct. unfold decodeBody. by rewrite Hct, Htext.
Qed.


(** C5. A response whose Content-Length header declares more than the
    limit makes the call throw an ApiError of status 413, whatever the
    status of the response; the body plays no part in it: whatever reading
    it would give, the outcome is the same, so that it is never decoded.
    The declared length is the Number that [parseInt] reads from the
    header. *)
Theorem C5_oversized (env : Env) (credentials : AtlassianCredentials)
    (path : jstring) (options : RequestOptions) (timers : Timers)
    (authHeader : jstring) (r : Response) (contentLength : jstring)
    (size : double) :
  authorization credentials = inr authHeader ->
  bodyThrows authHeader options = None ->
  fetch env (baseUrl ++ normalizedPath path) (buildRequest authHeader options)
    = Resolves r ->
  resp_headers r !! lit "content-length" = Some contentLength ->
  parseInt10 contentLength = size ->
  gt size (MAX_RESPONSE_SIZE env) = true ->
  fst (fetchAtlassian env credentials path options timers)
    = Throws (sizeError size (MAX_RESPONSE_SIZE env))
  /\ outcomeOf (sizeError size (MAX_RESPONSE_SIZE env)) = (ApiErrorKind, Some 413%Z)
  /\ forall b,
       handleResponse env (withBody r b)
         = Raised (RaisedMcp (sizeError size (MAX_RESPONSE_SIZE env))).
Proof.
  intros Hauth Hbody Hfetch Hcl <- Hgt. repeat split.
  - rewrite (fetchAtlassian_resolves _ _ _ _ _ _ _ Hauth Hbody Hfetch).
    unfold handleResponse.
    by rewrite (sizeGuard_exceeds _ _ _ Hcl Hgt).
  - intros b. unfold handleResponse.
    by rewrite (sizeGuard_exceeds _ (withBody r b) _ Hcl Hgt).
Qed.

(** C7 (amended). A body that is a non-empty string goes to the wire
    unchanged; a falsy body, the empty string for one, is not sent at all.
    A body of plain data that is not a string and is truthy is serialized as
    JSON when the effective Content-Type is [application/json], and more
    generally whenever that Content-Type neither contains
    [multipart/form-data] nor equals [application/x-www-form-urlencoded]; in
    those two cases any truthy body that is not a string is handed over as it
    is.  A value that is not plain data goes through [JSON.stringify] in the
    same way: its text is sent, no body is sent when the result is
    [undefined], and when [JSON.stringify] throws the call rejects with that
    very exception, before any request and any timer.  No combination of body
    and Content-Type is reported as an UnexpectedError: an UnexpectedError
    thrown by a call always wraps a rejection of [fetch], or of the reading
    of the body of the response, for a request whose body was encoded. *)
Theorem C7_body_encoding (authHeader : jstring) (options : RequestOptions) :
  (forall s, body options = Some (Data (JStr s)) -> s <> [] ->
     bodyThrows authHeader options = None
     /\ init_body (buildRequest authHeader options) = Some (WireText s))
  /\ (forall b, body options = Some b -> truthyBody b = false ->
        bodyThrows authHeader options = None
        /\ init_body (buildRequest authHeader options) = None)
  /\ (forall v, body options = Some (Data v) -> truthy v = true ->
        (forall s, v <> JStr s) ->
        init_headers (buildRequest authHeader options) !! lit "Content-Type"
          = Some (lit "application/json") ->
        bodyThrows authHeader options = None
        /\ init_body (buildRequest authHeader options)
           = Some (WireText (JSON_stringify v)))
  /\ (forall b contentType, body options = Some b -> truthyBody b = true ->
        (forall s, b <> Data (JStr s)) ->
        init_headers (buildRequest authHeader options) !! lit "Content-Type"
          = Some contentType ->
        encodeBody options (buildHeaders authHeader options)
          = if includes (lit "multipart/form-data") contentType
               || jstr_eqb (lit "application/x-www-form-urlencoded") contentType
            then inr (Some (WireRaw b))
            else match b with
                 | Data v => inr (Some (WireText (JSON_stringify v)))
                 | Opaque _ (StringifyText text) => inr (Some (WireText text))
                 | Opaque _ StringifyUndefined => inr None
                 | Opaque _ (StringifyThrows x) => inl x
                 end)
  /\ (forall requestBody,
        encodeBody options (buildHeaders authHeader options) = inr requestBody ->
        bodyThrows authHeader options = None
        /\ init_body (buildRequest authHeader options) = requestBody)
  /\ (forall x,
        encodeBody options (buildHeaders authHeader options) = inl x ->
        forall env credentials path timers,
          authorization credentials = inr authHeader ->
          fetchAtlassian env credentials path options timers = (Raises x, timers))
  /\ (forall env credentials path timers m c,
        fst (fetchAtlassian env credentials path options timers)
          = Throws (UnexpectedError m c) ->
        exists h x,
          authorization credentials = inr h
          /\ bodyThrows h options = None
          /\ c = Some (CauseRejection x)
          /\ (fetch env (baseUrl ++ normalizedPath path) (buildRequest h options)
                = Rejects x
              \/ exists r,
                   fetch env (baseUrl ++ normalizedPath path)
                     (buildRequest h options) = Resolves r
                   /\ resp_text r = BodyFails x)).
Proof.
  assert (Henc : forall requestBody,
            encodeBody options (buildHeaders authHeader options) = inr requestBody ->
            bodyThrows authHeader options = None
            /\ init_body (buildRequest authHeader options) = requestBody).
  { intros requestBody He.
    destruct (init_body_encoded _ _ _ He) as [Hi Hb]. by split. }
  split; [|split; [|split; [|split; [|split; [|split]]]]].
  - intros s Hb Hs. apply Henc. by apply encodeBody_text.
  - intros b Hb Ht. apply Henc. unfold encodeBody. by rewrite Hb, Ht.
  - intros v Hb Ht Hs Hct. apply Henc.
    unfold buildRequest in Hct. cbn [init_headers] in Hct.
    assert (Hv : forall s, Data v <> Data (JStr s)).
    { intros s [= ->]. by apply (Hs s). }
    by rewrite (encodeBody_value _ _ (Data v) _ Hb Ht Hv Hct).
  - intros b ct Hb Ht Hs Hct. unfold buildRequest in Hct.
    cbn [init_headers] in Hct.
    by rewrite (encodeBody_value _ _ _ _ Hb Ht Hs Hct).
  - exact Henc.
  - intros x He env credentials path timers Hauth.
    apply (fetchAtlassian_raises _ _ _ _ _ authHeader); [exact Hauth|].
    unfold bodyThrows. by rewrite He.
  - intros env credentials path timers m c.
    destruct (authorization credentials) as [e|h] eqn:Hauth.
    + unfold fetchAtlassian. rewrite Hauth. simpl. intros [= ->].
      by apply authorization_error in Hauth.
    + destruct (bodyThrows h options) as [x|] eqn:Hbody.
      { by rewrite (fetchAtlassian_raises _ _ _ _ _ _ _ Hauth Hbody). }
      rewrite (fetchAtlassian_rejects _ _ _ _ _ _ Hauth Hbody).
      destruct (fetch env _ _) as [r| |x] eqn:Hfetch.
      * intros (x & -> & Hx)%settle_unexpected. exists h, x. eauto 10.
      * discriminate.
      * intros Hx.
        destruct (handleFailure_outcome
                    (default (defaultTimeout env) (timeout options)) x)
          as [[v Hv]|[(m' & st & Hv & _)|[m' Hv]]]; rewrite Hv in Hx;
          try discriminate.
        injection Hx as _ <-. exists h, x. auto.
Qed.

(** C10. The size guard looks at the declared length only.  For a response
    without a Content-Length header the guard lets the response through and
    the call goes on to the body: a response of status 200-299 whose body is
    received is decoded and returned, however long the body is; and the only
    ApiError of status 413 that such a response can give is the one that
    repeats a status 413 sent by the server, never the error of the guard. *)
Theorem C10_no_declared_length (env : Env) (credentials : AtlassianCredentials)
    (path : jstring) (options : RequestOptions) (timers : Timers)
    (authHeader : jstring) (r : Response) :
  authorization credentials = inr authHeader ->
  bodyThrows authHeader options = None ->
  fetch env (baseUrl ++ normalizedPath path) (buildRequest authHeader options)
    = Resolves r ->
  resp_headers r !! lit "content-length" = None ->
  sizeGuard (MAX_RESPONSE_SIZE env) r = None
  /\ fst (fetchAtlassian env credentials path options timers)
       = settle (default (defaultTimeout env) (timeout options))
           (if negb (ok r) then rejectResponse env r else decodeBody r)
  /\ (forall text, ok r = true -> resp_text r = BodyText text ->
        exists v, decodeBody r = Normal v
                  /\ fst (fetchAtlassian env credentials path options timers)
                     = Returns v)
  /\ (forall e, fst (fetchAtlassian env credentials path options timers) = Throws e ->
        (forall size, e <> sizeError size (MAX_RESPONSE_SIZE env))
        /\ (statusOf e = Some 413%Z -> status r = 413%Z)).
Proof.
  intros Hauth Hbody Hfetch Hcl.
  assert (Hguard : sizeGuard (MAX_RESPONSE_SIZE env) r = None).
  { unfold sizeGuard. by rewrite Hcl. }
  assert (Hcall : fst (fetchAtlassian env credentials path options timers)
            = settle (default (defaultTimeout env) (timeout options))
                (if negb (ok r) then rejectResponse env r else decodeBody r)).
  { rewrite (fetchAtlassian_resolves _ _ _ _ _ _ _ Hauth Hbody Hfetch).
    unfold handleResponse. by rewrite Hguard. }
  split; [exact Hguard|]. split; [exact Hcall|]. split.
  - intros text Hok Htext. rewrite Hcall, Hok. simpl.
    unfold decodeBody. rewrite Htext.
    destruct (includes _ (contentTypeOf r)); [eauto|].
    destruct (_ || _); [eauto|].
    destruct (JSON_parse text); eauto.
  - intros e. rewrite Hcall.
    assert (Hfail : forall x,
              handleFailure (default (defaultTimeout env) (timeout options))
                (RaisedOther x) = Throws e ->
              (forall size, e <> sizeError size (MAX_RESPONSE_SIZE env))
              /\ (statusOf e = Some 413%Z -> status r = 413%Z)).
    { intros x Hx.
      destruct (handleFailure_outcome
                  (default (defaultTimeout env) (timeout options)) x)
        as [[v Hv]|[(m' & st & Hv & Hst)|[m' Hv]]]; rewrite Hv in Hx;
        try discriminate; injection Hx as <-; split; try discriminate.
      simpl. intros [= ->]. lia. }
    destruct (negb (ok r)).
    + unfold rejectResponse. destruct (resp_text r) as [t|x]; [|apply Hfail].
      destruct (classify env r t) as [e'|x] eqn:Hc; [|apply Hfail].
      cbn [settle handleFailure]. intros [= <-]. split.
      * intros size ->. by apply (classify_not_sizeError env r t size
                                    (MAX_RESPONSE_SIZE env)).
      * apply classify_mcp in Hc as [Ho _].
        unfold outcomeOf, statusTable in Ho.
        destruct (status r =? 401)%Z; injection Ho as _ Ho; rewrite Ho;
          [discriminate|]. by intros [= ->].
    + unfold decodeBody.
      destruct (includes _ (contentTypeOf r)), (resp_text r) as [t|x];
        try apply Hfail; try discriminate.
      simpl. destruct (_ || _); [discriminate|].
      by destruct (JSON_parse t).
Qed.

End TransportProperties.

(** * The properties on the sample data *)

Ltac run := vm_compute; first [reflexivity | discriminate | done].

(** ** The run-time model on known values *)

Example base64_user_pass :
  base64 (utf8 (lit "user:pass")) = lit "dXNlcjpwYXNz".
Proof. run. Qed.

Example base64_padding :
  base64 (utf8 (lit "a")) = lit "YQ==" /\ base64 (utf8 (lit "ab")) = lit "YWI=".
Proof. split; run. Qed.

Example parseInt10_values :
  parseInt10 (lit "  +123abc") = Dyadic 123 0
  /\ parseInt10 (lit "-42") = Dyadic (-42) 0
  /\ parseInt10 (lit "1e5") = Dyadic 1 0
  /\ parseInt10 (lit "abc") = NaN
  /\ parseInt10 (lit "-") = NaN
  /\ parseInt10 (lit "-0") = NegativeZero
  /\ parseInt10 (lit "9007199254740993") = Dyadic 9007199254740992 0.
Proof. repeat split; run. Qed.

Example toString_values :
  toString (ofZ (2 ^ 70)) = lit "1.1805916207174113e+21"
  /\ toString (ofZ (2 ^ 60)) = lit "1152921504606847000"
  /\ toString (nearest 1 3) = lit "0.3333333333333333"
  /\ toString (nearest 1 10000000) = lit "1e-7"
  /\ toString (ofZ (-5)) = lit "-5"
  /\ toString NegativeZero = lit "0"
  /\ toString NaN = lit "NaN".
Proof. repeat split; run. Qed.

Example secondsText_values :
  secondsText (ofZ 30000) = lit "30" /\ secondsText (ofZ 1500) = lit "1.5"
  /\ secondsText (ofZ 1050) = lit "1.05" /\ secondsText (ofZ 1) = lit "0.001"
  /\ secondsText (ofZ 9007199254740991) = lit "9007199254740.99".
Proof. repeat split; run. Qed.

Example megabytes_values :
  megabytes (ofZ 10485760) = lit "10" /\ megabytes (ofZ 1572864) = lit "2"
  /\ megabytes (ofZ 1572863) = lit "1"
  /\ megabytes (parseInt10 (lit "-1")) = lit "0"
  /\ megabytes NaN = lit "NaN".
Proof. repeat split; run. Qed.

Example trim_value : trim (lit "  a b  ") = lit "a b".
Proof. run. Qed.

Example JSON_parse_vendor_error :
  JSON_parse Sample.notFoundBody =
    Some (JObj [(lit "type", JStr (lit "error"));
                (lit "error",
                 JObj [(lit "message", JStr (lit "Repository not found"));
                       (lit "detail", JStr (lit "x"))])]).
Proof. run. Qed.

Example JSON_parse_nested :
  JSON_parse (quoted " [true, null, 'a\u0041', {}, [], {'k':[{}]}] ") =
    Some (JArr [JBool true; JNull; JStr (lit "aA"); JObj []; JArr [];
                JObj [(lit "k", JArr [JObj []])]]).
Proof. run. Qed.

Example JSON_parse_rejects :
  JSON_parse (lit "[01]") = None /\ JSON_parse (lit "[1,]") = None
  /\ JSON_parse (lit "{]") = None /\ JSON_parse (lit "tru") = None
  /\ JSON_parse (lit "1 2") = None /\ JSON_parse (lit "") = None
  /\ JSON_parse (quoted "{'a' 1}") = None /\ JSON_parse (quoted "{'a':1,}") = None.
Proof. repeat split; run. Qed.

Example JSON_stringify_value :
  JSON_stringify (JObj [(lit "a", JArr [JBool true; JNull; JStr [120; 10; 34]]);
                        (lit "b", JObj [])])
  = quoted "{'a':[true,null,'x\n\''],'b':{}}".
Proof. run. Qed.

Example toStr_array :
  toStr (JArr [JStr (lit "a"); JNull; JObj []; JArr [JBool true; JNull]])
  = Some (lit "a,,[object Object],true,").
Proof. run. Qed.

Example toStr_throws :
  toStr (JObj [(lit "toString", JBool true)]) = None
  /\ toStr (JArr [JNull; JObj [(lit "toString", JNull)]]) = None
  /\ toStr (JObj [(lit "valueOf", JBool true)]) = Some (lit "[object Object]").
Proof. repeat split; run. Qed.

Example member_last_wins :
  (JSON_parse (quoted "{'a':'x','b':'y','a':'z'}")) ≫= member "a"
  = Some (JStr (lit "z")).
Proof. run. Qed.

(** A message without a text: the response of status 404 is reported as
    an ApiError of status 500. *)
Example unprintable_message :
  fst (fetchAtlassian
         (Sample.network (Resolves (Sample.response 404 [] Sample.unprintableBody)))
         Sample.oauth Sample.path Sample.plain Sample.timers)
  = Throws
      (ApiError
         (lit "Network error while calling Bitbucket API: Cannot convert object to primitive value")
         500
         (Some (CauseRejection
                  (RejectError
                     {| errClass := TypeErrorClass; errName := lit "TypeError";
                        errMessage :=
                          lit "Cannot convert object to primitive value" |})))).
Proof. run. Qed.

(** A body that [JSON.stringify] refuses: the call rejects with the
    TypeError itself, and no timer is armed. *)
Example bigInt_body_rejects :
  fetchAtlassian (Sample.network (Resolves Sample.blankJson))
    Sample.oauth Sample.path Sample.bigIntBody Sample.timers
  = (Raises Sample.bigIntError, Sample.timers).
Proof. run. Qed.

(** A file whose [length] member has no text. *)
Example unprintable_length :
  fst (getFileContent
         (ServiceSample.service Sample.bothConfigured
            (Resolves ServiceSample.measured))
         ServiceSample.readme Sample.timers)
  = Rejected
      (ServiceApiError
         (lit "Failed to get file content: Cannot convert object to primitive value")
         500
         (Thrown (RejectError
                    {| errClass := TypeErrorClass; errName := lit "TypeError";
                       errMessage :=
                         lit "Cannot convert object to primitive value" |}))).
Proof. run. Qed.

(** Above 2^53 the declared length is rounded before it is compared. *)
Example rounded_length :
  gt (parseInt10 (lit "9007199254740993")) (ofZ 9007199254740992) = false
  /\ gt (parseInt10 (lit "9007199254740995")) (ofZ 9007199254740992) = true.
Proof. split; run. Qed.

(** ** Witnesses *)


Lemma C2_vendor_error_witness :
  messageOf
    (match fst (fetchAtlassian
                  (Sample.network (Resolves (Sample.response 404 [] Sample.notFoundBody)))
                  Sample.oauth Sample.path Sample.plain Sample.timers) with
     | Throws e => e
     | _ => UnexpectedError [] None
     end)
  = lit "Bitbucket API: Resource not found - Repository not found Detail: x".
Proof.
  rewrite (C2_vendor_error
             (Sample.network (Resolves (Sample.response 404 [] Sample.notFoundBody)))
             Sample.oauth Sample.path Sample.plain Sample.timers Sample.bearer
             (Sample.response 404 [] Sample.notFoundBody));
    run.
Defined.

Lemma C3_empty_body_witness :
  decodeBody Sample.blankJson = Normal (JObj [])
  /\ fst (fetchAtlassian (Sample.network (Resolves Sample.blankJson))
            Sample.oauth Sample.path Sample.plain Sample.timers)
     = Returns (JObj []).
Proof.
  destruct (C3_empty_body Sample.blankJson (lit "  ")) as [Hjson _];
    [run | repeat constructor |].
  destruct Hjson as [Hdec Hcall]; [run|].
  split; [exact Hdec|].
  apply (Hcall _ _ _ _ _ Sample.bearer); run.
Defined.


Lemma C5_oversized_witness :
  fst (fetchAtlassian (Sample.network (Resolves Sample.oversized401))
         Sample.oauth Sample.path Sample.plain Sample.timers)
    = Throws (sizeError (ofZ 10485761) (ofZ 10485760))
  /\ messageOf (sizeError (ofZ 10485761) (ofZ 10485760))
     = lit "Response size (10MB) exceeds maximum limit of 10MB".
Proof.
  split; [|run].
  apply (C5_oversized (Sample.network (Resolves Sample.oversized401))
           Sample.oauth Sample.path Sample.plain Sample.timers Sample.bearer
           Sample.oversized401 (lit "10485761") (ofZ 10485761));
    run.
Defined.

Lemma C6_credential_precedence_witness :
  getAtlassianCredentials Sample.bothConfigured = Some Sample.oauth
  /\ getAtlassianCredentials Sample.appPasswordOnly =
       Some {| oauthToken := None; useOAuth := None;
               siteName := None; userEmail := None; apiToken := None;
               bitbucketUsername := Some (lit "me");
               bitbucketAppPassword := Some (lit "secret");
               useBitbucketAuth := Some true |}
  /\ getAtlassianCredentials ∅ = None.
Proof.
  split; [|split].
  - rewrite (proj1 (C6_credential_precedence Sample.bothConfigured)); run.
  - rewrite (proj1 (proj2 (C6_credential_precedence Sample.appPasswordOnly))); run.
  - apply (proj2 (proj2 (C6_credential_precedence ∅))); run.
Defined.

Lemma C7_body_encoding_witness :
  init_body (buildRequest Sample.bearer Sample.jsonObject)
    = Some (WireText (quoted "{'name':'main'}"))
  /\ fetchAtlassian (Sample.network (Resolves Sample.blankJson))
       Sample.oauth Sample.path Sample.bigIntBody Sample.timers
     = (Raises Sample.bigIntError, Sample.timers).
Proof.
  split.
  - destruct (C7_body_encoding Sample.bearer Sample.jsonObject)
      as (_ & _ & Hjson & _).
    apply (Hjson (JObj [(lit "name", JStr (lit "main"))])); run.
  - destruct (C7_body_encoding Sample.bearer Sample.bigIntBody)
      as (_ & _ & _ & _ & _ & Hthrows & _).
    apply Hthrows; run.
Defined.

Lemma C9_single_variant_witness :
  complete Sample.oauth (variantOf Sample.oauth) = true
  /\ (forall v, populates Sample.oauth v = true <-> v = variantOf Sample.oauth)
  /\ (useOAuth Sample.oauth = Some true
      \/ (useOAuth Sample.oauth = None /\ useBitbucketAuth Sample.oauth = Some false)
      \/ (useOAuth Sample.oauth = None /\ useBitbucketAuth Sample.oauth = Some true)).
Proof.
  apply (C9_single_variant Sample.bothConfigured Sample.oauth). run.
Defined.

Lemma C10_no_declared_length_witness :
  fst (fetchAtlassian (Sample.network (Resolves (Sample.response 200 [] (quoted "{'size':'large'}"))))
         Sample.oauth Sample.path Sample.plain Sample.timers)
    = Returns (JObj [(lit "size", JStr (lit "large"))]).
Proof.
  destruct (C10_no_declared_length
              (Sample.network (Resolves (Sample.response 200 [] (quoted "{'size':'large'}"))))
              Sample.oauth Sample.path Sample.plain Sample.timers Sample.bearer
              (Sample.response 200 [] (quoted "{'size':'large'}")))
    as (_ & Hcall & _); [run..|].
  rewrite Hcall. run.
Defined.

(** ** Counterexamples to the claims as they were worded *)


(** C2 as worded fails: the message is not
    [Repository not found. Detail: x]. *)
Lemma C2_counterexample :
  exists e,
    fst (fetchAtlassian
           (Sample.network (Resolves (Sample.response 404 [] Sample.notFoundBody)))
           Sample.oauth Sample.path Sample.plain Sample.timers) = Throws e
    /\ messageOf e
       = lit "Bitbucket API: Resource not found - Repository not found Detail: x"
    /\ messageOf e <> lit "Repository not found. Detail: x".
Proof.
  eexists. split; [run|]. split; run.
Qed.

(** C3 as worded fails: with Content-Type [text/plain], an empty body of
    a response of status 200 is returned as the empty string, not as the
    empty object. *)
Lemma C3_counterexample :
  ok Sample.emptyTextPlain = true
  /\ resp_text Sample.emptyTextPlain = BodyText []
  /\ decodeBody Sample.emptyTextPlain = Normal (JStr [])
  /\ fst (fetchAtlassian (Sample.network (Resolves Sample.emptyTextPlain))
            Sample.oauth Sample.path Sample.plain Sample.timers)
     = Returns (JStr [])
  /\ @Returns LiteralNumbers (JStr []) <> Returns (JObj []).
Proof. repeat split; run. Qed.

(** C7 as worded fails: an object sent with Content-Type [text/xml] is
    serialized as JSON and the call succeeds; it does not fail with an
    UnexpectedError. *)
Lemma C7_counterexample :
  init_headers (buildRequest Sample.bearer Sample.xmlObject) !! lit "Content-Type"
    = Some (lit "text/xml")
  /\ init_body (buildRequest Sample.bearer Sample.xmlObject)
     = Some (WireText (quoted "{'name':'main'}"))
  /\ fst (fetchAtlassian (Sample.network (Resolves Sample.blankJson))
            Sample.oauth Sample.path Sample.xmlObject Sample.timers)
     = Returns (JObj [])
  /\ forall m c,
       fst (fetchAtlassian (Sample.network (Resolves Sample.blankJson))
              Sample.oauth Sample.path Sample.xmlObject Sample.timers)
       <> Throws (UnexpectedError m c).
Proof. repeat split; run. Qed.

(** C8 as worded fails: an [Accept] entry in the headers of the options
    replaces [application/json]. *)
Lemma C8_counterexample :
  init_headers (buildRequest Sample.bearer Sample.acceptText) !! lit "Accept"
    = Some (lit "text/plain")
  /\ init_headers (buildRequest Sample.bearer Sample.acceptText) !! lit "Accept"
     <> Some (lit "application/json").
Proof. split; run. Qed.


(** * Further properties of the transport layer *)

Section FurtherProperties.

Context `{JsNumbers}.

(** ** Credentials and the Authorization header *)

Lemma resolved_complete (config : gmap string jstring) (c : AtlassianCredentials) :
  getAtlassianCredentials config = Some c -> complete c (variantOf c) = true.
Proof.
  unfold getAtlassianCredentials.
  destruct (truthyStr (orElse _ _)) eqn:Ho; [by intros [= <-]|].
  destruct (truthyStr (config !! "ATLASSIAN_USER_EMAIL"%string)
            && truthyStr (config !! "ATLASSIAN_API_TOKEN"%string)) eqn:He;
    [by intros [= <-]|].
  destruct (truthyStr (config !! "ATLASSIAN_BITBUCKET_USERNAME"%string)
            && truthyStr (config !! "ATLASSIAN_BITBUCKET_APP_PASSWORD"%string)) eqn:Hu;
    [by intros [= <-]|discriminate].
Qed.

Lemma authorization_complete (c : AtlassianCredentials) :
  complete c (variantOf c) = true -> authorization c = inr (authHeaderOf c).
Proof.
  unfold authorization, authHeaderOf, variantOf, complete.
  destruct (default false (useOAuth c)).
  - by intros ->.
  - destruct (default false (useBitbucketAuth c));
      intros [-> ->]%andb_true_iff; reflexivity.
Qed.

Lemma authorization_incomplete (c : AtlassianCredentials) :
  complete c (variantOf c) = false ->
  exists m, authorization c = inl (AuthInvalidError m None).
Proof.
  unfold authorization, variantOf, complete.
  destruct (default false (useOAuth c)).
  - intros ->. simpl. eauto.
  - destruct (default false (useBitbucketAuth c)); intros Hc;
      apply andb_false_iff in Hc as [->| ->]; simpl; rewrite ?orb_true_r; eauto.
Qed.

(** X1. Whatever the configuration, the credentials that the resolver
    returns pass the check of [fetchAtlassian]: the Authorization header is
    [Bearer] and the token, or [Basic] and the base64 text of the user and the
    secret of the variant, and no [Missing ...] error is raised. *)
Theorem resolved_credentials_authorize (config : gmap string jstring)
    (c : AtlassianCredentials) :
  getAtlassianCredentials config = Some c ->
  authorization c = inr (authHeaderOf c)
  /\ forall (env : Env) path options timers m,
       fst (fetchAtlassian env c path options timers)
         <> Throws (AuthInvalidError m None).
Proof.
  intros Hc. pose proof (authorization_complete c (resolved_complete _ _ Hc)) as Ha.
  split; [exact Ha|].
  intros env path options timers m.
  destruct (bodyThrows (authHeaderOf c) options) as [x|] eqn:Hbody.
  { by rewrite (fetchAtlassian_raises _ _ _ _ _ _ _ Ha Hbody). }
  rewrite (fetchAtlassian_rejects _ _ _ _ _ _ Ha Hbody).
  assert (Hfail : forall x,
            handleFailure (default (defaultTimeout env) (timeout options))
              (RaisedOther x) <> Throws (AuthInvalidError m None)).
  { intros x Hx.
    destruct (handleFailure_outcome
                (default (defaultTimeout env) (timeout options)) x)
      as [[v Hv]|[(m' & st & Hv & _)|[m' Hv]]]; rewrite Hv in Hx; discriminate. }
  destruct (fetch env _ _) as [r| |x]; [|apply Hfail..].
  unfold handleResponse.
  destruct (sizeGuard _ r) as [e|] eqn:Hg.
  { apply sizeGuard_Some in Hg as (cl & _ & _ & ->). discriminate. }
  destruct (negb (ok r)).
  - unfold rejectResponse. destruct (resp_text r) as [t|x]; [|apply Hfail].
    pose proof (classify_cases env r t) as Hcl.
    destruct (toStrOpt (fst (describeError r t))).
    + destruct Hcl as (e & -> & _ & _ & Hcause).
      cbn [settle handleFailure]. intros [= ->]. discriminate.
    + rewrite Hcl. apply Hfail.
  - unfold decodeBody.
    destruct (includes _ (contentTypeOf r)), (resp_text r) as [t|x];
      try apply Hfail; try discriminate.
    simpl. destruct (_ || _); [discriminate|]. by destruct (JSON_parse t).
Qed.

(** X2. Credentials that lack a field required by the scheme their flags
    select make the call throw AuthInvalid at once: the error is the same
    whatever the network, and no timer is armed. *)
Theorem incomplete_credentials_fail_early (c : AtlassianCredentials) :
  complete c (variantOf c) = false ->
  exists m,
    forall (env : Env) path options timers,
      fetchAtlassian env c path options timers
        = (Throws (AuthInvalidError m None), timers).
Proof.
  intros Hc. destruct (authorization_incomplete c Hc) as [m Hm].
  exists m. intros env path options timers.
  unfold fetchAtlassian. by rewrite Hm.
Qed.

(** ** Successful responses *)

Lemma isWhiteSpace_lexIdle (c : N) :
  isWhiteSpace c = true -> lexIdle c = None \/ lexIdle c = Some (LIdle, []).
Proof.
  unfold isWhiteSpace. rewrite existsb_exists. intros (w & Hw & Hc).
  apply N.eqb_eq in Hc as ->.
  unfold whiteSpaceCodes in Hw. simpl in Hw.
  repeat (destruct Hw as [<-|Hw]; [vm_compute; auto|]).
  destruct Hw.
Qed.

Lemma lex_blank (s : jstring) :
  blank s = true -> lex LIdle s = None \/ lex LIdle s = Some [].
Proof.
  unfold blank. induction s as [|c s IH]; simpl; [auto|].
  intros [Hc Hs]%andb_true_iff.
  destruct (isWhiteSpace_lexIdle c Hc) as [-> | ->]; [auto|].
  destruct (IH Hs) as [-> | ->]; auto.
Qed.

Lemma JSON_parse_blank (s : jstring) : blank s = true -> JSON_parse s = None.
Proof.
  intros Hs. unfold JSON_parse.
  by destruct (lex_blank s Hs) as [-> | ->].
Qed.

Lemma trimStart_nil (s : jstring) : trimStart s = [] -> blank s = true.
Proof.
  unfold blank. induction s as [|c s IH]; simpl; [reflexivity|].
  destruct (isWhiteSpace c); [exact IH|discriminate].
Qed.

Lemma trimStart_suffix (s : jstring) : exists p, s = p ++ trimStart s /\ blank p = true.
Proof.
  induction s as [|c s (p & Hp & Hb)]; simpl.
  - by exists [].
  - destruct (isWhiteSpace c) eqn:Hc.
    + exists (c :: p). split; [simpl; congruence|]. unfold blank in *. simpl.
      by rewrite Hc.
    + by exists [].
Qed.

Lemma blank_Forall (s : jstring) :
  blank s = true <-> Forall (fun c => isWhiteSpace c = true) s.
Proof.
  unfold blank. induction s as [|c s IH]; simpl.
  - split; [constructor|reflexivity].
  - rewrite andb_true_iff, IH. split.
    + intros [Hc Hs]. by constructor.
    + by inversion 1.
Qed.

Lemma blank_app (a b : jstring) : blank (a ++ b) = blank a && blank b.
Proof. unfold blank. apply forallb_app. Qed.

Lemma blank_rev (a : jstring) : blank (rev a) = blank a.
Proof.
  unfold blank. induction a as [|c a IH]; simpl; [reflexivity|].
  rewrite forallb_app, IH. simpl. rewrite andb_true_r. apply andb_comm.
Qed.

(** [trim] gives the empty string on the blank texts only. *)
Lemma trim_nil_blank (s : jstring) : jstr_eqb (trim s) [] = blank s.
Proof.
  destruct (blank s) eqn:Hb.
  - apply jstr_eqb_eq. apply trim_blank. by apply blank_Forall.
  - destruct (jstr_eqb (trim s) []) eqn:Ht; [|reflexivity].
    apply jstr_eqb_eq in Ht. unfold trim in Ht.
    assert (Hr : trimStart (rev (trimStart s)) = []).
    { by rewrite <- (rev_involutive (trimStart _)), Ht. }
    apply trimStart_nil in Hr. rewrite blank_rev in Hr.
    destruct (trimStart_suffix s) as (p & Hp & Hbp).
    rewrite Hp, blank_app, Hbp, Hr in Hb. discriminate.
Qed.

Lemma handleResponse_success (env : Env) (r : Response) (text : jstring) :
  ok r = true ->
  sizeGuard (MAX_RESPONSE_SIZE env) r = None ->
  resp_text r = BodyText text ->
  handleResponse env r =
    Normal
      (if includes (lit "text/plain") (contentTypeOf r) then JStr text
       else match JSON_parse text with
            | Some value => value
            | None => if blank text then JObj [] else JStr text
            end).
Proof.
  intros Hok Hguard Htext.
  unfold handleResponse, decodeBody. rewrite Hguard, Hok, Htext. simpl.
  destruct (includes _ (contentTypeOf r)); [reflexivity|].
  rewrite trim_nil_blank.
  destruct (blank text) eqn:Hb.
  - rewrite (JSON_parse_blank _ Hb). by rewrite orb_true_r.
  - destruct text as [|c text]; [discriminate|]. simpl.
    by destruct (JSON_parse (c :: text)).
Qed.

(** X3. A response of status 200-299 whose body is received and whose
    declared length passes the guard never makes the call throw.  With a
    Content-Type that contains [text/plain] the text is returned as it is,
    even when it is a JSON document; otherwise the call returns the JSON value
    when the text is a JSON document, the empty object when the text is blank,
    and the text itself in every other case. *)
Theorem success_is_never_an_error (env : Env) (credentials : AtlassianCredentials)
    (path : jstring) (options : RequestOptions) (timers : Timers)
    (authHeader : jstring) (r : Response) (text : jstring) :
  authorization credentials = inr authHeader ->
  bodyThrows authHeader options = None ->
  fetch env (baseUrl ++ normalizedPath path) (buildRequest authHeader options)
    = Resolves r ->
  ok r = true ->
  sizeGuard (MAX_RESPONSE_SIZE env) r = None ->
  resp_text r = BodyText text ->
  fst (fetchAtlassian env credentials path options timers) =
    Returns
      (if includes (lit "text/plain") (contentTypeOf r) then JStr text
       else match JSON_parse text with
            | Some value => value
            | None => if blank text then JObj [] else JStr text
            end).
Proof.
  intros Hauth Hbody Hfetch Hok Hguard Htext.
  rewrite (fetchAtlassian_resolves _ _ _ _ _ _ _ Hauth Hbody Hfetch).
  by rewrite (handleResponse_success _ _ _ Hok Hguard Htext).
Qed.

(** ** The headers of the request *)


(** ** Timers over several calls *)

Lemma fetchAtlassian_timersOk (env : Env) (credentials : AtlassianCredentials)
    (path : jstring) (options : RequestOptions) (timers : Timers) :
  timersOk timers ->
  armed (snd (fetchAtlassian env credentials path options timers)) = armed timers
  /\ timersOk (snd (fetchAtlassian env credentials path options timers))
  /\ (nextTimer timers <= nextTimer (snd (fetchAtlassian env credentials path options timers))
      <= S (nextTimer timers))%nat.
Proof.
  intros Hok. rewrite fetchAtlassian_timers.
  destruct (authorization credentials) as [e|h]; [by auto with lia|].
  destruct (bodyThrows h options); [by auto with lia|].
  assert (Ha : armed (clearTimeout (nextTimer timers) (snd (setTimeout timers)))
               = armed timers).
  { rewrite clearTimeout_armed. simpl. rewrite Nat.eqb_refl. simpl.
    by apply filter_fresh. }
  split; [exact Ha|]. split.
  - unfold timersOk. rewrite Ha. simpl.
    eapply Forall_impl; [exact Hok|]. simpl. lia.
  - simpl. lia.
Qed.

(** X5. Calls made one after the other leak no timer: when the identifiers
    of the armed timers are below the next identifier, the timers armed
    after any sequence of calls, whatever their outcomes, are the timers
    that were armed before the first one, and there is one completion for
    each call. *)
Theorem repeated_calls_leak_no_timer (env : Env) (calls : list Call)
    (timers : Timers) :
  timersOk timers ->
  armed (snd (runCalls env calls timers)) = armed timers
  /\ timersOk (snd (runCalls env calls timers))
  /\ length (fst (runCalls env calls timers)) = length calls
  /\ (nextTimer timers <= nextTimer (snd (runCalls env calls timers))
      <= nextTimer timers + length calls)%nat.
Proof.
  revert timers. induction calls as [|c calls IH]; intros timers Hok; simpl.
  - repeat split; auto with lia.
  - destruct (fetchAtlassian_timersOk env (call_credentials c) (call_path c)
                (call_options c) timers Hok) as (Ha & Hok1 & Hn).
    destruct (fetchAtlassian env (call_credentials c) (call_path c)
                (call_options c) timers) as [done timers1].
    simpl in Ha, Hok1, Hn.
    destruct (IH timers1 Hok1) as (Ha2 & Hok2 & Hl & Hn2).
    destruct (runCalls env calls timers1) as [others timers2].
    simpl in *. repeat split; try congruence; try lia.
Qed.

(** ** The errors of a call *)

(** X6. The status of an ApiError thrown by a call is 408, 413, 500, or
    the status of the response received, which is then outside 200-299:
    the transport layer makes up no other status. *)
Theorem thrown_statuses (env : Env) (credentials : AtlassianCredentials)
    (path : jstring) (options : RequestOptions) (timers : Timers)
    (m : jstring) (st : Z) (c : option cause) :
  fst (fetchAtlassian env credentials path options timers)
    = Throws (ApiError m st c) ->
  st = 408%Z \/ st = 413%Z \/ st = 500%Z
  \/ exists authHeader r,
       authorization credentials = inr authHeader
       /\ fetch env (baseUrl ++ normalizedPath path)
            (buildRequest authHeader options) = Resolves r
       /\ ok r = false /\ status r = st.
Proof.
  destruct (authorization credentials) as [e|h] eqn:Hauth.
  { unfold fetchAtlassian. rewrite Hauth. simpl. intros [= ->].
    by apply authorization_error in Hauth. }
  destruct (bodyThrows h options) as [x|] eqn:Hbody.
  { by rewrite (fetchAtlassian_raises _ _ _ _ _ _ _ Hauth Hbody). }
  rewrite (fetchAtlassian_rejects _ _ _ _ _ _ Hauth Hbody).
  intros Hthrow.
  cut (st = 408%Z \/ st = 413%Z \/ st = 500%Z \/
       exists r,
         fetch env (baseUrl ++ normalizedPath path) (buildRequest h options)
           = Resolves r
         /\ ok r = false /\ status r = st).
  { intros [?|[?|[?|(r & ? & ? & ?)]]]; auto.
    right; right; right. by exists h, r. }
  revert Hthrow.
  assert (Hfail : forall x,
            handleFailure (default (defaultTimeout env) (timeout options))
              (RaisedOther x) = Throws (ApiError m st c) ->
            st = 408%Z \/ st = 413%Z \/ st = 500%Z \/
            exists r,
              fetch env (baseUrl ++ normalizedPath path) (buildRequest h options)
                = Resolves r
              /\ ok r = false /\ status r = st).
  { intros x Hx.
    destruct (handleFailure_outcome
                (default (defaultTimeout env) (timeout options)) x)
      as [[v Hv]|[(m' & st' & Hv & Hst)|[m' Hv]]]; rewrite Hv in Hx;
      try discriminate.
    injection Hx as _ <- _. destruct Hst as [-> | ->]; auto. }
  destruct (fetch env _ _) as [r| |x] eqn:Hfetch; [|apply Hfail..].
  unfold handleResponse.
  destruct (sizeGuard _ r) as [e|] eqn:Hg.
  { apply sizeGuard_Some in Hg as (cl & _ & _ & ->).
    simpl. intros [= _ <- _]. auto. }
  destruct (negb (ok r)) eqn:Hok.
  - unfold rejectResponse. destruct (resp_text r) as [t|x]; [|apply Hfail].
    destruct (classify env r t) as [e|x] eqn:Hc; [|apply Hfail].
    cbn [settle handleFailure]. intros [= ->].
    apply classify_mcp in Hc as [Ho _].
    unfold outcomeOf, statusTable in Ho. simpl in Ho.
    destruct (status r =? 401)%Z; [discriminate|]. injection Ho as ->.
    right; right; right. exists r. apply negb_true_iff in Hok. auto.
  - unfold decodeBody.
    destruct (includes _ (contentTypeOf r)), (resp_text r) as [t|x];
      try apply Hfail; try discriminate.
    simpl. destruct (_ || _); [discriminate|]. by destruct (JSON_parse t).
Qed.

(** X7. A failure to read the body of a response is handled as a failure
    of [fetch] with the same rejection, whatever the status of the
    response: a TypeError gives an ApiError of status 500 that carries its
    message ([Network error occurred] when it has none), and a rejection
    named AbortError is reported as a timeout of status 408 although the
    timer was cleared when the response arrived. *)
Theorem body_failure_is_network_failure (env : Env)
    (credentials : AtlassianCredentials) (path : jstring)
    (options : RequestOptions) (timers : Timers) (authHeader : jstring)
    (r : Response) (x : rejection) :
  authorization credentials = inr authHeader ->
  bodyThrows authHeader options = None ->
  fetch env (baseUrl ++ normalizedPath path) (buildRequest authHeader options)
    = Resolves r ->
  sizeGuard (MAX_RESPONSE_SIZE env) r = None ->
  resp_text r = BodyFails x ->
  fst (fetchAtlassian env credentials path options timers)
    = handleFailure (default (defaultTimeout env) (timeout options)) (RaisedOther x)
  /\ (forall e, x = RejectError e ->
        jstr_eqb (errName e) (lit "AbortError") = true ->
        exists m, fst (fetchAtlassian env credentials path options timers)
                  = Throws (ApiError m 408 (Some (CauseRejection x))))
  /\ (forall e, x = RejectError e ->
        jstr_eqb (errName e) (lit "AbortError") = false ->
        errClass e = TypeErrorClass ->
        fst (fetchAtlassian env credentials path options timers)
          = Throws (ApiError
                      (lit "Network error while calling Bitbucket API: "
                       ++ (if nonEmpty (errMessage e) then errMessage e
                           else lit "Network error occurred"))
                      500 (Some (CauseRejection x)))).
Proof.
  intros Hauth Hsent Hfetch Hguard Hbody.
  assert (Hcall : fst (fetchAtlassian env credentials path options timers)
            = handleFailure (default (defaultTimeout env) (timeout options))
                (RaisedOther x)).
  { rewrite (fetchAtlassian_resolves _ _ _ _ _ _ _ Hauth Hsent Hfetch).
    unfold handleResponse, rejectResponse, decodeBody. rewrite Hguard, Hbody.
    destruct (negb (ok r)); [reflexivity|].
    by destruct (includes _ (contentTypeOf r)). }
  split; [exact Hcall|]. split.
  - intros e -> Hname. rewrite Hcall. simpl. rewrite Hname. eauto.
  - intros e -> Hname Hclass. rewrite Hcall. simpl. by rewrite Hname, Hclass.
Qed.

(** ** The message of an error response *)

Lemma member_Some_object (k : string) (v w : json) :
  member k v = Some w -> exists members, v = JObj members.
Proof. destruct v; try discriminate. eauto. Qed.

Lemma startsWith_nonEmpty (c : N) (s : jstring) :
  startsWith [c] s = true -> nonEmpty s = true.
Proof. by destruct s. Qed.

(** X8. When the body of an error response does not begin with a brace
    or a bracket (a page of HTML, a plain sentence, a JSON document after a
    blank), or is not a JSON document, the message of the error is the prefix
    of the status followed by the status and its text, and its cause is the
    body as it was received. *)
Theorem unparsed_error_body (env : Env) (credentials : AtlassianCredentials)
    (path : jstring) (options : RequestOptions) (timers : Timers)
    (authHeader : jstring) (r : Response) (text : jstring) :
  authorization credentials = inr authHeader ->
  bodyThrows authHeader options = None ->
  fetch env (baseUrl ++ normalizedPath path) (buildRequest authHeader options)
    = Resolves r ->
  ok r = false ->
  sizeGuard (MAX_RESPONSE_SIZE env) r = None ->
  resp_text r = BodyText text ->
  startsWith (lit "{") text || startsWith (lit "[") text = false
  \/ JSON_parse text = None ->
  exists e,
    fst (fetchAtlassian env credentials path options timers) = Throws e
    /\ messageOf e =
         statusPrefix (status r) ++ decimalZ (status r) ++ lit " " ++ statusText r
    /\ causeOf e = Some (CauseText text).
Proof.
  intros Hauth Hsent Hfetch Hok Hguard Htext Hbody.
  rewrite (fetchAtlassian_resolves _ _ _ _ _ _ _ Hauth Hsent Hfetch).
  unfold handleResponse, rejectResponse. rewrite Hguard, Hok, Htext.
  cbn [negb settle].
  assert (Hd : describeError r text =
               (Some (JStr (decimalZ (status r) ++ lit " " ++ statusText r)), None)).
  { unfold describeError. destruct Hbody as [-> | ->].
    - by rewrite andb_false_r.
    - by destruct (_ && _). }
  pose proof (classify_cases env r text) as Hc. rewrite Hd in Hc.
  cbn [fst snd toStrOpt toStr] in Hc.
  destruct Hc as (e & -> & _ & Hm & Hcause). by exists e.
Qed.

(** X9. When the body of an error response is a JSON object whose [error]
    member has a truthy [message], the text of the error is the text of that
    message, followed by [ Detail: ] and the text of the detail when the
    object has type [error], the [error] member a truthy [detail], and both
    the detail and the message have a text; a detail or a message without a
    text (an object with a member named [toString]) leaves the message alone.
    The call throws the error of the status with the prefix of the status
    before that text and the [error] member as cause; when the message has no
    text, the TypeError of its conversion is caught by the outer handler and
    the call throws an ApiError of status 500 instead.  The members [errors]
    and [message] of the object play no part. *)
Theorem vendor_error_message (env : Env) (credentials : AtlassianCredentials)
    (path : jstring) (options : RequestOptions) (timers : Timers)
    (authHeader : jstring) (r : Response) (text : jstring)
    (parsedError error_ vendorMessage : json) :
  authorization credentials = inr authHeader ->
  bodyThrows authHeader options = None ->
  fetch env (baseUrl ++ normalizedPath path) (buildRequest authHeader options)
    = Resolves r ->
  ok r = false ->
  sizeGuard (MAX_RESPONSE_SIZE env) r = None ->
  resp_text r = BodyText text ->
  startsWith (lit "{") text = true ->
  JSON_parse text = Some parsedError ->
  member "error" parsedError = Some error_ ->
  member "message" error_ = Some vendorMessage ->
  truthy vendorMessage = true ->
  match
    (if isErrorTag (member "type" parsedError)
        && truthyOpt (member "detail" error_)
     then match toStrOpt (member "detail" error_), toStr vendorMessage with
          | Some detail, Some message =>
              Some (message ++ lit " Detail: " ++ detail)
          | _, _ => toStr vendorMessage
          end
     else toStr vendorMessage)
  with
  | Some message =>
      exists e,
        fst (fetchAtlassian env credentials path options timers) = Throws e
        /\ outcomeOf e = statusTable (status r)
        /\ messageOf e = statusPrefix (status r) ++ message
        /\ causeOf e = Some (CauseValue error_)
  | None =>
      fst (fetchAtlassian env credentials path options timers)
        = Throws (conversionFailure env)
  end.
Proof.
  intros Hauth Hsent Hfetch Hok Hguard Htext Hstart Hparse Herr Hmsg Htruthy.
  rewrite (fetchAtlassian_resolves _ _ _ _ _ _ _ Hauth Hsent Hfetch).
  unfold handleResponse, rejectResponse. rewrite Hguard, Hok, Htext.
  cbn [negb settle].
  destruct (member_Some_object _ _ _ Herr) as [members ->].
  destruct (member_Some_object _ _ _ Hmsg) as [fields ->].
  assert (Hd : describeError r text =
            (if isErrorTag (member "type" (JObj members))
                && truthyOpt (member "detail" (JObj fields))
             then match toStrOpt (member "detail" (JObj fields)),
                        toStr vendorMessage with
                  | Some detail, Some message =>
                      Some (JStr (message ++ lit " Detail: " ++ detail))
                  | _, _ => Some vendorMessage
                  end
             else Some vendorMessage,
             Some (JObj fields))).
  { unfold describeError.
    rewrite (startsWith_nonEmpty _ _ Hstart), Hstart, Hparse.
    cbn [andb orb]. unfold readVendorError.
    rewrite Herr. cbn [mbind option_bind truthyOpt truthy andb].
    rewrite Hmsg. cbn [truthyOpt toStrOpt]. rewrite Htruthy.
    destruct (isErrorTag (member "type" (JObj members))); cbn [andb];
      [|reflexivity].
    destruct (truthyOpt (member "detail" (JObj fields))); [|reflexivity].
    by destruct (toStrOpt (member "detail" (JObj fields))),
                (toStr vendorMessage). }
  pose proof (classify_cases env r text) as Hc. rewrite Hd in Hc.
  cbn [fst snd truthy] in Hc.
  destruct (isErrorTag _ && truthyOpt _);
    [destruct (toStrOpt (member "detail" (JObj fields)))|];
    destruct (toStr vendorMessage) as [message|] eqn:Hm;
    cbn [toStrOpt toStr] in Hc; rewrite ?Hm in Hc;
    first [ destruct Hc as (e & -> & Ho & Hmessage & Hcause); by exists e
          | by rewrite Hc ].
Qed.

(** X10. When the [error] member of the body gives no message and
    [errors] is an array that is not empty, only its first element is
    looked at: the text of its truthy [title] is the text of the error, and
    without a truthy title (also when the element is [null], whose reading
    throws inside the handler) the text falls back to the status and its
    text.  A title without a text (an object with a member named [toString])
    makes the call throw an ApiError of status 500, the TypeError of the
    conversion being caught by the outer handler.  A [message] member of the
    object is not used then. *)
Theorem vendor_errors_array (env : Env) (credentials : AtlassianCredentials)
    (path : jstring) (options : RequestOptions) (timers : Timers)
    (authHeader : jstring) (r : Response) (text : jstring)
    (parsedError first : json) (others : list json) :
  authorization credentials = inr authHeader ->
  bodyThrows authHeader options = None ->
  fetch env (baseUrl ++ normalizedPath path) (buildRequest authHeader options)
    = Resolves r ->
  ok r = false ->
  sizeGuard (MAX_RESPONSE_SIZE env) r = None ->
  resp_text r = BodyText text ->
  startsWith (lit "{") text = true ->
  JSON_parse text = Some parsedError ->
  truthyOpt (member "error" parsedError ≫= member "message") = false ->
  member "errors" parsedError = Some (JArr (first :: others)) ->
  match
    (if truthyOpt (member "title" first) then toStrOpt (member "title" first)
     else Some (decimalZ (status r) ++ lit " " ++ statusText r))
  with
  | Some message =>
      exists e,
        fst (fetchAtlassian env credentials path options timers) = Throws e
        /\ outcomeOf e = statusTable (status r)
        /\ messageOf e = statusPrefix (status r) ++ message
        /\ causeOf e =
             Some (if truthyOpt (member "title" first) then CauseValue first
                   else CauseText text)
  | None =>
      fst (fetchAtlassian env credentials path options timers)
        = Throws (conversionFailure env)
  end.
Proof.
  intros Hauth Hsent Hfetch Hok Hguard Htext Hstart Hparse Hnomsg Herrors.
  rewrite (fetchAtlassian_resolves _ _ _ _ _ _ _ Hauth Hsent Hfetch).
  unfold handleResponse, rejectResponse. rewrite Hguard, Hok, Htext.
  cbn [negb settle].
  destruct (member_Some_object _ _ _ Herrors) as [members ->].
  assert (Hd : describeError r text =
            if truthyOpt (member "title" first)
            then (member "title" first, Some first)
            else (Some (JStr (decimalZ (status r) ++ lit " " ++ statusText r)),
                  None)).
  { unfold describeError.
    rewrite (startsWith_nonEmpty _ _ Hstart), Hstart, Hparse.
    cbn [andb orb]. unfold readVendorError.
    rewrite Hnomsg, Herrors, !andb_false_r.
    destruct first; try reflexivity;
      by destruct (truthyOpt (member "title" _)). }
  pose proof (classify_cases env r text) as Hc. rewrite Hd in Hc.
  destruct (truthyOpt (member "title" first)) eqn:Ht; cbn [fst snd] in Hc.
  - assert (Hfirst : truthy first = true).
    { destruct first; try discriminate Ht; reflexivity. }
    rewrite Hfirst in Hc.
    destruct (toStrOpt (member "title" first)) as [message|].
    + destruct Hc as (e & -> & Ho & Hmessage & Hcause). by exists e.
    + by rewrite Hc.
  - cbn [toStrOpt toStr] in Hc.
    destruct Hc as (e & -> & Ho & Hmessage & Hcause). by exists e.
Qed.

(** ** Decimal numerals and the size guard *)

Lemma lit_String (a : ascii) (s : string) :
  lit (String a s) = N_of_ascii a :: lit s.
Proof. reflexivity. Qed.

Lemma digitsValue_acc (d : Decimal.uint) (acc : positive) :
  digitsValue (Z.pos acc) (lit (NilEmpty.string_of_uint d))
    = (Z.pos (Pos.of_uint_acc d acc), []).
Proof.
  revert acc. induction d as [|d IH|d IH|d IH|d IH|d IH|d IH|d IH|d IH|d IH|d IH];
    intros acc; cbn [NilEmpty.string_of_uint Pos.of_uint_acc];
    [reflexivity|..]; rewrite lit_String; cbn [digitsValue];
    match goal with
    | |- context [isDigit ?c] => change (isDigit c) with true; cbv iota
    end;
    rewrite <- IH; f_equal; vm_compute Z.of_N; lia.
Qed.

Lemma digitsValue_uint (d : Decimal.uint) :
  digitsValue 0 (lit (NilEmpty.string_of_uint d)) = (Z.of_N (Pos.of_uint d), []).
Proof.
  induction d as [|d IH|d IH|d IH|d IH|d IH|d IH|d IH|d IH|d IH|d IH];
    cbn [NilEmpty.string_of_uint Pos.of_uint]; [reflexivity|..];
    rewrite lit_String; cbn [digitsValue];
    match goal with
    | |- context [isDigit ?c] => change (isDigit c) with true; cbv iota
    end;
    [exact IH|..]; cbn [Z.of_N]; rewrite <- digitsValue_acc; f_equal.
Qed.

Lemma decimalN_value (n : N) : fst (digitsValue 0 (decimalN n)) = Z.of_N n.
Proof.
  unfold decimalN, NilZero.string_of_uint.
  rewrite <- (DecimalN.Unsigned.of_to n) at 2. unfold N.of_uint.
  destruct (N.to_uint n) eqn:Hd; try (by rewrite digitsValue_uint).
  reflexivity.
Qed.

Lemma decimalN_head (n : N) :
  exists c s, decimalN n = c :: s /\ isDigit c = true.
Proof.
  unfold decimalN, NilZero.string_of_uint.
  destruct (N.to_uint n); cbn [NilEmpty.string_of_uint]; rewrite ?lit_String;
    eexists _, _; (split; [reflexivity|reflexivity]).
Qed.

Lemma isDigit_cases (c : N) :
  isDigit c = true ->
  c = 48 \/ c = 49 \/ c = 50 \/ c = 51 \/ c = 52 \/ c = 53 \/ c = 54
  \/ c = 55 \/ c = 56 \/ c = 57.
Proof.
  unfold isDigit. intros [H1 H2]%andb_true_iff.
  apply N.leb_le in H1, H2. lia.
Qed.

Lemma parseInt10_digits (c : N) (s : jstring) :
  isDigit c = true ->
  parseInt10 (c :: s) = ofZ (fst (digitsValue 0 (c :: s)))
  /\ parseInt10 (45 :: c :: s) =
       if (fst (digitsValue 0 (c :: s)) =? 0)%Z then NegativeZero
       else ofZ (- fst (digitsValue 0 (c :: s))).
Proof.
  intros Hc. unfold parseInt10.
  destruct (isDigit_cases c Hc) as [->|[->|[->|[->|[->|[->|[->|[->|[->| ->]]]]]]]]];
    split; reflexivity.
Qed.

Lemma parseInt10_decimalZ (size : Z) : parseInt10 (decimalZ size) = ofZ size.
Proof.
  unfold decimalZ. destruct size as [|q|q].
  - reflexivity.
  - destruct (decimalN_head (Z.to_N (Z.pos q))) as (c & s & Hs & Hc).
    pose proof (decimalN_value (Z.to_N (Z.pos q))) as Hv.
    rewrite Hs in *. rewrite (proj1 (parseInt10_digits c s Hc)), Hv.
    reflexivity.
  - destruct (decimalN_head (N.pos q)) as (c & s & Hs & Hc).
    pose proof (decimalN_value (N.pos q)) as Hv.
    rewrite Hs in *. change (lit "-" ++ c :: s) with (45 :: c :: s).
    rewrite (proj2 (parseInt10_digits c s Hc)), Hv. reflexivity.
Qed.

Lemma decimalZ_nonEmpty (z : Z) : nonEmpty (decimalZ z) = true.
Proof.
  unfold decimalZ. destruct z as [|q|q]; [reflexivity| |reflexivity].
  by destruct (decimalN_head (Z.to_N (Z.pos q))) as (c & s & -> & _).
Qed.

Lemma gt_ofZ (x y : Z) :
  (Z.abs x <= 2 ^ 53)%Z -> (Z.abs y <= 2 ^ 53)%Z ->
  gt (ofZ x) (ofZ y) = (y <? x)%Z.
Proof.
  intros Hx Hy. unfold ofZ.
  apply Z.leb_le in Hx, Hy. rewrite Hx, Hy. unfold gt.
  by rewrite Z.pow_0_r, !Z.mul_1_r.
Qed.

(** X11. The decimal numeral of an integer is read by [parseInt] as the
    Number nearest to that integer, which is the integer itself when its
    magnitude is at most 2^53.  On a Content-Length that is a decimal
    numeral, the size guard compares these Numbers: the response is rejected
    with the error of status 413 when the Number of the declared length is
    greater than the limit, and passes the guard otherwise.  The guard is
    exact when the declared length and the limit have magnitudes of at most
    2^53: the response is rejected when the declared length is above the
    limit and passes when it is at most the limit. *)
Theorem size_guard_exact (limit size : Z) (r : Response) :
  resp_headers r !! lit "content-length" = Some (decimalZ size) ->
  parseInt10 (decimalZ size) = ofZ size
  /\ sizeGuard (ofZ limit) r =
       (if gt (ofZ size) (ofZ limit)
        then Some (sizeError (ofZ size) (ofZ limit)) else None)
  /\ ((Z.abs size <= 2 ^ 53)%Z -> (Z.abs limit <= 2 ^ 53)%Z ->
      ofZ size = Dyadic size 0
      /\ sizeGuard (ofZ limit) r =
           if (limit <? size)%Z
           then Some (sizeError (ofZ size) (ofZ limit)) else None).
Proof.
  intros Hcl.
  assert (Hguard : sizeGuard (ofZ limit) r =
            if gt (ofZ size) (ofZ limit)
            then Some (sizeError (ofZ size) (ofZ limit)) else None).
  { unfold sizeGuard.
    by rewrite Hcl, decimalZ_nonEmpty, parseInt10_decimalZ. }
  split; [apply parseInt10_decimalZ|]. split; [exact Hguard|].
  intros Hsize Hlimit. split.
  - unfold ofZ. apply Z.leb_le in Hsize. by rewrite Hsize.
  - by rewrite Hguard, gt_ofZ.
Qed.

(** ** [JSON.stringify] followed by [JSON.parse] *)

Lemma lex_step (m m' : lexMode) (c : N) (ts : list token) (s : jstring) :
  lexStep m c = Some (m', ts) ->
  lex m (c :: s) = option_map (app ts) (lex m' s).
Proof. intros Hs. simpl. rewrite Hs. by destruct (lex m' s). Qed.

Lemma lex_skip (m m' : lexMode) (c : N) (s : jstring) :
  lexStep m c = Some (m', []) -> lex m (c :: s) = lex m' s.
Proof. intros Hs. rewrite (lex_step _ _ _ _ _ Hs). by destruct (lex m' s). Qed.

Lemma hexValue_hexDigit (d : N) : d < 16 -> hexValue (hexDigit d) = Some d.
Proof.
  intros Hd.
  assert (Hc : d = 0 \/ d = 1 \/ d = 2 \/ d = 3 \/ d = 4 \/ d = 5 \/ d = 6 \/ d = 7
               \/ d = 8 \/ d = 9 \/ d = 10 \/ d = 11 \/ d = 12 \/ d = 13 \/ d = 14
               \/ d = 15) by lia.
  repeat (destruct Hc as [->|Hc]; [reflexivity|]). by subst.
Qed.

Lemma hex_digits (c : N) :
  c < 65536 ->
  16 * (16 * (16 * (16 * 0 + c / 4096 mod 16) + c / 256 mod 16) + c / 16 mod 16)
    + c mod 16 = c.
Proof. intros Hc. zify. Z.to_euclidean_division_equations. lia. Qed.

Lemma lex_unicodeEscape (c : N) (acc rest : jstring) :
  c < 65536 ->
  lex (LStr acc) (unicodeEscape c ++ rest) = lex (LStr (c :: acc)) rest.
Proof.
  intros Hc. unfold unicodeEscape. cbn [app].
  rewrite (lex_skip (LStr acc) (LEsc acc)) by reflexivity.
  rewrite (lex_skip (LEsc acc) (LHex acc 0 0)) by reflexivity.
  assert (Hd : forall k, (k mod 16) < 16) by (intros k; apply N.mod_lt; lia).
  rewrite (lex_skip (LHex acc 0 0) (LHex acc 1 (16 * 0 + c / 4096 mod 16)))
    by (cbn [lexStep]; by rewrite hexValue_hexDigit).
  rewrite (lex_skip (LHex acc 1 _) (LHex acc 2 (16 * (16 * 0 + c / 4096 mod 16) + c / 256 mod 16)))
    by (cbn [lexStep]; by rewrite hexValue_hexDigit).
  rewrite (lex_skip (LHex acc 2 _) (LHex acc 3 (16 * (16 * (16 * 0 + c / 4096 mod 16) + c / 256 mod 16) + c / 16 mod 16)))
    by (cbn [lexStep]; by rewrite hexValue_hexDigit).
  rewrite (lex_skip (LHex acc 3 _) (LStr (c :: acc))); [reflexivity|].
  cbn [lexStep]. rewrite hexValue_hexDigit by apply Hd.
  cbn [Nat.eqb]. by rewrite hex_digits.
Qed.


Lemma lex_quoteUnit (c : N) (acc rest : jstring) :
  lex (LStr acc) (quoteUnit c ++ rest) = lex (LStr (c :: acc)) rest.
Proof.
  unfold quoteUnit.
  repeat match goal with
         | |- context [if N.eqb c ?k then _ else _] =>
             destruct (N.eqb_spec c k) as [->|?];
             [cbn [app];
              rewrite (lex_skip (LStr acc) (LEsc acc)) by reflexivity;
              by rewrite (lex_skip (LEsc acc) (LStr (_ :: acc))) by reflexivity|]
         end.
  destruct (N.ltb_spec c 32) as [Hc|Hc].
  - apply lex_unicodeEscape. lia.
  - cbn [app]. apply lex_skip. cbn [lexStep].
    destruct (N.eqb_spec c 34); [done|]. destruct (N.eqb_spec c 92); [done|].
    by destruct (N.ltb_spec c 32); [lia|].
Qed.

Lemma surrogate_unit (c : N) :
  isHighSurrogate c || isLowSurrogate c = true -> c < 65536.
Proof.
  unfold isHighSurrogate, isLowSurrogate.
  intros [[_ Hc]%andb_true_iff|[_ Hc]%andb_true_iff]%orb_true_iff;
    apply N.leb_le in Hc; lia.
Qed.

Lemma surrogate_raw (c : N) (acc : jstring) :
  isHighSurrogate c || isLowSurrogate c = true ->
  lexStep (LStr acc) c = Some (LStr (c :: acc), []).
Proof.
  unfold isHighSurrogate, isLowSurrogate. intros Hc. cbn [lexStep].
  assert (55296 <= c).
  { apply orb_true_iff in Hc as [[Hc _]%andb_true_iff|[Hc _]%andb_true_iff];
      apply N.leb_le in Hc; lia. }
  destruct (N.eqb_spec c 34); [lia|]. destruct (N.eqb_spec c 92); [lia|].
  by destruct (N.ltb_spec c 32); [lia|].
Qed.

Lemma lex_quoteUnits (n : nat) (s acc rest : jstring) :
  (length s <= n)%nat ->
  lex (LStr acc) (quoteUnits s ++ 34 :: rest)
    = option_map (cons (TString (rev acc ++ s))) (lex LIdle rest).
Proof.
  revert s acc. induction n as [|n IH]; intros s acc Hn.
  - destruct s; [|simpl in Hn; lia]. cbn [quoteUnits app].
    rewrite (lex_step (LStr acc) LIdle 34 [TString (rev acc)]) by reflexivity.
    by rewrite app_nil_r.
  - destruct s as [|c s].
    { cbn [quoteUnits app].
      rewrite (lex_step (LStr acc) LIdle 34 [TString (rev acc)]) by reflexivity.
      by rewrite app_nil_r. }
    simpl in Hn.
    assert (Hnext : forall acc',
              lex (LStr (c :: acc')) (quoteUnits s ++ 34 :: rest)
                = option_map (cons (TString (rev acc' ++ c :: s))) (lex LIdle rest)).
    { intros acc'. rewrite IH by lia. cbn [rev]. by rewrite <- app_assoc. }
    cbn [quoteUnits].
    destruct (isHighSurrogate c) eqn:Hh.
    + destruct s as [|d s].
      * rewrite lex_unicodeEscape by (apply surrogate_unit; by rewrite Hh).
        apply (Hnext acc).
      * destruct (isLowSurrogate d) eqn:Hl.
        -- cbn [app].
           rewrite (lex_skip (LStr acc) (LStr (c :: acc)))
             by (apply surrogate_raw; by rewrite Hh).
           rewrite (lex_skip (LStr (c :: acc)) (LStr (d :: c :: acc)))
             by (apply surrogate_raw; by rewrite Hl, orb_true_r).
           rewrite IH by (simpl in Hn; lia). cbn [rev].
           by rewrite <- !app_assoc.
        -- rewrite <- app_assoc.
           rewrite lex_unicodeEscape by (apply surrogate_unit; by rewrite Hh).
           apply (Hnext acc).
    + destruct (isLowSurrogate c) eqn:Hl.
      * rewrite <- app_assoc.
        rewrite lex_unicodeEscape by (apply surrogate_unit; by rewrite Hl, orb_true_r).
        apply (Hnext acc).
      * rewrite <- app_assoc, lex_quoteUnit. apply (Hnext acc).
Qed.

Lemma lex_quoteJSON (s rest : jstring) :
  lex LIdle (quoteJSON s ++ rest)
    = option_map (cons (TString s)) (lex LIdle rest).
Proof.
  unfold quoteJSON. cbn [app]. rewrite (lex_skip LIdle (LStr [])) by reflexivity.
  rewrite <- app_assoc. cbn [app].
  by rewrite (lex_quoteUnits (length s)).
Qed.



Lemma lex_word (w acc rest : jstring) :
  forallb isLower w = true -> delimited rest = true ->
  lex (LWord acc) (w ++ rest)
    = option_map (cons (TWord (rev acc ++ w))) (lex LIdle rest).
Proof.
  revert acc. induction w as [|c w IH]; intros acc Hw Hrest.
  - rewrite app_nil_r. cbn [app]. destruct rest as [|c rest]; [reflexivity|].
    apply andb_true_iff in Hrest as [Hl%negb_true_iff _].
    cbn [lex lexStep]. rewrite Hl. unfold emitThen.
    destruct (lexIdle c) as [[m ts]|]; [|reflexivity].
    by destruct (lex m rest).
  - apply andb_true_iff in Hw as [Hc Hw]. cbn [app].
    rewrite (lex_skip (LWord acc) (LWord (c :: acc)))
      by (cbn [lexStep]; by rewrite Hc).
    rewrite IH by done. cbn [rev]. by rewrite <- app_assoc.
Qed.

Lemma lex_number (l acc rest : jstring) :
  forallb isNumberChar l = true -> delimited rest = true ->
  lex (LNum acc) (l ++ rest)
    = option_map (cons (TNumber (rev acc ++ l))) (lex LIdle rest).
Proof.
  revert acc. induction l as [|c l IH]; intros acc Hl Hrest.
  - rewrite app_nil_r. cbn [app]. destruct rest as [|c rest]; [reflexivity|].
    apply andb_true_iff in Hrest as [_ Hn%negb_true_iff].
    cbn [lex lexStep]. rewrite Hn. unfold emitThen.
    destruct (lexIdle c) as [[m ts]|]; [|reflexivity].
    by destruct (lex m rest).
  - apply andb_true_iff in Hl as [Hc Hl]. cbn [app].
    rewrite (lex_skip (LNum acc) (LNum (c :: acc)))
      by (cbn [lexStep]; by rewrite Hc).
    rewrite IH by done. cbn [rev]. by rewrite <- app_assoc.
Qed.

(** The shape of a number literal *)

Lemma isDigit_isNumberChar (c : N) : isDigit c = true -> isNumberChar c = true.
Proof. unfold isNumberChar. by intros ->. Qed.

Lemma skipDigits_split (s : jstring) :
  exists ds, s = ds ++ skipDigits s /\ forallb isNumberChar ds = true.
Proof.
  induction s as [|c s (ds & Hs & Hd)]; [by exists []|]. cbn [skipDigits].
  destruct (isDigit c) eqn:Hc; [|by exists []].
  exists (c :: ds). split; [cbn [app]; congruence|].
  cbn [forallb]. by rewrite (isDigit_isNumberChar _ Hc).
Qed.

Lemma digits1_split (s s' : jstring) :
  digits1 s = Some s' ->
  exists ds, s = ds ++ s' /\ forallb isNumberChar ds = true.
Proof.
  destruct s as [|c s]; [discriminate|]. cbn [digits1].
  destruct (isDigit c) eqn:Hc; [|discriminate]. intros [= <-].
  destruct (skipDigits_split s) as (ds & Hs & Hd).
  exists (c :: ds). split; [cbn [app]; congruence|].
  cbn [forallb]. by rewrite (isDigit_isNumberChar _ Hc).
Qed.

Lemma numberInt_split (s s' : jstring) :
  numberInt s = Some s' ->
  exists c ds, s = c :: ds ++ s' /\ isDigit c = true
               /\ forallb isNumberChar ds = true.
Proof.
  destruct s as [|c s]; [discriminate|]. cbn [numberInt].
  destruct (N.eqb_spec c 48) as [->|_].
  - intros [= <-]. by exists 48, [].
  - destruct (isDigit c) eqn:Hc; [|discriminate]. intros [= <-].
    destruct (skipDigits_split s) as (ds & Hs & Hd).
    exists c, ds. split; [congruence|done].
Qed.

Lemma numberFrac_split (s s' : jstring) :
  numberFrac s = Some s' ->
  exists ds, s = ds ++ s' /\ forallb isNumberChar ds = true.
Proof.
  destruct s as [|c s]; [intros [= <-]; by exists []|].
  destruct (N.eqb_spec c 46) as [->|Hne].
  - cbn [numberFrac]. intros (ds & Hs & Hd)%digits1_split.
    exists (46 :: ds). split; [cbn [app]; congruence|done].
  - assert (Hf : numberFrac (c :: s) = Some (c :: s)).
    { unfold numberFrac. destruct c as [|q]; [reflexivity|].
      repeat (destruct q as [q|q|]; try reflexivity); by destruct Hne. }
    rewrite Hf. intros [= <-]. by exists [].
Qed.

Lemma numberExp_split (s s' : jstring) :
  numberExp s = Some s' ->
  exists ds, s = ds ++ s' /\ forallb isNumberChar ds = true.
Proof.
  destruct s as [|c s]; [intros [= <-]; by exists []|]. cbn [numberExp].
  destruct (N.eqb c 101 || N.eqb c 69) eqn:He; [|intros [= <-]; by exists []].
  assert (Hc : isNumberChar c = true).
  { unfold isNumberChar. apply orb_true_iff in He as [-> | ->];
      by rewrite ?orb_true_r. }
  destruct s as [|d s]; [discriminate|].
  destruct (N.eqb d 43 || N.eqb d 45) eqn:Hs.
  - intros (ds & Hds & Hd)%digits1_split.
    exists (c :: d :: ds). split; [cbn [app]; congruence|].
    cbn [forallb]. rewrite Hc, Hd.
    unfold isNumberChar. apply orb_true_iff in Hs as [-> | ->];
      by rewrite ?orb_true_r.
  - intros (ds & Hds & Hd)%digits1_split.
    exists (c :: ds). split; [cbn [app]; congruence|].
    cbn [forallb]. by rewrite Hc.
Qed.

Lemma validNumber_shape (l : jstring) :
  validNumber l = true ->
  exists c l', l = c :: l' /\ isDigit c || N.eqb c 45 = true
               /\ forallb isNumberChar l' = true.
Proof.
  unfold validNumber.
  assert (Hbody : forall s,
            match numberInt s with
            | Some s2 =>
                match numberFrac s2 with
                | Some s3 => match numberExp s3 with Some [] => true | _ => false end
                | None => false
                end
            | None => false
            end = true ->
            exists c l', s = c :: l' /\ isDigit c = true
                         /\ forallb isNumberChar l' = true).
  { intros s.
    destruct (numberInt s) as [s2|] eqn:Hi; [|discriminate].
    destruct (numberFrac s2) as [s3|] eqn:Hf; [|discriminate].
    destruct (numberExp s3) as [[|]|] eqn:He; try discriminate. intros _.
    apply numberInt_split in Hi as (c & d1 & -> & Hc & H1).
    apply numberFrac_split in Hf as (d2 & -> & H2).
    apply numberExp_split in He as (d3 & -> & H3).
    exists c, (d1 ++ (d2 ++ d3 ++ [])). split; [reflexivity|]. split; [done|].
    by rewrite !forallb_app, H1, H2, H3. }
  destruct l as [|c l]; [discriminate|].
  destruct (N.eqb_spec c 45) as [->|Hne].
  - intros (d & l' & -> & Hd & Hl')%Hbody.
    exists 45, (d :: l'). split; [reflexivity|]. split; [reflexivity|].
    cbn [forallb]. by rewrite (isDigit_isNumberChar _ Hd).
  - assert (Hs : match c :: l with 45 :: s' => s' | _ => c :: l end = c :: l).
    { destruct c as [|q]; [reflexivity|].
      repeat (destruct q as [q|q|]; try reflexivity); by destruct Hne. }
    rewrite Hs. intros (d & l' & [= <- <-] & Hd & Hl')%Hbody.
    exists c, l. by rewrite Hd.
Qed.

Lemma lexIdle_number (c : N) :
  isDigit c || N.eqb c 45 = true -> lexIdle c = Some (LNum [c], []).
Proof.
  intros [Hc|Hc%N.eqb_eq]%orb_true_iff; [|by subst].
  destruct (isDigit_cases c Hc) as [->|[->|[->|[->|[->|[->|[->|[->|[->| ->]]]]]]]]];
    reflexivity.
Qed.

Lemma lex_literal (l rest : jstring) :
  validNumber l = true -> delimited rest = true ->
  lex LIdle (l ++ rest) = option_map (cons (TNumber l)) (lex LIdle rest).
Proof.
  intros (c & l' & -> & Hc & Hl')%validNumber_shape Hrest. cbn [app].
  rewrite (lex_skip LIdle (LNum [c])) by (by apply lexIdle_number).
  by rewrite lex_number.
Qed.




Lemma joinWith_commaSeparated (sep : jstring) (parts : list jstring) :
  joinWith sep parts = commaSeparated sep parts.
Proof.
  destruct parts as [|x rest]; [reflexivity|]. cbn [commaSeparated].
  revert x. induction rest as [|y rest IH]; intros x.
  - cbn. by rewrite app_nil_r.
  - change (joinWith sep (x :: y :: rest))
      with (x ++ sep ++ joinWith sep (y :: rest)).
    rewrite IH. cbn [map concat]. by rewrite <- app_assoc.
Qed.

Lemma printable_items (items : list json) :
  printable (JArr items) <-> Forall printable items.
Proof.
  cbn [printable]. induction items as [|x items IH].
  - split; constructor.
  - rewrite IH. split; [intros [? ?]; by constructor|by inversion 1].
Qed.

Lemma printable_members (members : list (jstring * json)) :
  printable (JObj members) <-> Forall (fun m => printable (snd m)) members.
Proof.
  cbn [printable]. induction members as [|m members IH].
  - split; constructor.
  - rewrite IH. split; [intros [? ?]; by constructor|by inversion 1].
Qed.

Lemma lex_comma (s : jstring) :
  lex LIdle (lit "," ++ s) = option_map (cons TComma) (lex LIdle s).
Proof. by apply (lex_step LIdle LIdle 44 [TComma]). Qed.

Lemma lex_colon (s : jstring) :
  lex LIdle (lit ":" ++ s) = option_map (cons TColon) (lex LIdle s).
Proof. by apply (lex_step LIdle LIdle 58 [TColon]). Qed.

Lemma lex_open_bracket (s : jstring) :
  lex LIdle (lit "[" ++ s) = option_map (cons TLBracket) (lex LIdle s).
Proof. by apply (lex_step LIdle LIdle 91 [TLBracket]). Qed.

Lemma lex_close_bracket (s : jstring) :
  lex LIdle (lit "]" ++ s) = option_map (cons TRBracket) (lex LIdle s).
Proof. by apply (lex_step LIdle LIdle 93 [TRBracket]). Qed.

Lemma lex_open_brace (s : jstring) :
  lex LIdle (lit "{" ++ s) = option_map (cons TLBrace) (lex LIdle s).
Proof. by apply (lex_step LIdle LIdle 123 [TLBrace]). Qed.

Lemma lex_close_brace (s : jstring) :
  lex LIdle (lit "}" ++ s) = option_map (cons TRBrace) (lex LIdle s).
Proof. by apply (lex_step LIdle LIdle 125 [TRBrace]). Qed.

Lemma delimited_comma_or (tail : list jstring) (close rest : jstring) :
  delimited (close ++ rest) = true ->
  delimited (concat (map (fun y => lit "," ++ y) tail) ++ close ++ rest) = true.
Proof. by destruct tail. Qed.

Lemma lex_elements (items : list json) (rest : jstring) :
  Forall lexesTo items ->
  lex LIdle (concat (map (fun y => lit "," ++ y) (map JSON_stringify items))
             ++ lit "]" ++ rest)
    = option_map
        (app (concat (map (fun y => [TComma] ++ y) (map tokensOf items))
              ++ [TRBracket]))
        (lex LIdle rest).
Proof.
  induction 1 as [|x items Hx _ IH]; cbn [map concat].
  - rewrite app_nil_l, lex_close_bracket. reflexivity.
  - rewrite <- !app_assoc, lex_comma.
    rewrite Hx by (by apply delimited_comma_or).
    rewrite IH. destruct (lex LIdle rest); [|reflexivity]. cbn [option_map].
    f_equal. by rewrite <- !app_assoc.
Qed.

Lemma lex_members (members : list (jstring * json)) (rest : jstring) :
  Forall (fun m => lexesTo (snd m)) members ->
  lex LIdle
    (concat (map (fun y => lit "," ++ y)
               (map (fun m => quoteJSON (fst m) ++ lit ":" ++ JSON_stringify (snd m))
                  members))
     ++ lit "}" ++ rest)
    = option_map
        (app (concat (map (fun y => [TComma] ++ y)
                        (map (fun m => TString (fst m) :: TColon :: tokensOf (snd m))
                           members))
              ++ [TRBrace]))
        (lex LIdle rest).
Proof.
  induction 1 as [|[k x] members Hx _ IH]; cbn [map concat fst snd].
  - rewrite app_nil_l, lex_close_brace. reflexivity.
  - rewrite <- !app_assoc, lex_comma, lex_quoteJSON, lex_colon.
    cbn [fst snd] in Hx. rewrite Hx by (by apply delimited_comma_or).
    rewrite IH. destruct (lex LIdle rest); [|reflexivity]. cbn [option_map].
    f_equal. cbn [app]. by rewrite <- !app_assoc.
Qed.

Lemma lex_value (v : json) : printable v -> lexesTo v.
Proof.
  induction v as [|b|n|s|items IH|members IH] using json_nested_ind;
    intros Hp rest Hrest.
  - etrans; [apply (lex_skip LIdle (LWord [110]) 110 ([117; 108; 108] ++ rest));
             reflexivity|].
    exact (lex_word [117; 108; 108] [110] rest eq_refl Hrest).
  - destruct b.
    + etrans; [apply (lex_skip LIdle (LWord [116]) 116 ([114; 117; 101] ++ rest));
               reflexivity|].
      exact (lex_word [114; 117; 101] [116] rest eq_refl Hrest).
    + etrans; [apply (lex_skip LIdle (LWord [102]) 102
                        ([97; 108; 115; 101] ++ rest)); reflexivity|].
      exact (lex_word [97; 108; 115; 101] [102] rest eq_refl Hrest).
  - destruct Hp as [Hvalid _]. cbn [JSON_stringify tokensOf].
    by rewrite lex_literal.
  - cbn [JSON_stringify tokensOf]. by rewrite lex_quoteJSON.
  - apply printable_items in Hp.
    assert (Hl : Forall lexesTo items).
    { clear Hrest. induction IH as [|x items Hx _ IHl]; [constructor|].
      inversion Hp; subst. constructor; auto. }
    cbn [JSON_stringify tokensOf]. rewrite joinWith_commaSeparated.
    rewrite <- !app_assoc, lex_open_bracket.
    destruct Hl as [|x items Hx Hl]; cbn [map commaSeparated].
    + rewrite app_nil_l, lex_close_bracket.
      by destruct (lex LIdle rest).
    + rewrite <- !app_assoc. rewrite Hx by (by apply delimited_comma_or).
      rewrite lex_elements by done.
      destruct (lex LIdle rest); [|reflexivity]. cbn [option_map].
      f_equal. cbn [app]. by rewrite <- !app_assoc.
  - apply printable_members in Hp.
    assert (Hl : Forall (fun m => lexesTo (snd m)) members).
    { clear Hrest. induction IH as [|x members Hx _ IHl]; [constructor|].
      inversion Hp; subst. constructor; auto. }
    cbn [JSON_stringify tokensOf]. rewrite joinWith_commaSeparated.
    rewrite <- !app_assoc, lex_open_brace.
    destruct Hl as [|[k x] members Hx Hl]; cbn [map commaSeparated fst snd].
    + rewrite app_nil_l, lex_close_brace.
      by destruct (lex LIdle rest).
    + rewrite <- !app_assoc, lex_quoteJSON, lex_colon.
      cbn [fst snd] in Hx. rewrite Hx by (by apply delimited_comma_or).
      rewrite lex_members by done.
      destruct (lex LIdle rest); [|reflexivity]. cbn [option_map].
      f_equal. cbn [app]. by rewrite <- !app_assoc.
Qed.



Lemma parse_scalar (t : token) (v : json) (p : phase) (stack : list frame)
    (rest : list token) :
  p = PValue \/ p = PArrFirst ->
  scalarOf t = Some v ->
  parseTokens p stack (t :: rest) = continueWith (pushValue v stack) rest.
Proof.
  intros Hp Hv. cbn [parseTokens].
  assert (Hs : parseStep p stack t = pushValue v stack).
  { destruct Hp as [-> | ->]; destruct t; try discriminate Hv;
      cbn [parseStep startValue]; by rewrite Hv. }
  rewrite Hs. unfold continueWith. by destruct (pushValue v stack) as [[? ?]|].
Qed.

Lemma parse_elements (items : list json) (stack : list frame) (rest : list token) :
  Forall parsesTo items ->
  forall acc,
    parseTokens PAfter (FArr acc :: stack)
      (concat (map (fun y => [TComma] ++ y) (map tokensOf items))
       ++ [TRBracket] ++ rest)
    = continueWith (pushValue (JArr (rev acc ++ items)) stack) rest.
Proof.
  induction 1 as [|x items Hx _ IH]; intros acc; cbn [map concat].
  - rewrite app_nil_r. cbn [app parseTokens parseStep]. unfold continueWith.
    by destruct (pushValue (JArr (rev acc)) stack) as [[? ?]|].
  - rewrite <- !app_assoc. cbn [app parseTokens parseStep].
    rewrite Hx by auto. cbn [pushValue continueWith].
    rewrite IH. cbn [rev]. by rewrite <- app_assoc.
Qed.

Lemma parse_members (members : list (jstring * json)) (stack : list frame)
    (rest : list token) :
  Forall (fun m => parsesTo (snd m)) members ->
  forall acc,
    parseTokens PAfter (FObj acc None :: stack)
      (concat (map (fun y => [TComma] ++ y)
                 (map (fun m => TString (fst m) :: TColon :: tokensOf (snd m))
                    members))
       ++ [TRBrace] ++ rest)
    = continueWith (pushValue (JObj (rev acc ++ members)) stack) rest.
Proof.
  induction 1 as [|[k x] members Hx _ IH]; intros acc; cbn [map concat fst snd].
  - rewrite app_nil_r. cbn [app parseTokens parseStep]. unfold continueWith.
    by destruct (pushValue (JObj (rev acc)) stack) as [[? ?]|].
  - rewrite <- !app_assoc. cbn [app parseTokens parseStep memberName].
    cbn [fst snd] in Hx. rewrite Hx by auto. cbn [pushValue continueWith].
    rewrite IH. cbn [rev]. by rewrite <- app_assoc.
Qed.

Lemma parse_value (v : json) : printable v -> parsesTo v.
Proof.
  induction v as [|b|n|s|items IH|members IH] using json_nested_ind;
    intros Hp p stack rest Hphase.
  - by apply parse_scalar.
  - destruct b; by apply parse_scalar.
  - destruct Hp as [Hvalid Hback]. apply parse_scalar; [done|].
    cbn [scalarOf]. by rewrite Hvalid, Hback.
  - by apply parse_scalar.
  - apply printable_items in Hp.
    assert (Hl : Forall parsesTo items).
    { induction IH as [|x items Hx _ IHl]; [constructor|].
      inversion Hp; subst. constructor; auto. }
    cbn [tokensOf].
    assert (Hopen : parseStep p stack TLBracket = Some (PArrFirst, FArr [] :: stack)).
    { by destruct Hphase as [-> | ->]. }
    cbn [app parseTokens]. rewrite Hopen.
    destruct Hl as [|x items Hx Hl]; cbn [map commaSeparated].
    + cbn [app parseTokens parseStep]. unfold continueWith.
      by destruct (pushValue (JArr []) stack) as [[? ?]|].
    + rewrite <- !app_assoc. rewrite Hx by auto. cbn [pushValue continueWith].
      exact (parse_elements items stack rest Hl [x]).
  - apply printable_members in Hp.
    assert (Hl : Forall (fun m => parsesTo (snd m)) members).
    { induction IH as [|x members Hx _ IHl]; [constructor|].
      inversion Hp; subst. constructor; auto. }
    cbn [tokensOf].
    assert (Hopen : parseStep p stack TLBrace
                    = Some (PObjFirst, FObj [] None :: stack)).
    { by destruct Hphase as [-> | ->]. }
    cbn [app parseTokens]. rewrite Hopen.
    destruct Hl as [|[k x] members Hx Hl]; cbn [map commaSeparated fst snd].
    + cbn [app parseTokens parseStep]. unfold continueWith.
      by destruct (pushValue (JObj []) stack) as [[? ?]|].
    + rewrite <- !app_assoc. cbn [app parseTokens parseStep memberName].
      cbn [fst snd] in Hx. rewrite Hx by auto. cbn [pushValue continueWith].
      exact (parse_members members stack rest Hl [(k, x)]).
Qed.

Lemma JSON_round_trip (v : json) :
  printable v -> JSON_parse (JSON_stringify v) = Some v.
Proof.
  intros Hp. unfold JSON_parse.
  pose proof (lex_value v Hp [] eq_refl) as Hlex.
  rewrite app_nil_r in Hlex. rewrite Hlex. cbn [lex option_map].
  pose proof (parse_value v Hp PValue [] [] (or_introl eq_refl)) as Hparse.
  rewrite app_nil_r in Hparse. rewrite app_nil_r. by rewrite Hparse.
Qed.

(** X12. A structured body sent with the default headers goes to the wire
    as a JSON text that [JSON.parse] reads back as the body itself, members
    in the same order, whatever the strings hold (quotation marks, control
    characters, surrogates on their own), provided its numbers are finite. *)
Theorem body_round_trip (authHeader : jstring) (options : RequestOptions)
    (b : json) :
  body options = Some (Data b) ->
  truthy b = true ->
  (forall s, b <> JStr s) ->
  default ∅ (headers options) !! lit "Content-Type" = None ->
  printable b ->
  init_body (buildRequest authHeader options) = Some (WireText (JSON_stringify b))
  /\ JSON_parse (JSON_stringify b) = Some b.
Proof.
  intros Hb Ht Hs Hct Hp. split; [|by apply JSON_round_trip].
  assert (Hv : forall s, Data b <> Data (JStr s)).
  { intros s' [= ->]. by apply (Hs s'). }
  unfold buildRequest. cbn [init_body].
  rewrite (encodeBody_value _ _ (Data b) (lit "application/json") Hb Ht Hv);
    [reflexivity|].
  rewrite buildHeaders_lookup, Hct.
  rewrite lookup_insert_ne by (by vm_compute).
  by rewrite lookup_insert_eq.
Qed.

End FurtherProperties.


(** * Properties of the repositories service *)

Section ServiceProperties.

Context `{JsNumbers}.

Lemma normalizedPath_api (rest : jstring) :
  normalizedPath (API_PATH ++ rest) = API_PATH ++ rest.
Proof. reflexivity. Qed.

Lemma bodyThrows_noOptions (authHeader : jstring) :
  bodyThrows authHeader noOptions = None.
Proof. reflexivity. Qed.

Lemma bodyThrows_fileOptions (authHeader boundary text : jstring) :
  bodyThrows authHeader (fileOptions boundary text) = None.
Proof. by apply bodyThrows_data. Qed.

Lemma bodyThrows_createBranchOptions (authHeader : jstring)
    (params : CreateBranchParams.t) :
  bodyThrows authHeader (createBranchOptions params) = None.
Proof. by apply bodyThrows_data. Qed.

(** A call of [fetchAtlassian] by the service, with credentials that the
    resolver returned. *)
Lemma service_call (env : Env) (config : gmap string jstring)
    (c : AtlassianCredentials) (rest : jstring) (options : RequestOptions)
    (timers : Timers) (r : Response) :
  getAtlassianCredentials config = Some c ->
  bodyThrows (authHeaderOf c) options = None ->
  fetch env (baseUrl ++ API_PATH ++ rest) (buildRequest (authHeaderOf c) options)
    = Resolves r ->
  fst (fetchAtlassian env c (API_PATH ++ rest) options timers)
    = settle (default (defaultTimeout env) (timeout options))
        (handleResponse env r).
Proof.
  intros Hc Hbody Hfetch.
  apply (fetchAtlassian_resolves _ _ _ _ _ (authHeaderOf c)).
  - apply authorization_complete. by eapply resolved_complete.
  - exact Hbody.
  - by rewrite normalizedPath_api.
Qed.

(** The data of a response of status 200-299 that passes the guard. *)
Lemma service_data (env : Env) (config : gmap string jstring)
    (c : AtlassianCredentials) (rest : jstring) (options : RequestOptions)
    (timers : Timers) (r : Response) (data : json) :
  getAtlassianCredentials config = Some c ->
  bodyThrows (authHeaderOf c) options = None ->
  fetch env (baseUrl ++ API_PATH ++ rest) (buildRequest (authHeaderOf c) options)
    = Resolves r ->
  ok r = true ->
  sizeGuard (MAX_RESPONSE_SIZE env) r = None ->
  decodeBody r = Normal data ->
  fst (fetchAtlassian env c (API_PATH ++ rest) options timers) = Returns data.
Proof.
  intros Hc Hbody Hfetch Hok Hguard Hdata.
  rewrite (service_call _ _ _ _ _ _ r Hc Hbody Hfetch).
  unfold handleResponse. by rewrite Hguard, Hok, Hdata.
Qed.

Lemma validated_fst (schema : json -> option json)
    (invalidMessage failedMessage : jstring) (outcome : completion * Timers) :
  fst (validated schema invalidMessage failedMessage outcome) =
    match fst outcome with
    | Returns rawData =>
        match schema rawData with
        | Some validatedData => Fulfilled validatedData
        | None => Rejected (ServiceApiError invalidMessage 500 ZodResponse)
        end
    | Throws e => Rejected (TransportError e)
    | Raises x =>
        Rejected (ServiceApiError (failedMessage ++ thrownText x) 500 (Thrown x))
    end.
Proof.
  destruct outcome as [[rawData|e|x] timers]; cbn [validated fst];
    [|reflexivity..].
  by destruct (schema rawData).
Qed.

Lemma validated_snd (schema : json -> option json)
    (invalidMessage failedMessage : jstring) (outcome : completion * Timers) :
  snd (validated schema invalidMessage failedMessage outcome) = snd outcome.
Proof.
  destruct outcome as [[rawData|e|x] timers]; cbn [validated snd];
    [|reflexivity..].
  by destruct (schema rawData).
Qed.

(** X13. The status of an error response reaches the caller of [get]
    unchanged: with valid parameters and credentials in the configuration,
    a response outside 200-299 (body received, declared length within the
    limit) whose message has a text makes [get] reject with the very error
    of the transport layer, AuthInvalid for 401 and an ApiError of the status
    of the response otherwise, its message the prefix of the status and that
    text.  The message has a text whenever the body is not a JSON document,
    or is one without any member named [toString]; when it has none, [get]
    rejects with the ApiError of status 500 that the transport layer makes of
    the TypeError of the conversion. *)
Theorem get_keeps_the_status (s : Service) (params : GetRepositoryParams.t)
    (timers : Timers) (c : AtlassianCredentials) (r : Response)
    (errorText : jstring) :
  GetRepositoryParamsSchema (schemas s) params = [] ->
  getAtlassianCredentials (settings s) = Some c ->
  fetch (transport s)
    (baseUrl ++ API_PATH ++ lit "/repositories/"
     ++ GetRepositoryParams.workspace params ++ lit "/"
     ++ GetRepositoryParams.repo_slug params)
    (buildRequest (authHeaderOf c) noOptions) = Resolves r ->
  ok r = false ->
  sizeGuard (MAX_RESPONSE_SIZE (transport s)) r = None ->
  resp_text r = BodyText errorText ->
  match toStrOpt (fst (describeError r errorText)) with
  | Some text =>
      exists e,
        fst (get s params timers) = Rejected (TransportError e)
        /\ outcomeOf e = statusTable (status r)
        /\ messageOf e = statusPrefix (status r) ++ text
  | None =>
      fst (get s params timers)
        = Rejected (TransportError (conversionFailure (transport s)))
  end
  /\ ((forall parsedError,
         JSON_parse errorText = Some parsedError -> plain parsedError = true) ->
      exists e,
        fst (get s params timers) = Rejected (TransportError e)
        /\ outcomeOf e = statusTable (status r)).
Proof.
  intros Hparams Hc Hfetch Hok Hguard Htext.
  pose proof (classify_cases (transport s) r errorText) as Hcases.
  assert (Hfirst :
            match toStrOpt (fst (describeError r errorText)) with
            | Some text =>
                exists e,
                  fst (get s params timers) = Rejected (TransportError e)
                  /\ outcomeOf e = statusTable (status r)
                  /\ messageOf e = statusPrefix (status r) ++ text
            | None =>
                fst (get s params timers)
                  = Rejected (TransportError (conversionFailure (transport s)))
            end).
  { unfold get. rewrite Hparams, Hc. cbv zeta. rewrite validated_fst.
    rewrite (service_call _ _ _ _ _ _ r Hc (bodyThrows_noOptions _) Hfetch).
    unfold handleResponse, rejectResponse. rewrite Hguard, Hok, Htext.
    cbn [negb settle noOptions timeout default].
    destruct (toStrOpt (fst (describeError r errorText))) as [text|].
    - destruct Hcases as (e & -> & Ho & Hm & _). cbn [handleFailure].
      by exists e.
    - by rewrite Hcases, handleFailure_conversion. }
  split; [exact Hfirst|].
  intros Hplain. destruct (describeError_plain r errorText Hplain) as [text Ht].
  rewrite Ht in Hfirst. destruct Hfirst as (e & He & Ho & _). by exists e.
Qed.

Lemma lengthThrows_plain (s : Service) (value : json) :
  plain value = true -> value <> JNull -> lengthThrows s value = None.
Proof.
  destruct value as [|b|n|t|items|members]; try reflexivity; [done|].
  rewrite plain_JObj. intros Hp _. cbn [lengthThrows].
  destruct (getOwn (lit "toString") members); [discriminate|].
  destruct (toStrOpt_plain (getOwn (lit "length") members)) as [text ->];
    [|reflexivity].
  intros w Hw. by apply (getOwn_plain _ _ _ Hp Hw).
Qed.

(** X14. [getFileContent] on a response of status 200-299: served as
    [text/plain], the text is returned as it is, also when it is a JSON
    document; served otherwise, a body that is a JSON document comes back
    as the value parsed, not as the text, unless the template that logs its
    length throws: on the document [null], and on an object whose [length]
    member has no text (an object with a member named [toString]).  The
    function then rejects with an ApiError of status 404 or 500 that wraps
    that TypeError. A document other than [null] without any member named
    [toString] is returned. *)
Theorem getFileContent_on_success (s : Service) (params : GetFileContentParams.t)
    (timers : Timers) (c : AtlassianCredentials) (r : Response) (text : jstring) :
  GetFileContentParamsSchema (schemas s) params = [] ->
  getAtlassianCredentials (settings s) = Some c ->
  fetch (transport s) (baseUrl ++ fileContentPath params)
    (buildRequest (authHeaderOf c) noOptions) = Resolves r ->
  ok r = true ->
  sizeGuard (MAX_RESPONSE_SIZE (transport s)) r = None ->
  resp_text r = BodyText text ->
  (includes (lit "text/plain") (contentTypeOf r) = true ->
   fst (getFileContent s params timers) = Fulfilled (JStr text))
  /\ (includes (lit "text/plain") (contentTypeOf r) = false ->
      forall value, JSON_parse text = Some value ->
      fst (getFileContent s params timers) =
        match lengthThrows s value with
        | None => Fulfilled value
        | Some x => Rejected (fileContentFailure params x)
        end)
  /\ (includes (lit "text/plain") (contentTypeOf r) = false ->
      forall value, JSON_parse text = Some value ->
      plain value = true -> value <> JNull ->
      fst (getFileContent s params timers) = Fulfilled value)
  /\ (includes (lit "text/plain") (contentTypeOf r) = false ->
      JSON_parse text = Some JNull ->
      exists m st x,
        fst (getFileContent s params timers)
          = Rejected (ServiceApiError m st (Thrown x))
        /\ thrownText x = nullLengthMessage s
        /\ (st = 404 \/ st = 500)%Z)
  /\ (forall x, exists m st,
        fileContentFailure params x = ServiceApiError m st (Thrown x)
        /\ (st = 404 \/ st = 500)%Z).
Proof.
  intros Hparams Hc Hfetch Hok Hguard Htext.
  assert (Hcall : forall t0,
            fst (fetchAtlassian (transport s) c (fileContentPath params)
                   noOptions t0)
            = Returns
                (if includes (lit "text/plain") (contentTypeOf r) then JStr text
                 else match JSON_parse text with
                      | Some value => value
                      | None => if blank text then JObj [] else JStr text
                      end)).
  { intros t0. unfold fileContentPath in *.
    rewrite (service_call _ _ _ _ _ _ r Hc (bodyThrows_noOptions _) Hfetch).
    by rewrite (handleResponse_success _ _ _ Hok Hguard Htext). }
  assert (Hfail : forall x, exists m st,
            fileContentFailure params x = ServiceApiError m st (Thrown x)
            /\ (st = 404 \/ st = 500)%Z).
  { intros x. unfold fileContentFailure.
    destruct (mentions (lit "404") x); eauto. }
  assert (Hparsed : includes (lit "text/plain") (contentTypeOf r) = false ->
            forall value, JSON_parse text = Some value ->
            fst (getFileContent s params timers) =
              match lengthThrows s value with
              | None => Fulfilled value
              | Some x => Rejected (fileContentFailure params x)
              end).
  { intros Hct value Hvalue. unfold getFileContent. rewrite Hparams, Hc.
    specialize (Hcall timers).
    destruct (fetchAtlassian (transport s) c (fileContentPath params)
                noOptions timers) as [done timers1].
    cbn [fst] in Hcall. subst done. rewrite Hct, Hvalue.
    by destruct (lengthThrows s value). }
  split; [|split; [exact Hparsed|split; [|split; [|exact Hfail]]]].
  - intros Hct. unfold getFileContent. rewrite Hparams, Hc.
    specialize (Hcall timers).
    destruct (fetchAtlassian (transport s) c (fileContentPath params)
                noOptions timers) as [done timers1].
    cbn [fst] in Hcall. subst done. by rewrite Hct.
  - intros Hct value Hvalue Hplain Hnull.
    by rewrite (Hparsed Hct value Hvalue), (lengthThrows_plain s value Hplain Hnull).
  - intros Hct Hnull. rewrite (Hparsed Hct JNull Hnull). cbn [lengthThrows].
    destruct (Hfail (RejectError {| errClass := TypeErrorClass;
                                    errName := lit "TypeError";
                                    errMessage := nullLengthMessage s |}))
      as (m & st & -> & Hst).
    by eexists m, st, _.
Qed.

Lemma no_credentials (config : gmap string jstring) :
  configured config "BITBUCKET_ACCESS_TOKEN" = false ->
  configured config "BITBUCKET_OAUTH_TOKEN" = false ->
  configured config "ATLASSIAN_USER_EMAIL"
  && configured config "ATLASSIAN_API_TOKEN" = false ->
  configured config "ATLASSIAN_BITBUCKET_USERNAME"
  && configured config "ATLASSIAN_BITBUCKET_APP_PASSWORD" = false ->
  getAtlassianCredentials config = None.
Proof.
  unfold configured, getAtlassianCredentials, orElse.
  intros Ha Hb He Hu. by rewrite Ha, Hb, He, Hu.
Qed.

(** X15. Without credentials in the configuration (no OAuth token, no
    complete pair of either kind), every function of the service called
    with valid parameters rejects with the AuthMissing error; the network is
    not used and no timer is armed. *)
Theorem service_requires_credentials (s : Service) (timers : Timers) :
  configured (settings s) "BITBUCKET_ACCESS_TOKEN" = false ->
  configured (settings s) "BITBUCKET_OAUTH_TOKEN" = false ->
  configured (settings s) "ATLASSIAN_USER_EMAIL"
  && configured (settings s) "ATLASSIAN_API_TOKEN" = false ->
  configured (settings s) "ATLASSIAN_BITBUCKET_USERNAME"
  && configured (settings s) "ATLASSIAN_BITBUCKET_APP_PASSWORD" = false ->
  (forall p, ListRepositoriesParamsSchema (schemas s) p = [] ->
     list_ s p timers = (Rejected credentialsRequired, timers))
  /\ (forall p, GetRepositoryParamsSchema (schemas s) p = [] ->
        get s p timers = (Rejected credentialsRequired, timers))
  /\ (forall p, ListCommitsParamsSchema (schemas s) p = [] ->
        listCommits s p timers = (Rejected credentialsRequired, timers))
  /\ (forall p, CreateBranchParamsSchema (schemas s) p = [] ->
        createBranch s p timers = (Rejected credentialsRequired, timers))
  /\ (forall p, GetFileContentParamsSchema (schemas s) p = [] ->
        getFileContent s p timers = (Rejected credentialsRequired, timers))
  /\ (forall p, ListBranchesParamsSchema (schemas s) p = [] ->
        listBranches s p timers = (Rejected credentialsRequired, timers))
  /\ (forall p, CreateOrUpdateFileParamsSchema (schemas s) p = [] ->
        createOrUpdateFile s p timers = (Rejected credentialsRequired, timers)).
Proof.
  intros Ha Hb He Hu.
  pose proof (no_credentials (settings s) Ha Hb He Hu) as Hnone.
  repeat split; intros p Hp.
  - unfold list_. by rewrite Hp, Hnone.
  - unfold get. by rewrite Hp, Hnone.
  - unfold listCommits. by rewrite Hp, Hnone.
  - unfold createBranch. by rewrite Hp, Hnone.
  - unfold getFileContent. by rewrite Hp, Hnone.
  - unfold listBranches. by rewrite Hp, Hnone.
  - unfold createOrUpdateFile. by rewrite Hp, Hnone.
Qed.

(** ** Creating or updating a file *)

(** X16. Once the POST of [createOrUpdateFile] is answered with a status
    200-299 (body received, declared length within the limit), the function
    fulfils, whatever the body holds and whatever became of the reading of
    the default branch.  When the body is empty, or blank and not served as
    [text/plain], the commit returned is the minimal one: hash [unknown], no
    parents, the message of the parameters and their author, or
    [Unknown]. *)
Theorem createOrUpdateFile_on_success (s : Service)
    (params : CreateOrUpdateFileParams.t) (timers : Timers)
    (c : AtlassianCredentials) (r : Response) (text : jstring) :
  CreateOrUpdateFileParamsSchema (schemas s) params = [] ->
  getAtlassianCredentials (settings s) = Some c ->
  fetch (transport s)
    (baseUrl ++ API_PATH ++ lit "/repositories/"
     ++ CreateOrUpdateFileParams.workspace params ++ lit "/"
     ++ CreateOrUpdateFileParams.repo_slug params ++ lit "/src")
    (buildRequest (authHeaderOf c)
       (fileOptions (boundaryOf s)
          (multipartBody (boundaryOf s) params
             (fst (resolveBranch s params timers))))) = Resolves r ->
  ok r = true ->
  sizeGuard (MAX_RESPONSE_SIZE (transport s)) r = None ->
  resp_text r = BodyText text ->
  (exists commit, fst (createOrUpdateFile s params timers) = Fulfilled commit)
  /\ (text = []
      \/ (blank text = true /\ includes (lit "text/plain") (contentTypeOf r) = false) ->
      fst (createOrUpdateFile s params timers)
        = Fulfilled (minimalCommit s params)).
Proof.
  intros Hparams Hc Hfetch Hok Hguard Htext.
  unfold createOrUpdateFile. rewrite Hparams, Hc.
  destruct (resolveBranch s params timers) as [branch timers1]. cbn [fst] in Hfetch.
  cbv zeta.
  assert (Hcall :
            fst (fetchAtlassian (transport s) c
                   (API_PATH ++ lit "/repositories/"
                    ++ CreateOrUpdateFileParams.workspace params ++ lit "/"
                    ++ CreateOrUpdateFileParams.repo_slug params ++ lit "/src")
                   (fileOptions (boundaryOf s)
                      (multipartBody (boundaryOf s) params branch)) timers1)
            = Returns
                (if includes (lit "text/plain") (contentTypeOf r) then JStr text
                 else match JSON_parse text with
                      | Some value => value
                      | None => if blank text then JObj [] else JStr text
                      end)).
  { rewrite (service_call _ _ _ _ _ _ r Hc (bodyThrows_fileOptions _ _ _) Hfetch).
    by rewrite (handleResponse_success _ _ _ Hok Hguard Htext). }
  destruct (fetchAtlassian _ c _ _ timers1) as [done timers2].
  cbn [fst] in Hcall. subst done. cbn [fst]. split; [eauto|].
  intros [->|[Hblank Hct]].
  - f_equal. destruct (includes _ (contentTypeOf r)); reflexivity.
  - f_equal. by rewrite Hct, (JSON_parse_blank _ Hblank), Hblank.
Qed.

Lemma joinWith_cons2 (sep x y : jstring) (l : list jstring) :
  joinWith sep (x :: y :: l) = x ++ sep ++ joinWith sep (y :: l).
Proof. reflexivity. Qed.

Lemma joinWith_last (sep x : jstring) (l : list jstring) :
  l <> [] -> joinWith sep (l ++ [x]) = joinWith sep l ++ sep ++ x.
Proof.
  induction l as [|a l IH]; [done|]. intros _.
  destruct l as [|b l]; [reflexivity|].
  change ((a :: b :: l) ++ [x]) with (a :: b :: (l ++ [x])).
  rewrite !joinWith_cons2.
  change (b :: l ++ [x]) with ((b :: l) ++ [x]). rewrite IH by done.
  by rewrite <- !app_assoc.
Qed.

(** X17. The request that [createOrUpdateFile] builds is a POST whose
    body is the multipart text, handed to [fetch] unchanged, under the
    Content-Type [multipart/form-data] with the boundary, beside the default
    Accept and the Authorization header.  The text opens with the boundary
    line and closes with the closing boundary line. *)
Theorem file_request (authHeader boundary branch : jstring)
    (params : CreateOrUpdateFileParams.t) :
  init_method
    (buildRequest authHeader
       (fileOptions boundary (multipartBody boundary params branch))) = POST
  /\ init_body
       (buildRequest authHeader
          (fileOptions boundary (multipartBody boundary params branch)))
     = Some (WireText (multipartBody boundary params branch))
  /\ init_headers
       (buildRequest authHeader
          (fileOptions boundary (multipartBody boundary params branch)))
     = {[ lit "Content-Type" := lit "multipart/form-data; boundary=" ++ boundary;
          lit "Authorization" := authHeader;
          lit "Accept" := lit "application/json" ]}
  /\ (exists rest,
        multipartBody boundary params branch
          = lit "--" ++ boundary ++ [13; 10] ++ rest)
  /\ (exists front,
        multipartBody boundary params branch
          = front ++ [13; 10] ++ lit "--" ++ boundary ++ lit "--").
Proof.
  assert (Hopen : exists rest,
            multipartBody boundary params branch
              = lit "--" ++ boundary ++ [13; 10] ++ rest).
  { unfold multipartBody. cbv zeta. unfold formField at 1.
    cbn [app]. rewrite joinWith_cons2. rewrite <- !app_assoc. eauto. }
  split; [reflexivity|]. split; [|split; [|split]].
  - unfold buildRequest. cbn [init_body].
    rewrite (encodeBody_text _ _ (multipartBody boundary params branch));
      [reflexivity|reflexivity|].
    destruct Hopen as [rest ->]. discriminate.
  - unfold buildRequest. cbn [init_headers]. apply map_eq. intros name.
    rewrite buildHeaders_lookup. cbn [fileOptions headers from_option id].
    destruct (decide (name = lit "Content-Type")) as [->|Hct].
    { by rewrite lookup_singleton_eq, lookup_insert_eq. }
    rewrite lookup_singleton_ne by done.
    rewrite (lookup_insert_ne _ (lit "Content-Type") name) by done.
    destruct (decide (name = lit "Authorization")) as [->|Hauth].
    { by rewrite !lookup_insert_eq. }
    rewrite !(lookup_insert_ne _ (lit "Authorization") name) by done.
    by rewrite (lookup_insert_ne _ (lit "Content-Type") name) by done.
  - exact Hopen.
  - exists (joinWith [13; 10]
              (formField boundary
                 (normalizedPath (CreateOrUpdateFileParams.file_path params))
                 (CreateOrUpdateFileParams.content params)
               ++ formField boundary (lit "message")
                    (CreateOrUpdateFileParams.message params)
               ++ formField boundary (lit "branch") branch
               ++ (if truthyStr (CreateOrUpdateFileParams.author params)
                   then formField boundary (lit "author")
                          (default [] (CreateOrUpdateFileParams.author params))
                   else []))).
    rewrite <- (joinWith_last [13; 10] (lit "--" ++ boundary ++ lit "--"))
      by (unfold formField; discriminate).
    reflexivity.
Qed.

(** ** Query strings *)

Lemma upperHexDigit_safe (d : N) : d < 16 -> urlSafe (upperHexDigit d) = true.
Proof.
  intros Hd.
  assert (Hc : d = 0 \/ d = 1 \/ d = 2 \/ d = 3 \/ d = 4 \/ d = 5 \/ d = 6 \/ d = 7
               \/ d = 8 \/ d = 9 \/ d = 10 \/ d = 11 \/ d = 12 \/ d = 13 \/ d = 14
               \/ d = 15) by lia.
  repeat (destruct Hc as [->|Hc]; [reflexivity|]). by subst.
Qed.

Lemma formEncodeByte_safe (b : N) : forallb urlSafe (formEncodeByte b) = true.
Proof.
  unfold formEncodeByte.
  destruct (isAlphaNumeric b || N.eqb b 42 || N.eqb b 45 || N.eqb b 46
            || N.eqb b 95) eqn:Hb.
  - cbn [forallb]. rewrite andb_true_r. unfold urlSafe.
    unfold isAlphaNumeric in *.
    repeat (apply orb_true_iff in Hb as [Hb|Hb]);
      try (apply N.eqb_eq in Hb; subst; reflexivity);
      rewrite Hb; rewrite ?orb_true_r; reflexivity.
  - destruct (N.eqb b 32); [reflexivity|]. cbn [forallb].
    rewrite !upperHexDigit_safe by (apply N.mod_lt; lia). reflexivity.
Qed.

Lemma formEncode_safe (s : jstring) : forallb urlSafe (formEncode s) = true.
Proof.
  unfold formEncode. induction (utf8 s) as [|b bytes IH]; [reflexivity|].
  cbn [map concat]. by rewrite forallb_app, formEncodeByte_safe, IH.
Qed.

Lemma joinWith_safe (sep : jstring) (parts : list jstring) :
  forallb urlSafe sep = true ->
  Forall (fun x => forallb urlSafe x = true) parts ->
  forallb urlSafe (joinWith sep parts) = true.
Proof.
  intros Hsep. induction 1 as [|x parts Hx _ IH]; [reflexivity|].
  destruct parts as [|y parts]; [exact Hx|].
  rewrite joinWith_cons2, !forallb_app, Hx, Hsep. exact IH.
Qed.

Lemma searchParams_safe (pairs : list (jstring * jstring)) :
  forallb urlSafe (searchParamsToString pairs) = true.
Proof.
  unfold searchParamsToString. apply joinWith_safe; [reflexivity|].
  induction pairs as [|kv pairs IH]; constructor; [|exact IH].
  by rewrite !forallb_app, !formEncode_safe.
Qed.

Lemma searchParams_nonEmpty (kv : jstring * jstring)
    (pairs : list (jstring * jstring)) :
  nonEmpty (searchParamsToString (kv :: pairs)) = true.
Proof.
  unfold searchParamsToString. cbn [map].
  assert (Hne : forall a b : jstring, nonEmpty (a ++ lit "=" ++ b) = true).
  { intros a b. by destruct a. }
  destruct pairs as [|kv' pairs]; [apply Hne|].
  cbn [map]. rewrite joinWith_cons2.
  pose proof (Hne (formEncode kv.1) (formEncode kv.2)) as Hfirst.
  destruct (formEncode kv.1 ++ lit "=" ++ formEncode kv.2);
    [discriminate Hfirst|reflexivity].
Qed.

Lemma queryStringOf_safe (pairs : list (jstring * jstring)) :
  forallb urlSafe (queryStringOf pairs) = true.
Proof.
  unfold queryStringOf. destruct (nonEmpty _); [|reflexivity].
  rewrite forallb_app. by rewrite searchParams_safe.
Qed.

Lemma queryStringOf_pairs (pairs : list (jstring * jstring)) :
  pairs <> [] ->
  queryStringOf pairs =
    lit "?" ++
    joinWith (lit "&")
      (map (fun kv => formEncode (fst kv) ++ lit "=" ++ formEncode (snd kv)) pairs).
Proof.
  destruct pairs as [|kv pairs]; [done|]. intros _.
  unfold queryStringOf. by rewrite searchParams_nonEmpty.
Qed.

(** What a function of the service that validates the data makes of the
    data of a response. *)
Lemma validated_data (schema : json -> option json)
    (invalidMessage failedMessage : jstring) (env : Env)
    (config : gmap string jstring) (c : AtlassianCredentials) (rest : jstring)
    (options : RequestOptions) (timers : Timers) (r : Response) (data : json) :
  getAtlassianCredentials config = Some c ->
  bodyThrows (authHeaderOf c) options = None ->
  fetch env (baseUrl ++ API_PATH ++ rest) (buildRequest (authHeaderOf c) options)
    = Resolves r ->
  ok r = true ->
  sizeGuard (MAX_RESPONSE_SIZE env) r = None ->
  decodeBody r = Normal data ->
  fst (validated schema invalidMessage failedMessage
         (fetchAtlassian env c (API_PATH ++ rest) options timers))
    = match schema data with
      | Some validatedData => Fulfilled validatedData
      | None => Rejected (ServiceApiError invalidMessage 500 ZodResponse)
      end.
Proof.
  intros Hc Hbody Hfetch Hok Hguard Hdata.
  by rewrite validated_fst,
    (service_data _ _ _ _ _ _ r data Hc Hbody Hfetch Hok Hguard Hdata).
Qed.

(** X18. Each listing function makes one GET request, without a body, to
    the path of its collection followed by the query string of its
    parameters, and fulfils with the validated data of the response (status
    200-299, declared length within the limit), or rejects with an ApiError
    of status 500 when the schema refuses the data.  The query string is made
    of letters, digits and the characters [*-._+%=&?] only, whatever the
    filter, the sort key and the other values hold: no value can add a path
    segment, a fragment or another parameter.  It is empty when no parameter
    is set, and otherwise a question mark followed by one [name=value] pair
    for each parameter set; [list] always sets [pagelen].  A text sets its
    parameter unless it is absent or empty, a Number unless it is absent,
    zero or NaN. *)
Theorem listing_requests (s : Service) (timers : Timers)
    (c : AtlassianCredentials) (r : Response) (data : json) :
  getAtlassianCredentials (settings s) = Some c ->
  ok r = true ->
  sizeGuard (MAX_RESPONSE_SIZE (transport s)) r = None ->
  decodeBody r = Normal data ->
  (forall p query,
     ListRepositoriesParamsSchema (schemas s) p = [] ->
     query = queryStringOf
               (setIfText "q" (ListRepositoriesParams.q p)
                ++ setIfText "sort" (ListRepositoriesParams.sort p)
                ++ setIfText "role" (ListRepositoriesParams.role p)
                ++ [(lit "pagelen",
                     toString (validatePageSize s (ListRepositoriesParams.pagelen p)))]
                ++ setIfNumber "page" (ListRepositoriesParams.page p)) ->
     forallb urlSafe query = true
     /\ startsWith (lit "?") query = true
     /\ (fetch (transport s)
           (baseUrl ++ lit "/2.0/repositories/"
            ++ ListRepositoriesParams.workspace p ++ query)
           (buildRequest (authHeaderOf c) noOptions) = Resolves r ->
         fst (list_ s p timers) =
           match RepositoriesResponseSchema (schemas s) data with
           | Some validatedData => Fulfilled validatedData
           | None => Rejected (ServiceApiError invalidResponse 500 ZodResponse)
           end))
  /\ (forall p query,
        ListCommitsParamsSchema (schemas s) p = [] ->
        query = queryStringOf
                  (setIfText "include" (ListCommitsParams.include p)
                   ++ setIfText "exclude" (ListCommitsParams.exclude p)
                   ++ setIfText "path" (ListCommitsParams.path p)
                   ++ setIfNumber "pagelen" (ListCommitsParams.pagelen p)
                   ++ setIfNumber "page" (ListCommitsParams.page p)) ->
        forallb urlSafe query = true
        /\ (fetch (transport s)
              (baseUrl ++ lit "/2.0/repositories/"
               ++ ListCommitsParams.workspace p ++ lit "/"
               ++ ListCommitsParams.repo_slug p ++ lit "/commits" ++ query)
              (buildRequest (authHeaderOf c) noOptions) = Resolves r ->
            fst (listCommits s p timers) =
              match PaginatedCommitsSchema (schemas s) data with
              | Some validatedData => Fulfilled validatedData
              | None => Rejected (ServiceApiError invalidResponse 500 ZodResponse)
              end))
  /\ (forall p query,
        ListBranchesParamsSchema (schemas s) p = [] ->
        query = queryStringOf
                  (setIfText "q" (ListBranchesParams.q p)
                   ++ setIfText "sort" (ListBranchesParams.sort p)
                   ++ setIfNumber "pagelen" (ListBranchesParams.pagelen p)
                   ++ setIfNumber "page" (ListBranchesParams.page p)) ->
        forallb urlSafe query = true
        /\ (fetch (transport s)
              (baseUrl ++ lit "/2.0/repositories/"
               ++ ListBranchesParams.workspace p ++ lit "/"
               ++ ListBranchesParams.repo_slug p ++ lit "/refs/branches" ++ query)
              (buildRequest (authHeaderOf c) noOptions) = Resolves r ->
            fst (listBranches s p timers) =
              match BranchesResponseSchema (schemas s) data with
              | Some validatedData => Fulfilled validatedData
              | None => Rejected (ServiceApiError invalidResponse 500 ZodResponse)
              end))
  /\ (forall pairs,
        forallb urlSafe (queryStringOf pairs) = true
        /\ (pairs = [] -> queryStringOf pairs = [])
        /\ (pairs <> [] ->
            queryStringOf pairs =
              lit "?" ++
              joinWith (lit "&")
                (map (fun kv => formEncode (fst kv) ++ lit "=" ++ formEncode (snd kv))
                   pairs)))
  /\ (forall name value,
        setIfText name value =
          match value with
          | Some (unit :: units) => [(lit name, unit :: units)]
          | _ => []
          end)
  /\ (forall name value,
        setIfNumber name value =
          match value with
          | Some (Dyadic n k) =>
              if (n =? 0)%Z then [] else [(lit name, toString (Dyadic n k))]
          | Some (Infinite negative) =>
              [(lit name, if negative then lit "-Infinity" else lit "Infinity")]
          | _ => []
          end)
  /\ buildRequest (authHeaderOf c) noOptions =
       {| init_method := GET;
          init_headers := {[ lit "Authorization" := authHeaderOf c;
                             lit "Content-Type" := lit "application/json";
                             lit "Accept" := lit "application/json" ]};
          init_body := None |}.
Proof.
  intros Hc Hok Hguard Hdata.
  split; [|split; [|split; [|split; [|split; [|split]]]]].
  - intros p query Hp ->. split; [apply queryStringOf_safe|]. split.
    + rewrite queryStringOf_pairs; [reflexivity|].
      intros Heq. apply (f_equal length) in Heq.
      rewrite !length_app in Heq. cbn [length] in Heq. lia.
    + intros Hfetch. unfold list_. rewrite Hp, Hc.
      apply (validated_data _ _ _ _ _ _ _ _ _ r data Hc
               (bodyThrows_noOptions _) Hfetch Hok Hguard Hdata).
  - intros p query Hp ->. split; [apply queryStringOf_safe|].
    intros Hfetch. unfold listCommits. rewrite Hp, Hc.
    apply (validated_data _ _ _ _ _ _ _ _ _ r data Hc
             (bodyThrows_noOptions _) Hfetch Hok Hguard Hdata).
  - intros p query Hp ->. split; [apply queryStringOf_safe|].
    intros Hfetch. unfold listBranches. rewrite Hp, Hc.
    apply (validated_data _ _ _ _ _ _ _ _ _ r data Hc
             (bodyThrows_noOptions _) Hfetch Hok Hguard Hdata).
  - intros pairs. split; [apply queryStringOf_safe|].
    split; [by intros ->|apply queryStringOf_pairs].
  - by intros name [[|unit units]|].
  - intros name [[n k| |[|]|]|]; try reflexivity.
    cbn [setIfNumber nonZero]. by destruct (n =? 0)%Z.
  - reflexivity.
Qed.

(** X19. [createBranch] makes one POST request to the [refs/branches]
    collection of the repository, with the default headers, whose body is the
    JSON text of [{ name, target: { hash } }]: whatever the name and the hash
    hold, [JSON.parse] reads that text back as the same object.  It fulfils
    with the validated data of the response (status 200-299, declared length
    within the limit), or rejects with an ApiError of status 500 when the
    schema refuses the data. *)
Theorem createBranch_request (s : Service) (params : CreateBranchParams.t)
    (timers : Timers) (c : AtlassianCredentials) (r : Response) (data : json) :
  CreateBranchParamsSchema (schemas s) params = [] ->
  getAtlassianCredentials (settings s) = Some c ->
  ok r = true ->
  sizeGuard (MAX_RESPONSE_SIZE (transport s)) r = None ->
  decodeBody r = Normal data ->
  exists text,
    JSON_parse text =
      Some (JObj [(lit "name", JStr (CreateBranchParams.name params));
                  (lit "target",
                   JObj [(lit "hash",
                          JStr (CreateBranchParams.target_hash params))])])
    /\ (fetch (transport s)
          (baseUrl ++ lit "/2.0/repositories/"
           ++ CreateBranchParams.workspace params ++ lit "/"
           ++ CreateBranchParams.repo_slug params ++ lit "/refs/branches")
          {| init_method := POST;
             init_headers := {[ lit "Authorization" := authHeaderOf c;
                                lit "Content-Type" := lit "application/json";
                                lit "Accept" := lit "application/json" ]};
             init_body := Some (WireText text) |} = Resolves r ->
        fst (createBranch s params timers) =
          match BranchRefSchema (schemas s) data with
          | Some validatedData => Fulfilled validatedData
          | None => Rejected (ServiceApiError invalidResponse 500 ZodResponse)
          end).
Proof.
  intros Hparams Hc Hok Hguard Hdata.
  pose (b := JObj [(lit "name", JStr (CreateBranchParams.name params));
                   (lit "target",
                    JObj [(lit "hash",
                           JStr (CreateBranchParams.target_hash params))])]).
  exists (JSON_stringify b). split.
  - apply JSON_round_trip. cbn. auto.
  - intros Hfetch. unfold createBranch. rewrite Hparams, Hc.
    assert (Hrequest :
              buildRequest (authHeaderOf c) (createBranchOptions params) =
                {| init_method := POST;
                   init_headers := {[ lit "Authorization" := authHeaderOf c;
                                      lit "Content-Type" := lit "application/json";
                                      lit "Accept" := lit "application/json" ]};
                   init_body := Some (WireText (JSON_stringify b)) |})
      by reflexivity.
    rewrite <- Hrequest in Hfetch.
    apply (validated_data _ _ _ _ _ _ _ _ _ r data Hc
             (bodyThrows_createBranchOptions _ _) Hfetch Hok Hguard Hdata).
Qed.

(** ** Timers *)

Lemma validated_timers (schema : json -> option json)
    (invalidMessage failedMessage : jstring)
    (env : Env) (c : AtlassianCredentials) (path : jstring)
    (options : RequestOptions) (timers : Timers) :
  timersOk timers ->
  armed (snd (validated schema invalidMessage failedMessage
                (fetchAtlassian env c path options timers))) = armed timers
  /\ timersOk (snd (validated schema invalidMessage failedMessage
                      (fetchAtlassian env c path options timers))).
Proof.
  intros Hok. rewrite validated_snd.
  destruct (fetchAtlassian_timersOk env c path options timers Hok) as (? & ? & _).
  auto.
Qed.

Lemma get_timers (s : Service) (p : GetRepositoryParams.t) (timers : Timers) :
  timersOk timers ->
  armed (snd (get s p timers)) = armed timers /\ timersOk (snd (get s p timers)).
Proof.
  intros Hok. unfold get.
  destruct (GetRepositoryParamsSchema (schemas s) p); [|by auto].
  destruct (getAtlassianCredentials (settings s)); [|by auto].
  by apply validated_timers.
Qed.

(** X20. No function of the service leaks a timer: when the identifiers
    of the armed timers are below the next identifier, the timers armed
    after a call, fulfilled or rejected, are those armed before it,
    [createOrUpdateFile] with its two requests included. *)
Theorem service_leaks_no_timer (s : Service) (timers : Timers) :
  timersOk timers ->
  (forall p, armed (snd (list_ s p timers)) = armed timers)
  /\ (forall p, armed (snd (get s p timers)) = armed timers)
  /\ (forall p, armed (snd (listCommits s p timers)) = armed timers)
  /\ (forall p, armed (snd (createBranch s p timers)) = armed timers)
  /\ (forall p, armed (snd (getFileContent s p timers)) = armed timers)
  /\ (forall p, armed (snd (listBranches s p timers)) = armed timers)
  /\ (forall p, armed (snd (createOrUpdateFile s p timers)) = armed timers).
Proof.
  intros Hok. repeat split; intros p.
  - unfold list_.
    destruct (ListRepositoriesParamsSchema (schemas s) p); [|reflexivity].
    destruct (getAtlassianCredentials (settings s)); [|reflexivity].
    by apply validated_timers.
  - by apply get_timers.
  - unfold listCommits.
    destruct (ListCommitsParamsSchema (schemas s) p); [|reflexivity].
    destruct (getAtlassianCredentials (settings s)); [|reflexivity].
    by apply validated_timers.
  - unfold createBranch.
    destruct (CreateBranchParamsSchema (schemas s) p); [|reflexivity].
    destruct (getAtlassianCredentials (settings s)); [|reflexivity].
    by apply validated_timers.
  - unfold getFileContent.
    destruct (GetFileContentParamsSchema (schemas s) p); [|reflexivity].
    destruct (getAtlassianCredentials (settings s)) as [c|]; [|reflexivity].
    destruct (fetchAtlassian_timersOk (transport s) c (fileContentPath p)
                noOptions timers Hok) as (Ha & _ & _).
    destruct (fetchAtlassian (transport s) c (fileContentPath p) noOptions timers)
      as [[v|e|x] timers1]; [|exact Ha..].
    by destruct (lengthThrows s v).
  - unfold listBranches.
    destruct (ListBranchesParamsSchema (schemas s) p); [|reflexivity].
    destruct (getAtlassianCredentials (settings s)); [|reflexivity].
    by apply validated_timers.
  - unfold createOrUpdateFile.
    destruct (CreateOrUpdateFileParamsSchema (schemas s) p); [|reflexivity].
    destruct (getAtlassianCredentials (settings s)) as [c|]; [|reflexivity].
    assert (Hb : armed (snd (resolveBranch s p timers)) = armed timers
                 /\ timersOk (snd (resolveBranch s p timers))).
    { unfold resolveBranch.
      destruct (truthyStr (CreateOrUpdateFileParams.branch p)); [by auto|].
      destruct (get_timers s
                  {| GetRepositoryParams.workspace :=
                       CreateOrUpdateFileParams.workspace p;
                     GetRepositoryParams.repo_slug :=
                       CreateOrUpdateFileParams.repo_slug p |} timers Hok)
        as [Ha Hok1].
      destruct (get s _ timers) as [[repoDetails|err] timers1];
        [|by auto].
      destruct (truthyOpt _); [|by auto].
      by destruct (toStrOpt _). }
    destruct (resolveBranch s p timers) as [branch timers1].
    cbn [snd] in Hb. destruct Hb as [Ha Hok1]. cbv zeta.
    match goal with
    | |- context [fetchAtlassian ?e ?cr ?pa ?op timers1] =>
        destruct (fetchAtlassian_timersOk e cr pa op timers1 Hok1) as (Ha2 & _ & _);
        destruct (fetchAtlassian e cr pa op timers1) as [[v|e'|x] timers2]
    end; cbn [snd] in *; congruence.
Qed.

End ServiceProperties.


(** * The further properties on the sample data *)

Lemma resolved_credentials_authorize_witness :
  @authorization LiteralNumbers Sample.oauth = inr (lit "Bearer token").
Proof.
  rewrite (proj1 (resolved_credentials_authorize Sample.bothConfigured
                    Sample.oauth eq_refl)).
  run.
Defined.

Lemma incomplete_credentials_fail_early_witness :
  exists m,
    forall (env : @Env LiteralNumbers) path options timers,
      fetchAtlassian env ServiceSample.flagOnly path options timers
        = (Throws (AuthInvalidError m None), timers).
Proof. apply (incomplete_credentials_fail_early ServiceSample.flagOnly). run. Defined.

Lemma success_is_never_an_error_witness :
  fst (fetchAtlassian (Sample.network (Resolves ServiceSample.sentence))
         Sample.oauth Sample.path Sample.plain Sample.timers)
    = Returns (JStr (lit "not json")).
Proof.
  rewrite (success_is_never_an_error
             (Sample.network (Resolves ServiceSample.sentence))
             Sample.oauth Sample.path Sample.plain Sample.timers Sample.bearer
             ServiceSample.sentence (lit "not json")); run.
Defined.

Lemma repeated_calls_leak_no_timer_witness :
  armed (snd (runCalls (Sample.network TimerFires)
                [ServiceSample.plainCall; ServiceSample.plainCall]
                Sample.timers)) = [3; 1]%nat.
Proof.
  rewrite (proj1 (repeated_calls_leak_no_timer (Sample.network TimerFires)
                    [ServiceSample.plainCall; ServiceSample.plainCall]
                    Sample.timers ltac:(repeat constructor))).
  reflexivity.
Defined.

Lemma thrown_statuses_witness :
  404%Z = 408%Z \/ 404%Z = 413%Z \/ 404%Z = 500%Z
  \/ exists authHeader r,
       @authorization LiteralNumbers Sample.oauth = inr authHeader
       /\ fetch (Sample.network (Resolves (Sample.response 404 [] Sample.notFoundBody)))
            (baseUrl ++ normalizedPath Sample.path)
            (buildRequest authHeader Sample.plain) = Resolves r
       /\ ok r = false /\ status r = 404%Z.
Proof.
  apply (thrown_statuses
           (Sample.network (Resolves (Sample.response 404 [] Sample.notFoundBody)))
           Sample.oauth Sample.path Sample.plain Sample.timers
           (lit "Bitbucket API: Resource not found - Repository not found Detail: x")
           404
           (Some (CauseValue
                    (JObj [(lit "message", JStr (lit "Repository not found"));
                           (lit "detail", JStr (lit "x"))])))).
  run.
Defined.

Lemma body_failure_is_network_failure_witness :
  fst (fetchAtlassian (Sample.network (Resolves ServiceSample.brokenBody))
         Sample.oauth Sample.path Sample.plain Sample.timers)
    = Throws (ApiError (lit "Network error while calling Bitbucket API: terminated")
                500 (Some (CauseRejection ServiceSample.terminated))).
Proof.
  rewrite (proj1 (body_failure_is_network_failure
                    (Sample.network (Resolves ServiceSample.brokenBody))
                    Sample.oauth Sample.path Sample.plain Sample.timers
                    Sample.bearer ServiceSample.brokenBody ServiceSample.terminated
                    eq_refl eq_refl eq_refl eq_refl eq_refl)).
  run.
Defined.

Lemma unparsed_error_body_witness :
  exists e,
    fst (fetchAtlassian (Sample.network (Resolves ServiceSample.gatewayPage))
           Sample.oauth Sample.path Sample.plain Sample.timers) = Throws e
    /\ messageOf e = statusPrefix 502 ++ decimalZ 502 ++ lit " " ++ lit "Status"
    /\ causeOf e = Some (CauseText (lit "<html>Bad Gateway</html>")).
Proof.
  apply (unparsed_error_body (Sample.network (Resolves ServiceSample.gatewayPage))
           Sample.oauth Sample.path Sample.plain Sample.timers Sample.bearer
           ServiceSample.gatewayPage (lit "<html>Bad Gateway</html>"));
    try run.
  left. run.
Defined.

Lemma vendor_error_message_witness :
  (exists e,
     fst (fetchAtlassian
            (Sample.network (Resolves (Sample.response 404 [] Sample.notFoundBody)))
            Sample.oauth Sample.path Sample.plain Sample.timers) = Throws e
     /\ outcomeOf e = (ApiErrorKind, Some 404%Z)
     /\ messageOf e
        = lit "Bitbucket API: Resource not found - Repository not found Detail: x"
     /\ causeOf e
        = Some (CauseValue
                  (JObj [(lit "message", JStr (lit "Repository not found"));
                         (lit "detail", JStr (lit "x"))])))
  /\ (exists e,
        fst (fetchAtlassian
               (Sample.network
                  (Resolves (Sample.response 403 [] ServiceSample.unprintableDetail)))
               Sample.oauth Sample.path Sample.plain Sample.timers) = Throws e
        /\ outcomeOf e = (ApiErrorKind, Some 403%Z)
        /\ messageOf e = lit "Bitbucket API: Permission denied - Denied"
        /\ causeOf e
           = Some (CauseValue
                     (JObj [(lit "message", JStr (lit "Denied"));
                            (lit "detail", JObj [(lit "toString", JNum (lit "1"))])]))).
Proof.
  split.
  - refine (vendor_error_message
              (Sample.network (Resolves (Sample.response 404 [] Sample.notFoundBody)))
              Sample.oauth Sample.path Sample.plain Sample.timers Sample.bearer
              (Sample.response 404 [] Sample.notFoundBody) Sample.notFoundBody
              (JObj [(lit "type", JStr (lit "error"));
                     (lit "error",
                      JObj [(lit "message", JStr (lit "Repository not found"));
                            (lit "detail", JStr (lit "x"))])])
              (JObj [(lit "message", JStr (lit "Repository not found"));
                     (lit "detail", JStr (lit "x"))])
              (JStr (lit "Repository not found")) _ _ _ _ _ _ _ _ _ _ _); run.
  - refine (vendor_error_message
              (Sample.network
                 (Resolves (Sample.response 403 [] ServiceSample.unprintableDetail)))
              Sample.oauth Sample.path Sample.plain Sample.timers Sample.bearer
              (Sample.response 403 [] ServiceSample.unprintableDetail)
              ServiceSample.unprintableDetail
              (JObj [(lit "type", JStr (lit "error"));
                     (lit "error",
                      JObj [(lit "message", JStr (lit "Denied"));
                            (lit "detail", JObj [(lit "toString", JNum (lit "1"))])])])
              (JObj [(lit "message", JStr (lit "Denied"));
                     (lit "detail", JObj [(lit "toString", JNum (lit "1"))])])
              (JStr (lit "Denied")) _ _ _ _ _ _ _ _ _ _ _); run.
Defined.

Lemma vendor_errors_array_witness :
  (exists e,
     fst (fetchAtlassian (Sample.network (Resolves ServiceSample.nullTitle))
            Sample.oauth Sample.path Sample.plain Sample.timers) = Throws e
     /\ outcomeOf e = (ApiErrorKind, Some 400%Z)
     /\ messageOf e = lit "Bitbucket API Error: 400 Status"
     /\ causeOf e
        = Some (CauseText (quoted "{'errors':[null],'message':'ignored'}")))
  /\ fst (fetchAtlassian
            (Sample.network
               (Resolves (Sample.response 400 [] ServiceSample.unprintableTitle)))
            Sample.oauth Sample.path Sample.plain Sample.timers)
     = Throws
         (ApiError
            (lit "Network error while calling Bitbucket API: Cannot convert object to primitive value")
            500
            (Some (CauseRejection
                     (conversionError
                        (Sample.network
                           (Resolves (Sample.response 400 []
                                        ServiceSample.unprintableTitle))))))).
Proof.
  split.
  - refine (vendor_errors_array
              (Sample.network (Resolves ServiceSample.nullTitle))
              Sample.oauth Sample.path Sample.plain Sample.timers Sample.bearer
              ServiceSample.nullTitle
              (quoted "{'errors':[null],'message':'ignored'}")
              (JObj [(lit "errors", JArr [JNull]);
                     (lit "message", JStr (lit "ignored"))])
              JNull [] _ _ _ _ _ _ _ _ _ _); run.
  - refine (vendor_errors_array
              (Sample.network
                 (Resolves (Sample.response 400 [] ServiceSample.unprintableTitle)))
              Sample.oauth Sample.path Sample.plain Sample.timers Sample.bearer
              (Sample.response 400 [] ServiceSample.unprintableTitle)
              ServiceSample.unprintableTitle
              (JObj [(lit "errors",
                      JArr [JObj [(lit "title",
                                   JObj [(lit "toString", JNum (lit "1"))])]])])
              (JObj [(lit "title", JObj [(lit "toString", JNum (lit "1"))])])
              [] _ _ _ _ _ _ _ _ _ _); run.
Defined.

Lemma size_guard_exact_witness :
  sizeGuard (ofZ 10485760) Sample.oversized401
    = Some (sizeError (ofZ 10485761) (ofZ 10485760))
  /\ parseInt10 (lit "10485761") = Dyadic 10485761 0.
Proof.
  destruct (size_guard_exact 10485760 10485761 Sample.oversized401)
    as (Hparse & _ & Hexact); [run|].
  destruct Hexact as [Hsize Hguard]; [run..|].
  split; [exact Hguard|].
  etransitivity; [exact Hparse|exact Hsize].
Defined.

Lemma body_round_trip_witness :
  init_body (buildRequest Sample.bearer Sample.jsonObject)
    = Some (WireText (quoted "{'name':'main'}"))
  /\ JSON_parse (quoted "{'name':'main'}")
     = Some (JObj [(lit "name", @JStr LiteralNumbers (lit "main"))]).
Proof.
  destruct (body_round_trip Sample.bearer Sample.jsonObject
              (JObj [(lit "name", JStr (lit "main"))]))
    as [Hwire Hparse]; [run..|].
  split; [rewrite Hwire; run|exact Hparse].
Defined.

Lemma get_keeps_the_status_witness :
  (exists e,
     fst (get (ServiceSample.service Sample.bothConfigured
                 (Resolves (Sample.response 404 [] Sample.notFoundBody)))
            ServiceSample.repository Sample.timers)
       = Rejected (TransportError e)
     /\ outcomeOf e = (ApiErrorKind, Some 404%Z))
  /\ exists e,
       fst (get (ServiceSample.service Sample.bothConfigured
                   (Resolves (Sample.response 404 [] Sample.unprintableBody)))
              ServiceSample.repository Sample.timers)
         = Rejected (TransportError e)
       /\ outcomeOf e = (ApiErrorKind, Some 500%Z).
Proof.
  split.
  - destruct (get_keeps_the_status
                (ServiceSample.service Sample.bothConfigured
                   (Resolves (Sample.response 404 [] Sample.notFoundBody)))
                ServiceSample.repository Sample.timers Sample.oauth
                (Sample.response 404 [] Sample.notFoundBody) Sample.notFoundBody)
      as [_ Htable]; [run..|].
    apply Htable. intros parsedError Hp. vm_compute in Hp.
    injection Hp as <-. reflexivity.
  - destruct (get_keeps_the_status
                (ServiceSample.service Sample.bothConfigured
                   (Resolves (Sample.response 404 [] Sample.unprintableBody)))
                ServiceSample.repository Sample.timers Sample.oauth
                (Sample.response 404 [] Sample.unprintableBody)
                Sample.unprintableBody)
      as [Hcall _]; [run..|].
    eexists. split; [exact Hcall|reflexivity].
Defined.

Lemma getFileContent_on_success_witness :
  fst (getFileContent
         (ServiceSample.service Sample.bothConfigured
            (Resolves ServiceSample.readmeText))
         ServiceSample.readme Sample.timers)
    = Fulfilled (JStr (quoted "{'not':'parsed'}"))
  /\ exists x,
       fst (getFileContent
              (ServiceSample.service Sample.bothConfigured
                 (Resolves ServiceSample.measured))
              ServiceSample.readme Sample.timers)
       = Rejected
           (ServiceApiError
              (lit "Failed to get file content: Cannot convert object to primitive value")
              500 (Thrown x)).
Proof.
  split.
  - destruct (getFileContent_on_success
                (ServiceSample.service Sample.bothConfigured
                   (Resolves ServiceSample.readmeText))
                ServiceSample.readme Sample.timers Sample.oauth
                ServiceSample.readmeText (quoted "{'not':'parsed'}"))
      as (Htext & _); [run..|].
    apply Htext. run.
  - destruct (getFileContent_on_success
                (ServiceSample.service Sample.bothConfigured
                   (Resolves ServiceSample.measured))
                ServiceSample.readme Sample.timers Sample.oauth
                ServiceSample.measured (quoted "{'length':{'toString':1}}"))
      as (_ & Hparsed & _); [run..|].
    eexists.
    rewrite (Hparsed eq_refl
               (JObj [(lit "length",
                       JObj [(lit "toString", @JNum LiteralNumbers (lit "1"))])])
               eq_refl).
    reflexivity.
Defined.

Lemma service_requires_credentials_witness :
  get (ServiceSample.service ∅ (Resolves ServiceSample.readmeText))
    ServiceSample.repository Sample.timers
    = (Rejected credentialsRequired, Sample.timers).
Proof.
  apply (service_requires_credentials
           (ServiceSample.service ∅ (Resolves ServiceSample.readmeText))
           Sample.timers); run.
Defined.

Lemma createOrUpdateFile_on_success_witness :
  fst (createOrUpdateFile
         (ServiceSample.service Sample.bothConfigured
            (Resolves ServiceSample.created))
         ServiceSample.newFile Sample.timers)
    = Fulfilled
        (minimalCommit
           (ServiceSample.service Sample.bothConfigured
              (Resolves ServiceSample.created))
           ServiceSample.newFile).
Proof.
  apply (createOrUpdateFile_on_success
           (ServiceSample.service Sample.bothConfigured
              (Resolves ServiceSample.created))
           ServiceSample.newFile Sample.timers Sample.oauth
           ServiceSample.created []); try run.
  by left.
Defined.

Lemma service_leaks_no_timer_witness :
  armed (snd (createOrUpdateFile
                (ServiceSample.service Sample.bothConfigured
                   (Resolves ServiceSample.created))
                ServiceSample.newFile Sample.timers))
    = [3; 1]%nat.
Proof.
  rewrite (proj2 (proj2 (proj2 (proj2 (proj2 (proj2
             (service_leaks_no_timer
                (ServiceSample.service Sample.bothConfigured
                   (Resolves ServiceSample.created))
                Sample.timers ltac:(repeat constructor)))))))).
  reflexivity.
Defined.

Lemma listing_requests_witness :
  fst (listCommits
         (ServiceSample.service Sample.bothConfigured
            (Resolves ServiceSample.noCommits))
         ServiceSample.commits Sample.timers)
    = Fulfilled (JObj [(lit "values", JArr [])])
  /\ forallb urlSafe (lit "?include=fix%2Fa+b%26c&pagelen=10") = true.
Proof.
  destruct (listing_requests
              (ServiceSample.service Sample.bothConfigured
                 (Resolves ServiceSample.noCommits))
              Sample.timers Sample.oauth ServiceSample.noCommits
              (JObj [(lit "values", JArr [])]))
    as (_ & Hcommits & _); [run..|].
  destruct (Hcommits ServiceSample.commits
              (lit "?include=fix%2Fa+b%26c&pagelen=10"))
    as [Hsafe Hlist]; [run..|].
  split; [|exact Hsafe].
  rewrite Hlist; run.
Defined.

Lemma createBranch_request_witness :
  fst (createBranch
         (ServiceSample.service Sample.bothConfigured
            (Resolves ServiceSample.noCommits))
         ServiceSample.branch Sample.timers)
    = Fulfilled (JObj [(lit "values", JArr [])]).
Proof.
  destruct (createBranch_request
              (ServiceSample.service Sample.bothConfigured
                 (Resolves ServiceSample.noCommits))
              ServiceSample.branch Sample.timers Sample.oauth
              ServiceSample.noCommits (JObj [(lit "values", JArr [])]))
    as (text & _ & Hcall); [run..|].
  rewrite Hcall; run.
Defined.
